(** * Hiwonder bus-servo protocol stack: a shallow embedding

    The development follows the Python sources of [bam/hiwonder]:

    - [hiwonder.py]                  : module [HiwonderServo]
    - [hiwonder_board_controller.py] : module [HiwonderBoardController]
    - [hiwonder_board_adapter.py]    : module [HiwonderBoardServo]
    - [hiwonder_board_hwi.py]        : module [HWI]

    Conventions.  Python [int]s are [Z]; a [bytes] object or a list of ints
    is a [list Z]; [None]-able results are [option]; exceptions are values
    of [exn] carried by [result].  A Python [float] is the rational [Q] it
    denotes.  The client modules compute on these rationals exactly;
    module [Binary64] gives the conversions between angles and device
    units once more with every floating-point operation rounded to the
    nearest binary64 number, as the interpreter performs it, and the
    bounds on what a conversion loses are stated there. *)

From Stdlib Require Import ZArith QArith Qabs Qround Qminmax Qpower.
From Stdlib Require Import List String Bool Lia Lqa.
From Stdlib Require Floats.
Import ListNotations.
Open Scope Z_scope.

(** * Python runtime *)

Inductive exn : Type := ValueError | TypeError | KeyError | IndexError.

Inductive result (A : Type) : Type :=
| Ok (a : A)
| Raise (e : exn).
Arguments Ok {A} a.
Arguments Raise {A} e.

(** Lines written by [print].  Each constructor stands for one [print]
    statement of the sources and carries the values it formats. *)
Inductive line : Type :=
| PrintTX (packet : list Z)
| PrintResponse (ret : list Z)
| PrintTimeoutHeader
| PrintWaitingForHeader (h : string)
| PrintHeaderError (header : string)
| PrintFailedLengthCommand
| PrintFailedData (remaining : Z) (data : list Z)
| PrintUnknownJoint (joint_name : string)
| PrintNoPositionData (servo_id : Z) (joint_name : string)
| PrintFailedReadPositions
| PrintErrorReadingPositions (e : exn).

(** The serial transport and the console.  [rx] holds the bytes that reach
    the input buffer before the read deadline, [tx] the frames handed to
    [serial.write], oldest first. *)
Record World : Type := mkWorld {
  rx : list Z;
  tx : list (list Z);
  stdout : list line
}.

(** Computations that read and write the world and may raise. *)
Definition M (A : Type) : Type := World -> World * result A.

Definition ret {A : Type} (a : A) : M A := fun w => (w, Ok a).

Definition raise {A : Type} (e : exn) : M A := fun w => (w, Raise e).

Definition bind {A B : Type} (m : M A) (k : A -> M B) : M B :=
  fun w => match m w with
           | (w', Ok a) => k a w'
           | (w', Raise e) => (w', Raise e)
           end.

Notation "x <- m ;; k" := (bind m (fun x => k))
  (at level 61, m at next level, right associativity).
Notation "m ;;; k" := (bind m (fun _ => k))
  (at level 61, right associativity).

Definition lift {A : Type} (r : result A) : M A := fun w => (w, r).

Definition print (l : line) : M unit :=
  fun w => (mkWorld (rx w) (tx w) (stdout w ++ [l]), Ok tt).

Definition len {A : Type} (l : list A) : Z := Z.of_nat (List.length l).

Definition is_byte (b : Z) : bool := (0 <=? b) && (b <? 256).

(** [bytes(xs)]: every element must be in [range(0, 256)]. *)
Definition to_bytes (xs : list Z) : result (list Z) :=
  if forallb is_byte xs then Ok xs else Raise ValueError.

(** [serial.write(b); serial.flush()]. *)
Definition serial_write (b : list Z) : M unit :=
  fun w => (mkWorld (rx w) (tx w ++ [b]) (stdout w), Ok tt).

(** [serial.read(n)]: up to [n] bytes, fewer when the timeout expires;
    nothing for [n <= 0]. *)
Definition serial_read (n : Z) : M (list Z) :=
  fun w => (mkWorld (skipn (Z.to_nat n) (rx w)) (tx w) (stdout w),
            Ok (firstn (Z.to_nat n) (rx w))).

(** [serial.in_waiting]. *)
Definition in_waiting : M Z := fun w => (w, Ok (len (rx w))).

(** [l[i]], negative indices counting from the end. *)
Definition getitem (l : list Z) (i : Z) : result Z :=
  let j := if i <? 0 then i + len l else i in
  if j <? 0 then Raise IndexError
  else match nth_error l (Z.to_nat j) with
       | Some x => Ok x
       | None => Raise IndexError
       end.

Definition sum (data : list Z) : Z := fold_left Z.add data 0.

Definition list_eqb (a b : list Z) : bool :=
  if list_eq_dec Z.eq_dec a b then true else false.

(** [format(h, "02X")] for a [bytes] object [h], as the f-strings
    [f"{h:02X}"] evaluate it: [bytes] inherits [object.__format__], which
    raises [TypeError] for every non-empty format specification. *)
Definition format_bytes_02X (h : list Z) : result string := Raise TypeError.

(** [int(x)] on a float: truncation toward zero. *)
Definition py_int (x : Q) : Z :=
  if Qlt_le_dec x 0 then Qceiling x else Qfloor x.

(** [np.pi], the double closest to pi, as the rational it denotes. *)
Definition np_pi : Q := 884279719003555 # 281474976710656.

(** The telemetry dictionary returned by [read_data]. *)
Record Data : Type := mkData {
  position : Q;
  speed : Q;
  load : Z;
  input_volts : Q;
  temp : Z
}.

(** Velocity sample history of the speed-estimating clients. *)
Record History : Type := mkHistory {
  last_position : option Q;
  last_time : option Q
}.

(** * [hiwonder.py]: direct single-servo client *)

Module HiwonderServo.

Definition CMD_SERVO_MOVE_TIME_WRITE : Z := 1.
Definition CMD_SERVO_TEMP_READ : Z := 26.
Definition CMD_SERVO_VIN_READ : Z := 27.
Definition CMD_SERVO_POS_READ : Z := 28.
Definition CMD_SERVO_LOAD_OR_UNLOAD_WRITE : Z := 31.

Definition _calculate_checksum (data : list Z) : Z :=
  Z.land (Z.lnot (sum data)) 0xFF.

Definition _send_command (servo_id command : Z) (params : list Z) : M unit :=
  let length := len params + 3 in
  head <- lift (to_bytes [0x55; 0x55; servo_id; length; command]) ;;
  let packet := head ++ params in
  let checksum := _calculate_checksum (skipn 2 packet) in
  tail <- lift (to_bytes [checksum]) ;;
  serial_write (packet ++ tail).

(** The header search of [_read_response].  [polls] is the number of
    iterations of the [while] loop that fit into its 100 ms deadline;
    leaving the loop without [break] is the [else: return None]. *)
Fixpoint wait_header (polls : nat) : M (option (list Z)) :=
  match polls with
  | O => ret None
  | S k =>
      n <- in_waiting ;;
      if 2 <=? n then
        header <- serial_read 2 ;;
        if list_eqb header [0x55; 0x55] then ret (Some header)
        else wait_header k
      else wait_header k
  end.

(** [_read_response].  The 10 ms [time.sleep] granted to a late packet has
    no counterpart here: [rx] already holds every byte that arrives in
    time. *)
Definition _read_response (polls : nat) (expected_length : Z)
  : M (option (list Z)) :=
  found <- wait_header polls ;;
  match found with
  | None => ret None
  | Some header =>
      data <- serial_read (expected_length - 2) ;;
      if len data <? expected_length - 2 then ret None
      else ret (Some (header ++ data))
  end.

Definition set_torque_enable (servo_id : Z) (enable : bool) : M unit :=
  params <- lift (to_bytes [if enable then 1 else 0]) ;;
  _send_command servo_id CMD_SERVO_LOAD_OR_UNLOAD_WRITE params.

(** Radians to device units as [set_goal_position] computes them. *)
Definition rad_to_units (position : Q) : Z :=
  let position_units := py_int (500 + (position / (2 * np_pi)) * 1000)%Q in
  Z.min (Z.max position_units 0) 1000.

(** Device units to radians as [read_position] computes them. *)
Definition units_to_rad (position_units : Z) : Q :=
  ((inject_Z (position_units - 500) / 1000) * (2 * np_pi))%Q.

Definition set_goal_position (servo_id : Z) (position : Q) (duration : Z)
  : M unit :=
  let position_units := rad_to_units position in
  params <- lift (to_bytes [Z.land position_units 0xFF;
                            Z.land (Z.shiftr position_units 8) 0xFF;
                            Z.land duration 0xFF;
                            Z.land (Z.shiftr duration 8) 0xFF]) ;;
  _send_command servo_id CMD_SERVO_MOVE_TIME_WRITE params.

Definition read_position (polls : nat) (servo_id : Z) : M Q :=
  _send_command servo_id CMD_SERVO_POS_READ [] ;;;
  response <- _read_response polls 8 ;;
  match response with
  | None => ret 0%Q
  | Some r =>
      if len r <? 8 then ret 0%Q
      else
        lo <- lift (getitem r 5) ;;
        hi <- lift (getitem r 6) ;;
        let position_units := Z.lor lo (Z.shiftl hi 8) in
        ret (units_to_rad position_units)
  end.

Definition read_voltage (polls : nat) (servo_id : Z) : M Q :=
  _send_command servo_id CMD_SERVO_VIN_READ [] ;;;
  response <- _read_response polls 7 ;;
  match response with
  | None => ret 0%Q
  | Some r =>
      if len r <? 7 then ret 0%Q
      else
        v <- lift (getitem r 5) ;;
        ret (inject_Z v / 10)%Q
  end.

Definition read_temperature (polls : nat) (servo_id : Z) : M Z :=
  _send_command servo_id CMD_SERVO_TEMP_READ [] ;;;
  response <- _read_response polls 7 ;;
  match response with
  | None => ret 0
  | Some r =>
      if len r <? 7 then ret 0
      else lift (getitem r 5)
  end.

Definition read_data (polls : nat) (servo_id : Z) : M Data :=
  position <- read_position polls servo_id ;;
  voltage <- read_voltage polls servo_id ;;
  temperature <- read_temperature polls servo_id ;;
  ret (mkData position 0 0 voltage temperature).

End HiwonderServo.

(** [HiwonderServoWithSpeedEstimation]: the subclass keeps the previous
    sample.  [current_time] is the value [time.time()] returns at the start
    of the call; the new history is stored only when the call returns. *)
Module HiwonderServoWithSpeedEstimation.

Record Self : Type := mkSelf {
  servo_id : Z;
  history : History
}.

Definition __init__ (servo_id : Z) : Self :=
  mkSelf servo_id (mkHistory None None).

Definition read_data (polls : nat) (current_time : Q) (self : Self)
  : M (Data * Self) :=
  position <- HiwonderServo.read_position polls (servo_id self) ;;
  voltage <- HiwonderServo.read_voltage polls (servo_id self) ;;
  temperature <- HiwonderServo.read_temperature polls (servo_id self) ;;
  let speed :=
    match last_position (history self), last_time (history self) with
    | Some lp, Some lt =>
        let dt := (current_time - lt)%Q in
        if Qlt_le_dec 0 dt then ((position - lp) / dt)%Q else 0%Q
    | _, _ => 0%Q
    end in
  ret (mkData position speed 0 voltage temperature,
       mkSelf (servo_id self) (mkHistory (Some position) (Some current_time))).

End HiwonderServoWithSpeedEstimation.

(** * [hiwonder_board_controller.py]: board protocol client *)

Module HiwonderBoardController.

Definition CMD_SERVO_MOVE : Z := 0x03.
Definition CMD_GET_BATTERY_VOLTAGE : Z := 0x0F.
Definition CMD_MULT_SERVO_UNLOAD : Z := 0x14.
Definition CMD_MULT_SERVO_POS_READ : Z := 0x15.

Definition HEADER : list Z := [0x55; 0x55].

Definition _send_command (command : Z) (params : list Z) : M unit :=
  let length := 2 + len params in
  let packet := HEADER ++ [length; command] ++ params in
  print (PrintTX packet) ;;;
  b <- lift (to_bytes packet) ;;
  serial_write b.

(** The [while(True)] loop of [_read_response]: [true] when it leaves by
    [break], [false] when it returns [None].  Every iteration consumes one
    byte, so [fuel] above the number of buffered bytes is never used up. *)
Fixpoint wait_first_header (fuel : nat) : M bool :=
  match fuel with
  | O => ret false
  | S k =>
      h <- serial_read 1 ;;
      if len h =? 0 then
        print PrintTimeoutHeader ;;; ret false
      else if negb (list_eqb h [0x55]) then
        s <- lift (format_bytes_02X h) ;;
        print (PrintWaitingForHeader s) ;;;
        wait_first_header k
      else ret true
  end.

(** [_read_response].  The [timeout] attribute that the method sets and
    restores in [finally] is not part of the world: what a read returns is
    fixed by [rx]. *)
Definition _read_response : M (option (list Z)) :=
  fuel <- (fun w => (w, Ok (S (List.length (rx w))))) ;;
  found <- wait_first_header fuel ;;
  if negb found then ret None
  else
    header <- serial_read 1 ;;
    if negb (list_eqb header [0x55]) then
      s <- lift (format_bytes_02X header) ;;
      print (PrintHeaderError s) ;;;
      ret None
    else
      metadata <- serial_read 2 ;;
      if negb (len metadata =? 2) then
        print PrintFailedLengthCommand ;;; ret None
      else
        match metadata with
        | [length; command] =>
            let remaining := length - 2 in
            data <- serial_read remaining ;;
            if negb (len data =? remaining) then
              print (PrintFailedData remaining data) ;;; ret None
            else
              let r := [length; command] ++ data in
              print (PrintResponse r) ;;;
              ret (Some r)
        | _ => raise ValueError
        end.

Definition move_servos (servo_commands : list (Z * Z * Z)) : M bool :=
  let params :=
    fold_left
      (fun params '(servo_id, position, time_ms) =>
         ((((params ++ [servo_id])
              ++ [Z.land position 0xFF])
             ++ [Z.land (Z.shiftr position 8) 0xFF])
            ++ [Z.land time_ms 0xFF])
           ++ [Z.land (Z.shiftr time_ms 8) 0xFF])
      servo_commands [len servo_commands] in
  _send_command CMD_SERVO_MOVE params ;;;
  ret true.

Definition get_battery_voltage : M (option Q) :=
  _send_command CMD_GET_BATTERY_VOLTAGE [] ;;;
  response <- _read_response ;;
  match response with
  | None => ret None
  | Some r =>
      if len r =? 0 then ret None
      else
        c <- lift (getitem r 1) ;;
        if negb (c =? CMD_GET_BATTERY_VOLTAGE) then ret None
        else
          l <- lift (getitem r 0) ;;
          if negb (l =? 4) then ret None
          else
            lo <- lift (getitem r 2) ;;
            hi <- lift (getitem r 3) ;;
            let voltage_mv := Z.lor lo (Z.shiftl hi 8) in
            ret (Some (inject_Z voltage_mv / 1000)%Q)
  end.

Definition unload_servos (servo_ids : list Z) : M bool :=
  let params := [len servo_ids] ++ servo_ids in
  _send_command CMD_MULT_SERVO_UNLOAD params ;;;
  ret true.

(** The [for i in range(count)] loop of [read_servo_positions]. *)
Fixpoint positions_loop (response : list Z) (range : list nat)
                        (positions : list (Z * Z)) : M (list (Z * Z)) :=
  match range with
  | [] => ret positions
  | i :: range' =>
      let offset := 3 + Z.of_nat i * 3 in
      if offset + 2 <? len response then
        servo_id <- lift (getitem response offset) ;;
        pos_low <- lift (getitem response (offset + 1)) ;;
        pos_high <- lift (getitem response (offset + 2)) ;;
        let position := Z.lor pos_low (Z.shiftl pos_high 8) in
        positions_loop response range' (positions ++ [(servo_id, position)])
      else positions_loop response range' positions
  end.

Definition read_servo_positions (servo_ids : list Z)
  : M (option (list (Z * Z))) :=
  let params := [len servo_ids] ++ servo_ids in
  _send_command CMD_MULT_SERVO_POS_READ params ;;;
  response <- _read_response ;;
  match response with
  | None => ret None
  | Some r =>
      if (len r =? 0) || negb (3 <=? len r) then ret None
      else
        count <- lift (getitem r 2) ;;
        positions <- positions_loop r (seq 0 (Z.to_nat count)) [] ;;
        ret (Some positions)
  end.

End HiwonderBoardController.

(** * [hiwonder_board_adapter.py]: one servo behind the board *)

Module HiwonderBoardServo.

Definition set_torque_enable (servo_id : Z) (enable : bool) : M unit :=
  if negb enable then
    HiwonderBoardController.unload_servos [servo_id] ;;; ret tt
  else ret tt.

Definition rad_to_units (position : Q) : Z :=
  let position_units := py_int (500 + (position / (2 * np_pi)) * 1000)%Q in
  Z.min (Z.max position_units 0) 1000.

Definition units_to_rad (position_units : Z) : Q :=
  ((inject_Z (position_units - 500) / 1000) * (2 * np_pi))%Q.

Definition set_goal_position (servo_id : Z) (position : Q) (duration : Z)
  : M unit :=
  let position_units := rad_to_units position in
  let duration := if duration =? 0 then 20 else duration in
  HiwonderBoardController.move_servos [(servo_id, position_units, duration)] ;;;
  ret tt.

(** The [for servo_id, position_units in positions] search of
    [read_position]: the first entry of this servo decides. *)
Fixpoint first_position (self_servo_id : Z) (positions : list (Z * Z)) : Q :=
  match positions with
  | [] => 0%Q
  | (servo_id, position_units) :: rest =>
      if servo_id =? self_servo_id then units_to_rad position_units
      else first_position self_servo_id rest
  end.

Definition read_position (servo_id : Z) : M Q :=
  positions <- HiwonderBoardController.read_servo_positions [servo_id] ;;
  match positions with
  | None => ret 0%Q
  | Some ps =>
      if len ps =? 0 then ret 0%Q
      else ret (first_position servo_id ps)
  end.

Definition read_voltage : M Q :=
  voltage <- HiwonderBoardController.get_battery_voltage ;;
  match voltage with
  | Some v => ret v
  | None => ret 0%Q
  end.

Definition read_temperature : M Z := ret 0.

Definition read_data (servo_id : Z) : M Data :=
  position <- read_position servo_id ;;
  voltage <- read_voltage ;;
  ret (mkData position 0 0 voltage 0).

End HiwonderBoardServo.

Module HiwonderBoardServoWithSpeedEstimation.

Record Self : Type := mkSelf {
  servo_id : Z;
  history : History
}.

Definition __init__ (servo_id : Z) : Self :=
  mkSelf servo_id (mkHistory None None).

Definition read_data (current_time : Q) (self : Self) : M (Data * Self) :=
  position <- HiwonderBoardServo.read_position (servo_id self) ;;
  voltage <- HiwonderBoardServo.read_voltage ;;
  let speed :=
    match last_position (history self), last_time (history self) with
    | Some lp, Some lt =>
        let dt := (current_time - lt)%Q in
        if Qlt_le_dec 0 dt then ((position - lp) / dt)%Q else 0%Q
    | _, _ => 0%Q
    end in
  ret (mkData position speed 0 voltage 0,
       mkSelf (servo_id self) (mkHistory (Some position) (Some current_time))).

End HiwonderBoardServoWithSpeedEstimation.

(** * Python dictionaries in insertion order *)

Section Dict.
Context {K V : Type}.
Variable eqb : K -> K -> bool.

Fixpoint dict_lookup (d : list (K * V)) (k : K) : option V :=
  match d with
  | [] => None
  | (k', v) :: rest => if eqb k' k then Some v else dict_lookup rest k
  end.

(** [k in d]. *)
Definition dict_in (d : list (K * V)) (k : K) : bool :=
  match dict_lookup d k with Some _ => true | None => false end.

(** [d[k]]. *)
Definition dict_get (d : list (K * V)) (k : K) : result V :=
  match dict_lookup d k with Some v => Ok v | None => Raise KeyError end.

(** [d[k] = v]: a present key keeps its place. *)
Fixpoint dict_set (d : list (K * V)) (k : K) (v : V) : list (K * V) :=
  match d with
  | [] => [(k, v)]
  | (k', v') :: rest =>
      if eqb k' k then (k', v) :: rest else (k', v') :: dict_set rest k v
  end.
End Dict.

(** [try: body / except Exception as e: handler(e)]. *)
Definition try_except {A : Type} (body : M A) (handler : exn -> M A) : M A :=
  fun w => match body w with
           | (w', Ok a) => (w', Ok a)
           | (w', Raise e) => handler e w'
           end.

(** [np.rint]: round to the nearest integer, ties to even. *)
Definition rint (x : Q) : Z :=
  let f := Qfloor x in
  match ((x - inject_Z f) ?= (1 # 2))%Q with
  | Lt => f
  | Gt => f + 1
  | Eq => if Z.even f then f else f + 1
  end.

(** [np.around(x, 3)]. *)
Definition around3 (x : Q) : Q := (inject_Z (rint (x * 1000)) / 1000)%Q.

(** [min(a, b)] and [max(a, b)] of the Python builtins: the first argument
    wins unless the second is strictly smaller (larger). *)
Definition py_min (a b : Q) : Q := if Qlt_le_dec b a then b else a.
Definition py_max (a b : Q) : Q := if Qlt_le_dec a b then b else a.

(** * [hiwonder_board_hwi.py]: joint-space hardware interface *)

Module HWI.

(** [self.joints], in declaration order. *)
Definition joints : list (string * Z) :=
  [ ("left_hip_yaw", 100); ("left_hip_roll", 101); ("left_hip_pitch", 102);
    ("left_knee", 103); ("left_ankle", 104);
    ("neck_pitch", 110); ("head_pitch", 111); ("head_yaw", 112);
    ("head_roll", 113);
    ("right_hip_yaw", 105); ("right_hip_roll", 106);
    ("right_hip_pitch", 107); ("right_knee", 108); ("right_ankle", 109) ]%string.

Definition default_move_duration_ms : Z := 20.

Definition _radians_to_servo_units (radians : Q) : Z :=
  let units := (500 + (radians * 1000 / (418879 # 100000)))%Q in
  py_int (py_max 0 (py_min 1000 units)).

Definition _servo_units_to_radians (units : Z) : Q :=
  (inject_Z (units - 500) * (418879 # 100000) / 1000)%Q.

(** [name in ignore] for a list of joint names. *)
Definition list_in (l : list string) (name : string) : bool :=
  existsb (String.eqb name) l.

Section WithConfig.

(** [self.joints_offsets = duck_config.joints_offset]: the calibration
    table comes with the configuration object. *)
Variable joints_offsets : list (string * Q).

Definition set_position (joint_name : string) (pos : Q) : M unit :=
  if negb (dict_in String.eqb joints joint_name) then raise ValueError
  else
    servo_id <- lift (dict_get String.eqb joints joint_name) ;;
    offset <- lift (dict_get String.eqb joints_offsets joint_name) ;;
    let pos_with_offset := (pos + offset)%Q in
    let servo_units := _radians_to_servo_units pos_with_offset in
    HiwonderBoardController.move_servos
      [(servo_id, servo_units, default_move_duration_ms)] ;;;
    ret tt.

(** The [for joint_name, position in joints_positions.items()] loop of
    [set_position_all]. *)
Fixpoint commands_loop (items : list (string * Q)) (move_duration_ms : Z)
                       (servo_commands : list (Z * Z * Z))
  : M (list (Z * Z * Z)) :=
  match items with
  | [] => ret servo_commands
  | (joint_name, position) :: rest =>
      if negb (dict_in String.eqb joints joint_name) then
        print (PrintUnknownJoint joint_name) ;;;
        commands_loop rest move_duration_ms servo_commands
      else
        servo_id <- lift (dict_get String.eqb joints joint_name) ;;
        offset <- lift (dict_get String.eqb joints_offsets joint_name) ;;
        let pos_with_offset := (position + offset)%Q in
        let servo_units := _radians_to_servo_units pos_with_offset in
        commands_loop rest move_duration_ms
          (servo_commands ++ [(servo_id, servo_units, move_duration_ms)])
  end.

Definition set_position_all (joints_positions : list (string * Q))
                            (move_duration_ms : option Z) : M unit :=
  let move_duration_ms :=
    match move_duration_ms with
    | None => default_move_duration_ms
    | Some d => d
    end in
  servo_commands <- commands_loop joints_positions move_duration_ms [] ;;
  if negb (len servo_commands =? 0) then
    HiwonderBoardController.move_servos servo_commands ;;; ret tt
  else ret tt.

(** [[self.joints[joint] for joint in self.joints.keys()
      if joint not in ignore]]. *)
Fixpoint ids_to_read (keys : list string) (ignore : list string)
  : M (list Z) :=
  match keys with
  | [] => ret []
  | joint :: rest =>
      if negb (list_in ignore joint) then
        servo_id <- lift (dict_get String.eqb joints joint) ;;
        ids <- ids_to_read rest ignore ;;
        ret (servo_id :: ids)
      else ids_to_read rest ignore
  end.

(** The [for joint_name in self.joints.keys()] loop that builds the
    result of [get_present_positions]. *)
Fixpoint present_loop (keys : list string) (ignore : list string)
                      (id_to_position : list (Z * Z))
                      (present_positions : list Q) : M (list Q) :=
  match keys with
  | [] => ret present_positions
  | joint_name :: rest =>
      if list_in ignore joint_name then
        present_loop rest ignore id_to_position present_positions
      else
        servo_id <- lift (dict_get String.eqb joints joint_name) ;;
        match dict_lookup Z.eqb id_to_position servo_id with
        | Some servo_units =>
            let radians := _servo_units_to_radians servo_units in
            offset <- lift (dict_get String.eqb joints_offsets joint_name) ;;
            let radians_without_offset := (radians - offset)%Q in
            present_loop rest ignore id_to_position
              (present_positions ++ [radians_without_offset])
        | None =>
            print (PrintNoPositionData servo_id joint_name) ;;;
            present_loop rest ignore id_to_position
              (present_positions ++ [0%Q])
        end
  end.

Definition get_present_positions (ignore : list string)
  : M (option (list Q)) :=
  try_except
    (servo_ids_to_read <- ids_to_read (map fst joints) ignore ;;
     positions_data <-
       HiwonderBoardController.read_servo_positions servo_ids_to_read ;;
     match positions_data with
     | None => print PrintFailedReadPositions ;;; ret None
     | Some pd =>
         let id_to_position :=
           fold_left (fun d '(servo_id, pos) => dict_set Z.eqb d servo_id pos)
                     pd [] in
         present_positions <-
           present_loop (map fst joints) ignore id_to_position [] ;;
         ret (Some (map around3 present_positions))
     end)
    (fun e => print (PrintErrorReadingPositions e) ;;; ret None).

Definition turn_off : M unit :=
  HiwonderBoardController.unload_servos (map snd joints) ;;; ret tt.

End WithConfig.

(** [get_present_velocities]: the board protocol has no velocity feedback;
    [rad_s] is not used. *)
Definition get_present_velocities (rad_s : bool) (ignore : list string)
  : list Q :=
  let num_joints :=
    List.length (filter (fun j => negb (list_in ignore j)) (map fst joints)) in
  repeat 0%Q num_joints.

End HWI.

(** * The unit conversions in binary64

    Python computes the conversions on IEEE 754 binary64 numbers: every
    arithmetic operation returns the representable number nearest to the
    exact result, ties going to the even significand.  [fl] is that
    rounding on the rationals, for magnitudes below [2^1024] (angles and
    device units stay far below the overflow threshold, so infinities do
    not arise).  The conversions below are those of the clients with [fl]
    applied where the interpreter rounds: at every float literal, every
    conversion of an [int] to [float], and every [+], [-], [*] and [/]. *)

Module Binary64.

(** [floor (log2 |x|)], the position of the leading bit of [x <> 0]. *)
Definition ilog2 (x : Q) : Z :=
  let k := Z.log2 (Z.abs (Qnum x)) - Z.log2 (Zpos (Qden x)) in
  if Qlt_le_dec (Qabs x) (2 ^ k) then k - 1 else k.

(** The exponent of the unit in the last place around [x]: the significand
    has 53 bits, and the spacing is never finer than [2^-1074]
    (subnormal numbers). *)
Definition ulp_exponent (x : Q) : Z := Z.max (ilog2 x - 52) (-1074).

(** Rounding to the nearest binary64 number, ties to even. *)
Definition fl (x : Q) : Q :=
  let e := ulp_exponent x in
  Qred (inject_Z (rint (x / 2 ^ e)) * 2 ^ e).

(** [np.around(x, 3)] on a float array: multiply by [1000.0], [np.rint],
    divide by [1000.0]. *)
Definition around3 (x : Q) : Q :=
  fl (inject_Z (rint (fl (x * 1000))) / 1000).

Module HiwonderServo.

(** [int(500 + (position / (2 * np.pi)) * 1000)], then [np.clip]. *)
Definition rad_to_units (position : Q) : Z :=
  let position_units :=
    py_int (fl (500 + fl (fl (position / fl (2 * np_pi)) * 1000))) in
  Z.min (Z.max position_units 0) 1000.

(** [((position_units - 500) / 1000.0) * (2 * np.pi)]. *)
Definition units_to_rad (position_units : Z) : Q :=
  fl (fl (fl (inject_Z (position_units - 500)) / 1000) * fl (2 * np_pi)).

End HiwonderServo.

Module HWI.

(** [500 + (radians * 1000.0 / 4.18879)], clamped, then [int]. *)
Definition _radians_to_servo_units (radians : Q) : Z :=
  let units := fl (500 + fl (fl (radians * 1000) / fl (418879 # 100000))) in
  py_int (py_max 0 (py_min 1000 units)).

(** [(units - 500) * 4.18879 / 1000.0]. *)
Definition _servo_units_to_radians (units : Z) : Q :=
  fl (fl (fl (inject_Z (units - 500)) * fl (418879 # 100000)) / 1000).

End HWI.

(** The rational a machine float denotes, and the machine float of an
    integer: they relate [fl] to the binary64 operations of the kernel. *)
Definition machine_value (f : PrimFloat.float) : option Q :=
  match FloatOps.Prim2SF f with
  | SpecFloat.S754_zero _ => Some 0%Q
  | SpecFloat.S754_finite s m e =>
      Some (Qred (inject_Z (if s then Z.neg m else Z.pos m) * 2 ^ e))
  | _ => None
  end.

Definition machine_of_Z (z : Z) : PrimFloat.float :=
  match z with
  | Z0 => PrimFloat.zero
  | Zpos p => PrimFloat.of_uint63 (Uint63.of_Z (Zpos p))
  | Zneg p => PrimFloat.opp (PrimFloat.of_uint63 (Uint63.of_Z (Zpos p)))
  end.

(** The conversions of [HWI] on machine floats. *)
Definition machine_4_18879 : PrimFloat.float :=
  PrimFloat.div (machine_of_Z 418879) (machine_of_Z 100000).

Definition machine_units (radians : PrimFloat.float) : PrimFloat.float :=
  PrimFloat.add (machine_of_Z 500)
    (PrimFloat.div (PrimFloat.mul radians (machine_of_Z 1000))
                   machine_4_18879).

Definition machine_radians (units : Z) : PrimFloat.float :=
  PrimFloat.div (PrimFloat.mul (machine_of_Z (units - 500)) machine_4_18879)
                (machine_of_Z 1000).

End Binary64.

(** * [record.py] and [record_board.py]: the way back to zero

    After a recording both scripts walk the goal position back to zero in
    steps of [max_variation] and command every step.  [fuel] bounds the
    number of turns of the [while abs(goal_position) > 0.01] loop; the
    result is [None] when the bound is reached first, otherwise the goal
    position the loop ends with. *)

Module Record.

Definition return_dt : Q := 1 # 100.
Definition max_variation : Q := return_dt * 1.

Definition next_goal (goal_position : Q) : Q :=
  if Qlt_le_dec 0 goal_position
  then py_max 0 (goal_position - max_variation)
  else py_min 0 (goal_position + max_variation).

Fixpoint return_to_zero (fuel : nat) (servo_id : Z) (goal_position : Q)
  : M (option Q) :=
  if Qlt_le_dec (1 # 100) (Qabs goal_position) then
    match fuel with
    | O => ret None
    | S k =>
        let goal_position := next_goal goal_position in
        HiwonderServo.set_goal_position servo_id goal_position 0 ;;;
        return_to_zero k servo_id goal_position
    end
  else ret (Some goal_position).

End Record.

Module RecordBoard.

Fixpoint return_to_zero (fuel : nat) (servo_id : Z) (goal_position : Q)
  : M (option Q) :=
  if Qlt_le_dec (1 # 100) (Qabs goal_position) then
    match fuel with
    | O => ret None
    | S k =>
        let goal_position := Record.next_goal goal_position in
        HiwonderBoardServo.set_goal_position servo_id goal_position 50 ;;;
        return_to_zero k servo_id goal_position
    end
  else ret (Some goal_position).

End RecordBoard.

(** * Vocabulary of the statements *)

(** The four board-mode commands and how each is issued. *)
Inductive board_command : Type :=
| MoveServos (servo_commands : list (Z * Z * Z))
| UnloadServos (servo_ids : list Z)
| ReadServoPositions (servo_ids : list Z)
| GetBatteryVoltage.

Definition issue (c : board_command) : M unit :=
  match c with
  | MoveServos servo_commands =>
      HiwonderBoardController.move_servos servo_commands ;;; ret tt
  | UnloadServos servo_ids =>
      HiwonderBoardController.unload_servos servo_ids ;;; ret tt
  | ReadServoPositions servo_ids =>
      HiwonderBoardController.read_servo_positions servo_ids ;;; ret tt
  | GetBatteryVoltage =>
      HiwonderBoardController.get_battery_voltage ;;; ret tt
  end.

Definition command_code (c : board_command) : Z :=
  match c with
  | MoveServos _ => 0x03
  | UnloadServos _ => 0x14
  | ReadServoPositions _ => 0x15
  | GetBatteryVoltage => 0x0F
  end.

(** The five bytes of one batch entry, as the protocol lays them out. *)
Definition servo_entry (e : Z * Z * Z) : list Z :=
  let '(servo_id, position, time_ms) := e in
  [servo_id;
   Z.land position 0xFF; Z.land (Z.shiftr position 8) 0xFF;
   Z.land time_ms 0xFF; Z.land (Z.shiftr time_ms 8) 0xFF].

Definition move_params (servo_commands : list (Z * Z * Z)) : list Z :=
  len servo_commands :: flat_map servo_entry servo_commands.

Definition command_params (c : board_command) : list Z :=
  match c with
  | MoveServos servo_commands => move_params servo_commands
  | UnloadServos servo_ids => len servo_ids :: servo_ids
  | ReadServoPositions servo_ids => len servo_ids :: servo_ids
  | GetBatteryVoltage => []
  end.

(** A board frame without trailer: header, length, command, parameters. *)
Definition board_frame (command : Z) (params : list Z) : list Z :=
  [0x55; 0x55; 2 + len params; command] ++ params.

(** The one's-complement checksum over the bytes from the length byte
    through the last parameter. *)
Definition board_checksum (command : Z) (params : list Z) : Z :=
  Z.land (Z.lnot (sum ([2 + len params; command] ++ params))) 0xFF.

Definition empty_world : World := mkWorld [] [] [].

(** A single-servo frame with its checksum, as the servo protocol encodes
    commands and responses alike. *)
Definition servo_frame (servo_id command : Z) (params : list Z) : list Z :=
  let body := [servo_id; len params + 3; command] ++ params in
  [0x55; 0x55] ++ body ++ [HiwonderServo._calculate_checksum body].

(** [corrupt i v l]: the buffer [l] with the byte at index [i] replaced by
    [v]. *)
Fixpoint corrupt (i : nat) (v : Z) (l : list Z) : list Z :=
  match l with
  | [] => []
  | x :: r =>
      match i with
      | O => v :: r
      | S k => x :: corrupt k v r
      end
  end.

(** The two components that convert between radians and device units. *)
Inductive component : Type := SingleServo | JointHWI.

Definition span (c : component) : Q :=
  match c with
  | SingleServo => (2 * np_pi)%Q
  | JointHWI => 418879 # 100000
  end.

Definition rad_to_units (c : component) : Q -> Z :=
  match c with
  | SingleServo => HiwonderServo.rad_to_units
  | JointHWI => HWI._radians_to_servo_units
  end.

Definition units_to_rad (c : component) : Z -> Q :=
  match c with
  | SingleServo => HiwonderServo.units_to_rad
  | JointHWI => HWI._servo_units_to_radians
  end.

(** The same conversions with the rounding of binary64. *)
Definition rad_to_units64 (c : component) : Q -> Z :=
  match c with
  | SingleServo => Binary64.HiwonderServo.rad_to_units
  | JointHWI => Binary64.HWI._radians_to_servo_units
  end.

Definition units_to_rad64 (c : component) : Z -> Q :=
  match c with
  | SingleServo => Binary64.HiwonderServo.units_to_rad
  | JointHWI => Binary64.HWI._servo_units_to_radians
  end.

(** What a speed-estimating [read_data] owes its caller: [h] is the
    history before the call, [now] the time of the new sample, [d] the
    telemetry returned and [h'] the history afterwards. *)
Definition speed_estimated (h : History) (now : Q) (d : Data) (h' : History)
  : Prop :=
  (h = mkHistory None None -> speed d = 0%Q)
  /\ (forall p0 t0 : Q,
        last_position h = Some p0 -> last_time h = Some t0 ->
        ((0 < now - t0)%Q ->
         speed d = ((position d - p0) / (now - t0))%Q)
        /\ ((now - t0 <= 0)%Q -> speed d = 0%Q))
  /\ h' = mkHistory (Some (position d)) (Some now).

(** The outcome of a call that either returns or raises [TypeError]. *)
Definition returns_or_type_error {A : Type} (outcome : World * result A)
  : Prop :=
  match snd outcome with
  | Ok _ => True
  | Raise e => e = TypeError
  end.

(** [name] is a key of the joint table. *)
Definition known_joint (name : string) : bool :=
  dict_in String.eqb HWI.joints name.

(** The calibration table has an offset for every known joint among
    [names]. *)
Definition offsets_cover (joints_offsets : list (string * Q))
                         (names : list string) : bool :=
  forallb (fun name => negb (known_joint name)
                       || dict_in String.eqb joints_offsets name) names.

(** The batch entry of one item of the positions mapping. *)
Definition command_of (joints_offsets : list (string * Q)) (duration : Z)
                      (item : string * Q) : Z * Z * Z :=
  let servo_id :=
    match dict_lookup String.eqb HWI.joints (fst item) with
    | Some i => i
    | None => 0
    end in
  let offset :=
    match dict_lookup String.eqb joints_offsets (fst item) with
    | Some x => x
    | None => 0%Q
    end in
  (servo_id, HWI._radians_to_servo_units (snd item + offset)%Q, duration).

(** A calibration table and a positions mapping for the examples: four
    joints of the table and one name that is not a joint. *)
Definition example_offsets : list (string * Q) :=
  [("left_knee", 1 # 10); ("head_yaw", 0 # 1); ("left_ankle", 0 # 1);
   ("neck_pitch", -1 # 20)]%string.

Definition example_positions : list (string * Q) :=
  [("left_knee", 1 # 2); ("head_yaw", 0 # 1); ("tail", 1 # 1);
   ("left_ankle", -1 # 4); ("neck_pitch", 0 # 1)]%string.

(** The joints [get_present_positions] reports on, in declaration order. *)
Definition kept_joints (ignore : list string) : list (string * Z) :=
  filter (fun joint => negb (HWI.list_in ignore (fst joint))) HWI.joints.

(** The dictionary [{servo_id: pos for servo_id, pos in positions_data}]. *)
Definition positions_dict (positions_data : list (Z * Z)) : list (Z * Z) :=
  fold_left (fun d '(servo_id, pos) => dict_set Z.eqb d servo_id pos)
            positions_data [].

(** The servo of [joint] has an entry in the dictionary of positions. *)
Definition has_telemetry (id_to_position : list (Z * Z)) (joint : string * Z)
  : bool :=
  dict_in Z.eqb id_to_position (snd joint).

(** The value [get_present_positions] appends for one joint, before
    rounding: the calibrated angle, or 0.0 without telemetry. *)
Definition present_entry (joints_offsets : list (string * Q))
                         (id_to_position : list (Z * Z))
                         (joint : string * Z) : Q :=
  match dict_lookup Z.eqb id_to_position (snd joint) with
  | Some servo_units =>
      (HWI._servo_units_to_radians servo_units
       - match dict_lookup String.eqb joints_offsets (fst joint) with
         | Some offset => offset
         | None => 0
         end)%Q
  | None => 0%Q
  end.

(** The calibration table has an offset for every joint of [kept] whose
    servo has an entry in the dictionary of positions: the joints for which
    [get_present_positions] looks an offset up. *)
Definition telemetry_calibrated (joints_offsets : list (string * Q))
                                (id_to_position : list (Z * Z))
                                (kept : list (string * Z)) : bool :=
  forallb (fun joint => negb (has_telemetry id_to_position joint)
                        || dict_in String.eqb joints_offsets (fst joint))
          kept.

(** A calibration table giving every joint the offset 0.1. *)
Definition uniform_offsets : list (string * Q) :=
  map (fun joint => (fst joint, 1 # 10)) HWI.joints.

(** The bytes of the position triples of a board response, and the pair
    each triple denotes. *)
Definition triple_bytes (t : Z * Z * Z) : list Z :=
  let '(servo_id, pos_low, pos_high) := t in [servo_id; pos_low; pos_high].

Definition triple_position (t : Z * Z * Z) : Z * Z :=
  let '(servo_id, pos_low, pos_high) := t in
  (servo_id, Z.lor pos_low (Z.shiftl pos_high 8)).

(** * Basic facts about the runtime *)

Lemma len_app {A : Type} (a b : list A) : len (a ++ b) = len a + len b.
Proof. unfold len. rewrite length_app. lia. Qed.

Lemma len_nonneg {A : Type} (l : list A) : 0 <= len l.
Proof. unfold len. lia. Qed.

Lemma list_eqb_true (a b : list Z) : list_eqb a b = true <-> a = b.
Proof.
  unfold list_eqb. destruct (list_eq_dec Z.eq_dec a b); split; congruence.
Qed.

Lemma list_eqb_refl (a : list Z) : list_eqb a a = true.
Proof. now apply list_eqb_true. Qed.

Lemma getitem_nth (l : list Z) (n : nat) (x : Z) :
  nth_error l n = Some x -> getitem l (Z.of_nat n) = Ok x.
Proof.
  intros H. unfold getitem.
  destruct (Z.ltb_spec (Z.of_nat n) 0) as [Hn | Hn]; [lia |].
  destruct (Z.ltb_spec (Z.of_nat n) 0); [lia |].
  now rewrite Nat2Z.id, H.
Qed.

Lemma is_byte_land (x : Z) : is_byte (Z.land x 0xFF) = true.
Proof.
  unfold is_byte.
  assert (H : 0 <= Z.land x 0xFF < 256).
  { change 0xFF with (Z.ones 8). rewrite Z.land_ones by lia.
    apply Z.mod_pos_bound. reflexivity. }
  apply andb_true_iff. split; [apply Z.leb_le | apply Z.ltb_lt]; lia.
Qed.

(** * The board frame writer *)

Lemma board_send_command (command : Z) (params : list Z) (w : World) :
  HiwonderBoardController._send_command command params w =
  let packet := board_frame command params in
  let out := stdout w ++ [PrintTX packet] in
  if forallb is_byte packet
  then (mkWorld (rx w) (tx w ++ [packet]) out, Ok tt)
  else (mkWorld (rx w) (tx w) out, Raise ValueError).
Proof.
  unfold HiwonderBoardController._send_command, board_frame, bind, print,
    lift, to_bytes, serial_write, HiwonderBoardController.HEADER.
  cbn [app rx tx stdout].
  destruct (forallb is_byte _); reflexivity.
Qed.

(** Reading from a buffer of known shape. *)
Lemma serial_read_1_cons (h : Z) (r : list Z) (t : list (list Z)) (o : list line) :
  serial_read 1 (mkWorld (h :: r) t o) = (mkWorld r t o, Ok [h]).
Proof. reflexivity. Qed.

Lemma serial_read_nil (n : Z) (t : list (list Z)) (o : list line) :
  serial_read n (mkWorld [] t o) = (mkWorld [] t o, Ok []).
Proof.
  unfold serial_read. cbn [rx tx stdout].
  now rewrite firstn_nil, skipn_nil.
Qed.

Lemma list_eqb_single (h : Z) : list_eqb [h] [0x55] = (h =? 0x55).
Proof.
  destruct (Z.eqb_spec h 0x55) as [-> | Hh]; [apply list_eqb_refl |].
  unfold list_eqb. destruct (list_eq_dec Z.eq_dec [h] [85]); congruence.
Qed.

(** One turn of the header loop decides: the branch that would go round
    again formats a [bytes] object and raises. *)
Lemma wait_first_header_S (k : nat) (w : World) :
  HiwonderBoardController.wait_first_header (S k) w =
  match rx w with
  | [] => (mkWorld [] (tx w) (stdout w ++ [PrintTimeoutHeader]), Ok false)
  | h :: r =>
      if h =? 0x55 then (mkWorld r (tx w) (stdout w), Ok true)
      else (mkWorld r (tx w) (stdout w), Raise TypeError)
  end.
Proof.
  destruct w as [r t o]. cbn [rx tx stdout].
  cbn [HiwonderBoardController.wait_first_header]. unfold bind at 1.
  destruct r as [| h r].
  - rewrite serial_read_nil. reflexivity.
  - rewrite serial_read_1_cons.
    change (len [h] =? 0) with false. cbv iota.
    rewrite list_eqb_single.
    destruct (h =? 0x55); reflexivity.
Qed.

(** What [_read_response] of the board client does, by the shape of the
    input buffer. *)
Lemma board_read_response_eq (w : World) :
  HiwonderBoardController._read_response w =
  let t := tx w in
  let o := stdout w in
  match rx w with
  | [] => (mkWorld [] t (o ++ [PrintTimeoutHeader]), Ok None)
  | h :: r1 =>
      if h =? 0x55 then
        match r1 with
        | [] => (mkWorld [] t o, Raise TypeError)
        | h2 :: r2 =>
            if h2 =? 0x55 then
              match r2 with
              | l :: c :: r4 =>
                  let data := firstn (Z.to_nat (l - 2)) r4 in
                  let rest := skipn (Z.to_nat (l - 2)) r4 in
                  if len data =? l - 2
                  then (mkWorld rest t (o ++ [PrintResponse (l :: c :: data)]),
                        Ok (Some (l :: c :: data)))
                  else (mkWorld rest t (o ++ [PrintFailedData (l - 2) data]),
                        Ok None)
              | _ => (mkWorld [] t (o ++ [PrintFailedLengthCommand]), Ok None)
              end
            else (mkWorld r2 t o, Raise TypeError)
        end
      else (mkWorld r1 t o, Raise TypeError)
  end.
Proof.
  destruct w as [r t o]. cbn [rx tx stdout].
  unfold HiwonderBoardController._read_response.
  unfold bind at 1. cbn [rx].
  unfold bind at 1. rewrite wait_first_header_S. cbn [rx tx stdout].
  destruct r as [| h r1]; [reflexivity |].
  destruct (h =? 0x55); [| reflexivity].
  cbv beta iota. cbn [negb]. cbv iota.
  unfold bind at 1.
  destruct r1 as [| h2 r2].
  - rewrite serial_read_nil. reflexivity.
  - rewrite serial_read_1_cons. rewrite list_eqb_single.
    destruct (h2 =? 0x55); [| reflexivity].
    cbn [negb]. cbv iota.
    destruct r2 as [| l [| c r4]]; try reflexivity.
    unfold bind at 1.
    change (serial_read 2 (mkWorld (l :: c :: r4) t o))
      with (mkWorld r4 t o, Ok [l; c]).
    cbv iota beta. change (len [l; c] =? 2) with true. cbn [negb]. cbv iota.
    unfold bind at 1. unfold serial_read at 1. cbn [rx tx stdout].
    cbv iota beta.
    destruct (len (firstn (Z.to_nat (l - 2)) r4) =? l - 2); reflexivity.
Qed.

(** Reading a board response never writes to the transport. *)
Lemma board_read_response_tx (w : World) :
  tx (fst (HiwonderBoardController._read_response w)) = tx w.
Proof.
  rewrite board_read_response_eq. cbv zeta.
  repeat match goal with
         | |- context [match ?x with _ => _ end] => destruct x
         end; reflexivity.
Qed.

(** A response that arrives complete is returned as it was sent. *)
Lemma board_read_response_framed (l c : Z) (data rest : list Z)
                                 (t : list (list Z)) (o : list line) :
  l = 2 + len data ->
  HiwonderBoardController._read_response
    (mkWorld ([0x55; 0x55; l; c] ++ data ++ rest) t o) =
  (mkWorld rest t (o ++ [PrintResponse (l :: c :: data)]),
   Ok (Some (l :: c :: data))).
Proof.
  intros Hl. rewrite board_read_response_eq. cbn [rx tx stdout app].
  change (85 =? 85) with true. cbv iota zeta.
  assert (Hn : Z.to_nat (l - 2) = List.length data).
  { subst l. unfold len. lia. }
  rewrite Hn, firstn_app, skipn_app, Nat.sub_diag, firstn_all, skipn_all.
  cbn [firstn skipn app]. rewrite app_nil_r.
  replace (len data =? l - 2) with true; [reflexivity |].
  symmetry. apply Z.eqb_eq. lia.
Qed.

(** * The batch encoder *)

Lemma move_servos_fold (servo_commands : list (Z * Z * Z)) (acc : list Z) :
  fold_left
    (fun params '(servo_id, position, time_ms) =>
       ((((params ++ [servo_id])
            ++ [Z.land position 0xFF])
           ++ [Z.land (Z.shiftr position 8) 0xFF])
          ++ [Z.land time_ms 0xFF])
         ++ [Z.land (Z.shiftr time_ms 8) 0xFF])
    servo_commands acc
  = acc ++ flat_map servo_entry servo_commands.
Proof.
  revert acc.
  induction servo_commands as [| [[servo_id position] time_ms] rest IH];
    intros acc.
  - cbn. now rewrite app_nil_r.
  - cbn [fold_left flat_map]. rewrite IH.
    unfold servo_entry at 2. repeat rewrite <- app_assoc. reflexivity.
Qed.

Lemma move_servos_eq (servo_commands : list (Z * Z * Z)) (w : World) :
  HiwonderBoardController.move_servos servo_commands w =
  let packet := board_frame 0x03 (move_params servo_commands) in
  let out := stdout w ++ [PrintTX packet] in
  if forallb is_byte packet
  then (mkWorld (rx w) (tx w ++ [packet]) out, Ok true)
  else (mkWorld (rx w) (tx w) out, Raise ValueError).
Proof.
  unfold HiwonderBoardController.move_servos.
  rewrite move_servos_fold. unfold bind.
  rewrite board_send_command.
  change ([len servo_commands] ++ flat_map servo_entry servo_commands)
    with (move_params servo_commands).
  change HiwonderBoardController.CMD_SERVO_MOVE with 3.
  cbv zeta. destruct (forallb is_byte _); reflexivity.
Qed.

Lemma unload_servos_eq (servo_ids : list Z) (w : World) :
  HiwonderBoardController.unload_servos servo_ids w =
  let packet := board_frame 0x14 (len servo_ids :: servo_ids) in
  let out := stdout w ++ [PrintTX packet] in
  if forallb is_byte packet
  then (mkWorld (rx w) (tx w ++ [packet]) out, Ok true)
  else (mkWorld (rx w) (tx w) out, Raise ValueError).
Proof.
  unfold HiwonderBoardController.unload_servos, bind.
  rewrite board_send_command.
  change HiwonderBoardController.CMD_MULT_SERVO_UNLOAD with 0x14.
  cbv zeta. cbn [app]. destruct (forallb is_byte _); reflexivity.
Qed.

(** The position parser only inspects the response it is given. *)
Lemma positions_loop_world (response : list Z) (range : list nat)
                           (positions : list (Z * Z)) (w : World) :
  fst (HiwonderBoardController.positions_loop response range positions w) = w.
Proof.
  revert positions.
  induction range as [| i range IH]; intros positions; [reflexivity |].
  cbn [HiwonderBoardController.positions_loop].
  destruct (_ <? len response); [| apply IH].
  unfold bind, lift.
  repeat match goal with
         | |- context [getitem ?l ?i] => destruct (getitem l i)
         end; try reflexivity.
  apply IH.
Qed.

Lemma read_servo_positions_tx (servo_ids : list Z) (w : World) :
  tx (fst (HiwonderBoardController.read_servo_positions servo_ids w)) =
  let packet := board_frame 0x15 (len servo_ids :: servo_ids) in
  tx w ++ (if forallb is_byte packet then [packet] else []).
Proof.
  unfold HiwonderBoardController.read_servo_positions.
  unfold bind at 1. rewrite board_send_command.
  change HiwonderBoardController.CMD_MULT_SERVO_POS_READ with 0x15.
  cbv zeta. cbn [app].
  destruct (forallb is_byte _); [| cbn; now rewrite app_nil_r].
  unfold bind at 1.
  match goal with
  | |- context [HiwonderBoardController._read_response ?w1] =>
      pose proof (board_read_response_tx w1) as Htx;
      destruct (HiwonderBoardController._read_response w1) as [w2 [[r |] | e]]
  end; cbn [fst tx] in Htx; cbn [fst]; try exact Htx.
  destruct (_ || _); [exact Htx |].
  unfold bind at 1, lift at 1.
  destruct (getitem r 2) as [count | e]; [| exact Htx].
  unfold bind at 1.
  match goal with
  | |- context [HiwonderBoardController.positions_loop ?a ?b ?c ?d] =>
      pose proof (positions_loop_world a b c d) as Hw;
      destruct (HiwonderBoardController.positions_loop a b c d) as [w3 [ps | e]]
  end; cbn [fst] in Hw; subst w3; exact Htx.
Qed.

Lemma get_battery_voltage_tx (w : World) :
  tx (fst (HiwonderBoardController.get_battery_voltage w)) =
  tx w ++ [board_frame 0x0F []].
Proof.
  unfold HiwonderBoardController.get_battery_voltage.
  unfold bind at 1. rewrite board_send_command.
  change HiwonderBoardController.CMD_GET_BATTERY_VOLTAGE with 0x0F.
  cbv zeta. change (forallb is_byte (board_frame 15 [])) with true. cbv iota.
  unfold bind at 1.
  match goal with
  | |- context [HiwonderBoardController._read_response ?w1] =>
      pose proof (board_read_response_tx w1) as Htx;
      destruct (HiwonderBoardController._read_response w1) as [w2 [[r |] | e]]
  end; cbn [fst tx] in Htx; cbn [fst]; try exact Htx.
  unfold bind, lift.
  repeat match goal with
         | |- context [if ?b then _ else _] => destruct b
         | |- context [getitem ?l ?i] => destruct (getitem l i)
         end; exact Htx.
Qed.

(** * Board frames on the wire *)

(** C1, as the specification words it, fails: the battery-voltage query
    puts exactly the four bytes [55 55 02 0F] on the wire, not those bytes
    followed by the checksum byte [EE]. *)
Lemma board_query_frame_lacks_checksum :
  tx (fst (issue GetBatteryVoltage empty_world)) = [[0x55; 0x55; 0x02; 0x0F]]
  /\ board_checksum (command_code GetBatteryVoltage)
                    (command_params GetBatteryVoltage) = 0xEE
  /\ tx (fst (issue GetBatteryVoltage empty_world)) <>
     [board_frame (command_code GetBatteryVoltage)
                  (command_params GetBatteryVoltage)
        ++ [board_checksum (command_code GetBatteryVoltage)
                           (command_params GetBatteryVoltage)]].
Proof.
  split; [reflexivity |]. split; [reflexivity |].
  vm_compute. discriminate.
Qed.

(** C1 (amended): every board-mode command writes, when its bytes fit the
    wire, exactly one frame [55 55 Length Command Param...] with
    [Length = 2 + number of parameters]; the frame ends with the last
    parameter and carries no checksum byte.  When a value does not fit a
    byte, nothing is written. *)
Theorem board_command_frame (c : board_command) (w : World) :
  let frame := [0x55; 0x55; 2 + len (command_params c); command_code c]
                 ++ command_params c in
  tx (fst (issue c w)) = tx w ++ (if forallb is_byte frame then [frame] else []).
Proof.
  cbv zeta.
  change ([85; 85; 2 + len (command_params c); command_code c]
            ++ command_params c)
    with (board_frame (command_code c) (command_params c)).
  destruct c as [servo_commands | servo_ids | servo_ids |];
    cbn [issue command_code command_params]; unfold bind at 1.
  - rewrite move_servos_eq. cbv zeta.
    destruct (forallb is_byte _); cbn [fst tx]; [reflexivity |].
    now rewrite app_nil_r.
  - rewrite unload_servos_eq. cbv zeta.
    destruct (forallb is_byte _); cbn [fst tx]; [reflexivity |].
    now rewrite app_nil_r.
  - pose proof (read_servo_positions_tx servo_ids w) as H. cbv zeta in H.
    destruct (HiwonderBoardController.read_servo_positions servo_ids w)
      as [w' [a | e]]; exact H.
  - pose proof (get_battery_voltage_tx w) as H.
    destruct (HiwonderBoardController.get_battery_voltage w)
      as [w' [a | e]]; exact H.
Qed.

(** C5: for a batch of N commands [move_servos] hands to the frame writer
    the parameters [N] followed, in the caller's order, by the five bytes
    [id, pos & 0xFF, (pos >> 8) & 0xFF, time & 0xFF, (time >> 8) & 0xFF] of
    each entry, and the frame written carries them after the command byte. *)
Theorem move_servos_batch_layout (servo_commands : list (Z * Z * Z))
                                 (w : World) :
  let params :=
    len servo_commands ::
    flat_map (fun '(servo_id, position, time_ms) =>
                [servo_id;
                 Z.land position 0xFF; Z.land (Z.shiftr position 8) 0xFF;
                 Z.land time_ms 0xFF; Z.land (Z.shiftr time_ms 8) 0xFF])
             servo_commands in
  let frame := [0x55; 0x55; 2 + len params; 0x03] ++ params in
  HiwonderBoardController.move_servos servo_commands w =
    (HiwonderBoardController._send_command
       HiwonderBoardController.CMD_SERVO_MOVE params ;;; ret true) w
  /\ tx (fst (HiwonderBoardController.move_servos servo_commands w)) =
     tx w ++ (if forallb is_byte frame then [frame] else []).
Proof.
  cbv zeta.
  assert (E : flat_map (fun '(servo_id, position, time_ms) =>
                [servo_id;
                 Z.land position 0xFF; Z.land (Z.shiftr position 8) 0xFF;
                 Z.land time_ms 0xFF; Z.land (Z.shiftr time_ms 8) 0xFF])
             servo_commands = flat_map servo_entry servo_commands).
  { apply flat_map_ext. intros [[a b] c]. reflexivity. }
  rewrite E. split.
  - unfold HiwonderBoardController.move_servos.
    now rewrite move_servos_fold.
  - rewrite move_servos_eq. cbv zeta.
    change ([85; 85; 2 + len (len servo_commands :: flat_map servo_entry servo_commands); 3]
              ++ len servo_commands :: flat_map servo_entry servo_commands)
      with (board_frame 3 (move_params servo_commands)).
    destruct (forallb is_byte _); cbn [fst tx]; [reflexivity |].
    now rewrite app_nil_r.
Qed.

Example move_servos_two_entries :
  tx (fst (HiwonderBoardController.move_servos
             [(1, 500, 1000); (2, 600, 1000)] empty_world)) =
  [[0x55; 0x55; 13; 0x03; 2;
    1; 0xF4; 0x01; 0xE8; 0x03;
    2; 0x58; 0x02; 0xE8; 0x03]].
Proof. reflexivity. Qed.

(** * Decoding takes frames as they come *)

Lemma corrupt_length (i : nat) (v : Z) (l : list Z) :
  List.length (corrupt i v l) = List.length l.
Proof.
  revert i. induction l as [| x r IH]; intros [| k]; cbn; auto.
Qed.

Lemma corrupt_app_r (pre l : list Z) (i : nat) (v : Z) :
  corrupt (List.length pre + i) v (pre ++ l) = pre ++ corrupt i v l.
Proof.
  induction pre as [| x pre IH]; [reflexivity |].
  cbn. now rewrite IH.
Qed.

Lemma corrupt_app_l (l post : list Z) (i : nat) (v : Z) :
  (i < List.length l)%nat ->
  corrupt i v (l ++ post) = corrupt i v l ++ post.
Proof.
  revert i. induction l as [| x r IH]; intros [| k] H; cbn in *; try lia.
  - reflexivity.
  - rewrite IH by lia. reflexivity.
Qed.

(** The single-servo reader returns whatever follows a header, provided
    enough bytes are there. *)
Lemma servo_read_response_framed (polls : nat) (body rest : list Z)
                                 (t : list (list Z)) (o : list line) :
  HiwonderServo._read_response (S polls) (2 + len body)
    (mkWorld ([0x55; 0x55] ++ body ++ rest) t o) =
  (mkWorld rest t o, Ok (Some ([0x55; 0x55] ++ body))).
Proof.
  unfold HiwonderServo._read_response. unfold bind at 1.
  cbn [HiwonderServo.wait_header]. unfold bind at 1, in_waiting at 1.
  cbn [rx app].
  replace (2 <=? len (85 :: 85 :: body ++ rest)) with true.
  2:{ symmetry. apply Z.leb_le. unfold len. cbn [List.length]. lia. }
  unfold bind at 1.
  change (serial_read 2 (mkWorld (85 :: 85 :: body ++ rest) t o))
    with (mkWorld (body ++ rest) t o, Ok [85; 85]).
  cbv iota beta. rewrite list_eqb_refl. unfold ret at 1. cbv iota beta.
  unfold bind, serial_read. cbn [rx tx stdout].
  replace (2 + len body - 2) with (len body) by lia.
  assert (E : Z.to_nat (len body) = List.length body)
    by (unfold len; apply Nat2Z.id).
  rewrite E, firstn_app, skipn_app, Nat.sub_diag, firstn_all, skipn_all.
  cbn [firstn skipn app]. rewrite app_nil_r.
  rewrite Z.ltb_irrefl. reflexivity.
Qed.

(** C2, as the specification words it, fails: a position response whose
    first payload byte was changed from [F4] to [F5] no longer matches its
    checksum byte, yet the single-servo reader returns it as a response; the
    board reader likewise returns a battery response with a changed byte. *)
Lemma corrupted_response_is_returned :
  let frame := servo_frame 1 28 [0xF4; 0x01] in
  let bad := corrupt 5 0xF5 frame in
  frame = [0x55; 0x55; 1; 5; 28; 0xF4; 0x01; 0xE8]
  /\ bad = [0x55; 0x55; 1; 5; 28; 0xF5; 0x01; 0xE8]
  /\ HiwonderServo._calculate_checksum [1; 5; 28; 0xF5; 0x01] <> 0xE8
  /\ HiwonderServo._read_response 1 8 (mkWorld bad [] []) =
     (empty_world, Ok (Some bad))
  /\ HiwonderBoardController._read_response
       (mkWorld (corrupt 4 0xB9 (board_frame 0x0F [0xB8; 0x1B])) [] []) =
     (mkWorld [] [] [PrintResponse [4; 0x0F; 0xB9; 0x1B]],
      Ok (Some [4; 0x0F; 0xB9; 0x1B])).
Proof.
  cbv zeta. repeat split; try reflexivity.
  vm_compute. discriminate.
Qed.

(** C2 (amended): neither reader verifies a checksum.  For every encoded
    response frame, replacing one payload byte by any value leaves the
    decoder's behaviour unchanged in kind: the single-servo reader returns
    the whole altered frame, the board reader returns the altered frame
    without its header; no failure is reported. *)
Theorem corrupted_frame_is_accepted
    (polls : nat) (servo_id command : Z) (params : list Z)
    (i : nat) (v : Z) (rest : list Z) (t : list (list Z)) (o : list line) :
  (i < List.length params)%nat ->
  let frame := servo_frame servo_id command params in
  let bad := corrupt (5 + i) v frame in
  let board_bad := corrupt (4 + i) v (board_frame command params) in
  HiwonderServo._read_response (S polls) (len frame)
    (mkWorld (bad ++ rest) t o) =
  (mkWorld rest t o, Ok (Some bad))
  /\ HiwonderBoardController._read_response
       (mkWorld (board_bad ++ rest) t o) =
     (mkWorld rest t (o ++ [PrintResponse (skipn 2 board_bad)]),
      Ok (Some (skipn 2 board_bad))).
Proof.
  intros Hi. cbv zeta. split.
  - unfold servo_frame. cbv zeta.
    set (body := [servo_id; len params + 3; command] ++ params).
    set (cs := HiwonderServo._calculate_checksum body).
    assert (E : corrupt (5 + i) v ([85; 85] ++ body ++ [cs]) =
                [85; 85] ++ corrupt (3 + i) v (body ++ [cs]))
      by exact (corrupt_app_r [85; 85] (body ++ [cs]) (3 + i) v).
    rewrite E.
    set (body' := corrupt (3 + i) v (body ++ [cs])).
    assert (Hlen : len ([85; 85] ++ body ++ [cs]) = 2 + len body').
    { unfold len, body'. rewrite length_app, corrupt_length.
      cbn [List.length]. lia. }
    rewrite Hlen, <- app_assoc.
    apply servo_read_response_framed.
  - unfold board_frame.
    assert (E : corrupt (4 + i) v ([85; 85; 2 + len params; command] ++ params) =
                [85; 85; 2 + len params; command] ++ corrupt i v params)
      by exact (corrupt_app_r [85; 85; 2 + len params; command] params i v).
    rewrite E, <- !app_assoc.
    cbn [skipn app].
    apply (board_read_response_framed (2 + len params) command
             (corrupt i v params) rest t o).
    unfold len. now rewrite corrupt_length.
Qed.

Lemma corrupted_frame_is_accepted_witness :
  HiwonderServo._read_response 1 8
    (mkWorld [0x55; 0x55; 1; 5; 28; 0xF4; 0x02; 0xE8] [] []) =
  (empty_world, Ok (Some [0x55; 0x55; 1; 5; 28; 0xF4; 0x02; 0xE8]))
  /\ HiwonderBoardController._read_response
       (mkWorld [0x55; 0x55; 4; 28; 0xF4; 0x02] [] []) =
     (mkWorld [] [] [PrintResponse [4; 28; 0xF4; 0x02]],
      Ok (Some [4; 28; 0xF4; 0x02])).
Proof.
  apply (corrupted_frame_is_accepted 0 1 28 [0xF4; 0x01] 1 0x02 [] [] []).
  cbn. lia.
Defined.

(** * Unit conversion *)

Lemma py_int_nonneg (x : Q) : (0 <= x)%Q -> py_int x = Qfloor x.
Proof.
  intros H. unfold py_int.
  destruct (Qlt_le_dec x 0) as [Hlt | _]; [| reflexivity].
  exfalso. apply (Qlt_irrefl 0). eapply Qle_lt_trans; eauto.
Qed.

(** The floor of a value between 0 and 1000, as a rational. *)
Lemma floor_in_range (u : Q) :
  (0 <= u)%Q -> (u <= 1000)%Q ->
  exists F : Q,
    F == inject_Z (Qfloor u) /\ (F <= u)%Q /\ (u < F + 1)%Q
    /\ 0 <= Qfloor u <= 1000.
Proof.
  intros H0 H1. exists (inject_Z (Qfloor u)).
  split; [reflexivity |]. split; [apply Qfloor_le |]. split.
  - pose proof (Qlt_floor u) as H. rewrite inject_Z_plus in H. exact H.
  - split.
    + change 0 with (Qfloor 0). now apply Qfloor_resp_le.
    + change 1000 with (Qfloor 1000). now apply Qfloor_resp_le.
Qed.

Lemma inject_Z_minus_500 (z : Z) : inject_Z (z - 500) == inject_Z z - 500.
Proof. unfold Z.sub. rewrite inject_Z_plus. reflexivity. Qed.

(** ** Without rounding

    Computed exactly, the conversions of both components bring an angle of
    the range back within one quantization step. *)

Lemma servo_round_trip (rad : Q) :
  (- np_pi <= rad)%Q -> (rad <= np_pi)%Q ->
  (Qabs (HiwonderServo.units_to_rad (HiwonderServo.rad_to_units rad) - rad)
   <= 2 * np_pi / 1000)%Q.
Proof.
  intros Hlo Hhi.
  unfold HiwonderServo.rad_to_units, HiwonderServo.units_to_rad.
  cbv zeta.
  set (u := (500 + rad / (2 * np_pi) * 1000)%Q).
  assert (Hu : u == 500 + rad * (281474976710656 # 1768559438007110) * 1000)
    by reflexivity.
  unfold np_pi in Hlo, Hhi.
  assert (Hu0 : (0 <= u)%Q) by (rewrite Hu; lra).
  assert (Hu1 : (u <= 1000)%Q) by (rewrite Hu; lra).
  rewrite (py_int_nonneg u Hu0).
  destruct (floor_in_range u Hu0 Hu1) as (F & HF & HFle & HFlt & Hz0 & Hz1).
  rewrite Z.max_l, Z.min_l by lia.
  apply Qabs_Qle_condition.
  rewrite inject_Z_minus_500, <- HF.
  rewrite Hu in HFle, HFlt.
  unfold Qdiv, np_pi.
  change (/ 1000)%Q with (1 # 1000)%Q.
  split; lra.
Qed.

Lemma hwi_round_trip (rad : Q) :
  (- ((418879 # 100000) / 2) <= rad)%Q -> (rad <= (418879 # 100000) / 2)%Q ->
  (Qabs (HWI._servo_units_to_radians (HWI._radians_to_servo_units rad) - rad)
   <= (418879 # 100000) / 1000)%Q.
Proof.
  intros Hlo Hhi.
  unfold HWI._radians_to_servo_units, HWI._servo_units_to_radians.
  cbv zeta.
  set (u := (500 + rad * 1000 / (418879 # 100000))%Q).
  assert (Hu : u == 500 + rad * 1000 * (100000 # 418879)) by reflexivity.
  assert (Hlo' : (- (418879 # 200000) <= rad)%Q) by exact Hlo.
  assert (Hhi' : (rad <= 418879 # 200000)%Q) by exact Hhi.
  assert (Hu0 : (0 <= u)%Q) by (rewrite Hu; lra).
  assert (Hu1 : (u <= 1000)%Q) by (rewrite Hu; lra).
  set (m := py_max 0 (py_min 1000 u)).
  assert (Hm : m == u).
  { unfold m, py_max, py_min.
    destruct (Qlt_le_dec u 1000) as [H1 | H1];
      [destruct (Qlt_le_dec 0 u) as [H2 | H2]
      | destruct (Qlt_le_dec 0 1000) as [H2 | H2]]; lra. }
  assert (Hm0 : (0 <= m)%Q) by (rewrite Hm; exact Hu0).
  assert (Hm1 : (m <= 1000)%Q) by (rewrite Hm; exact Hu1).
  rewrite (py_int_nonneg m Hm0).
  destruct (floor_in_range m Hm0 Hm1) as (F & HF & HFle & HFlt & Hz0 & Hz1).
  apply Qabs_Qle_condition.
  rewrite inject_Z_minus_500, <- HF.
  rewrite Hm, Hu in HFle, HFlt.
  unfold Qdiv.
  change (/ 1000)%Q with (1 # 1000)%Q.
  split; lra.
Qed.

(** [np.rint] moves a value by at most one half. *)
Lemma rint_within_half (y : Q) :
  (- (1 # 2) <= inject_Z (rint y) - y <= 1 # 2)%Q.
Proof.
  unfold rint. cbv zeta.
  pose proof (Qfloor_le y) as Hle.
  pose proof (Qlt_floor y) as Hlt. rewrite inject_Z_plus in Hlt.
  change (inject_Z 1) with 1%Q in Hlt.
  destruct ((y - inject_Z (Qfloor y)) ?= 1 # 2)%Q eqn:Hc.
  - apply Qeq_alt in Hc.
    destruct (Z.even (Qfloor y)).
    + lra.
    + rewrite inject_Z_plus. change (inject_Z 1) with 1%Q. lra.
  - apply Qlt_alt in Hc. lra.
  - apply Qgt_alt in Hc.
    rewrite inject_Z_plus. change (inject_Z 1) with 1%Q. lra.
Qed.

(** ** Rounding error of binary64 *)

Lemma pow2_pos (k : Z) : (0 < 2 ^ k)%Q.
Proof. apply Qpower_0_lt. reflexivity. Qed.

(** The leading bit of a rational that is not zero lies at or below it. *)
Lemma ilog2_lower (x : Q) : ~ x == 0 -> (2 ^ Binary64.ilog2 x <= Qabs x)%Q.
Proof.
  intros Hx. unfold Binary64.ilog2. cbv zeta.
  set (n := Z.abs (Qnum x)). set (d := Zpos (Qden x)).
  destruct (Qlt_le_dec (Qabs x) (2 ^ (Z.log2 n - Z.log2 d))) as [_ | H];
    [| exact H].
  assert (Hn : 0 < n).
  { unfold n. assert (Qnum x <> 0); [| lia].
    intros E. apply Hx. destruct x as [a b]. cbn in E. subst a. reflexivity. }
  assert (Hd : 0 < d) by (unfold d; lia).
  destruct (Z.log2_spec n Hn) as [Hn1 _].
  destruct (Z.log2_spec d Hd) as [_ Hd2].
  pose proof (Z.log2_nonneg n) as Ha. pose proof (Z.log2_nonneg d) as Hb.
  set (a := Z.log2 n) in *. set (b := Z.log2 d) in *.
  assert (Eabs : Qabs x == inject_Z n / inject_Z d).
  { destruct x as [p q]. unfold n, d. cbn [Qabs Qnum Qden].
    apply Qmake_Qdiv. }
  assert (Epow : (2 ^ (a - b - 1)
                  == inject_Z (2 ^ a) / inject_Z (2 ^ (Z.succ b)))%Q).
  { replace (a - b - 1) with (a - Z.succ b) by lia.
    rewrite Qpower_minus by discriminate.
    rewrite !Zpower_Qpower by lia. reflexivity. }
  rewrite Eabs, Epow.
  assert (HB : (0 < inject_Z (2 ^ Z.succ b))%Q).
  { change 0%Q with (inject_Z 0). rewrite <- Zlt_Qlt. lia. }
  assert (HD : (0 < inject_Z d)%Q).
  { change 0%Q with (inject_Z 0). rewrite <- Zlt_Qlt. lia. }
  apply Qle_shift_div_l; [exact HD |].
  unfold Qdiv. rewrite <- Qmult_assoc, (Qmult_comm (/ _)), Qmult_assoc.
  apply Qle_shift_div_r; [exact HB |].
  rewrite <- !inject_Z_mult, <- Zle_Qle. nia.
Qed.

Lemma ulp_exponent_le (x : Q) (k : Z) :
  -1022 <= k -> (Qabs x <= 2 ^ k)%Q -> ~ x == 0 ->
  Binary64.ulp_exponent x <= k - 52.
Proof.
  intros Hk Hx Hnz. unfold Binary64.ulp_exponent.
  assert (Binary64.ilog2 x <= k).
  { apply (Qpower_le_compat_l_inv 2); [| reflexivity].
    eapply Qle_trans; [apply ilog2_lower; exact Hnz | exact Hx]. }
  lia.
Qed.

(** Rounding moves a value of magnitude at most [2^k] by at most half a
    unit in the last place, [2^(k-53)]. *)
Lemma fl_error (x : Q) (k : Z) :
  -1022 <= k -> (Qabs x <= 2 ^ k)%Q ->
  (Qabs (Binary64.fl x - x) <= 2 ^ (k - 53))%Q.
Proof.
  intros Hk Hx.
  destruct (Qeq_dec x 0) as [Hz | Hnz].
  - assert (E : Binary64.fl x - x == 0).
    { unfold Binary64.fl. cbv zeta. rewrite Qred_correct.
      set (c := (2 ^ Binary64.ulp_exponent x)%Q).
      assert (E0 : x / c == 0) by (rewrite Hz; reflexivity).
      assert (Er : rint (x / c) = 0).
      { unfold rint. cbv zeta.
        assert (Ef : Qfloor (x / c) = 0) by (rewrite E0; reflexivity).
        rewrite Ef, E0. reflexivity. }
      rewrite Er. change (inject_Z 0) with 0%Q. lra. }
    rewrite E. apply Qlt_le_weak, pow2_pos.
  - pose proof (ulp_exponent_le x k Hk Hx Hnz) as He.
    set (e := Binary64.ulp_exponent x) in *.
    assert (E : Binary64.fl x - x
                == (inject_Z (rint (x / 2 ^ e)) - x / 2 ^ e) * 2 ^ e).
    { unfold Binary64.fl. fold e. cbv zeta. rewrite Qred_correct.
      field. apply Qpower_not_0. discriminate. }
    rewrite E, Qabs_Qmult.
    pose proof (rint_within_half (x / 2 ^ e)) as Hr.
    apply Qabs_Qle_condition in Hr.
    rewrite (Qabs_pos (2 ^ e)) by apply Qlt_le_weak, pow2_pos.
    apply Qle_trans with ((1 # 2) * 2 ^ e)%Q.
    + apply Qmult_le_compat_r; [exact Hr | apply Qlt_le_weak, pow2_pos].
    + apply Qle_trans with (2 ^ (e - 1))%Q.
      * rewrite Qpower_minus by discriminate.
        change (2 ^ 1)%Q with 2%Q.
        assert (E2 : (1 # 2) * 2 ^ e == 2 ^ e / 2) by field.
        rewrite E2. apply Qle_refl.
      * apply Qpower_le_compat_l; [lia | discriminate].
Qed.

(** The same with the two powers of two given as literals. *)
Lemma fl_near (x : Q) (k : Z) (bound err : Q) :
  -1022 <= k -> bound == 2 ^ k -> err == 2 ^ (k - 53) ->
  (- bound <= x <= bound)%Q ->
  (- err <= Binary64.fl x - x <= err)%Q.
Proof.
  intros Hk Hb He Hx.
  apply Qabs_Qle_condition. rewrite He. apply fl_error; [exact Hk |].
  apply Qabs_Qle_condition. rewrite <- Hb. exact Hx.
Qed.

Lemma floor_bounds (u : Q) :
  (inject_Z (Qfloor u) <= u)%Q /\ (u < inject_Z (Qfloor u) + 1)%Q.
Proof.
  split; [apply Qfloor_le |].
  pose proof (Qlt_floor u) as H. rewrite inject_Z_plus in H. exact H.
Qed.

Lemma py_int_small_negative (x : Q) : (-1 < x)%Q -> (x < 0)%Q -> py_int x = 0.
Proof.
  intros Hlo Hhi. unfold py_int.
  destruct (Qlt_le_dec x 0) as [_ | H]; [| exfalso; lra].
  unfold Qceiling.
  assert (E : Qfloor (- x) = 0).
  { apply Z.le_antisymm.
    - assert (H : (Qfloor (- x) < 1)%Z); [| lia].
      rewrite Zlt_Qlt. eapply Qle_lt_trans; [apply Qfloor_le |].
      change (inject_Z 1) with 1%Q. lra.
    - change 0 with (Qfloor 0). apply Qfloor_resp_le. lra. }
  rewrite E. reflexivity.
Qed.

(** The float literal [4.18879] and the product [2 * np.pi]. *)
Lemma fl_4_18879 :
  Binary64.fl (418879 # 100000) = 4716158270783315 # 1125899906842624.
Proof. vm_compute. reflexivity. Qed.

Lemma fl_two_pi :
  Binary64.fl (2 * np_pi) = 884279719003555 # 140737488355328.
Proof. vm_compute. reflexivity. Qed.

(** On the chain of operations behind the counterexample below, [fl]
    returns what the machine's binary64 operations return: the literal
    [4.18879], the angle of unit 21, the unclamped units of that angle
    (just below 21) and the angle of unit 20. *)
Lemma binary64_agrees_with_machine_floats :
  Binary64.machine_value Binary64.machine_4_18879 =
    Some (Binary64.fl (418879 # 100000))
  /\ Binary64.machine_value (Binary64.machine_radians 21) =
       Some (Binary64.HWI._servo_units_to_radians 21)
  /\ Binary64.machine_value
       (Binary64.machine_units (Binary64.machine_radians 21)) =
       Some (Binary64.fl
               (500 + Binary64.fl
                        (Binary64.fl
                           (Binary64.HWI._servo_units_to_radians 21 * 1000)
                         / Binary64.fl (418879 # 100000))))
  /\ Binary64.machine_value (Binary64.machine_radians 20) =
       Some (Binary64.HWI._servo_units_to_radians 20).
Proof. repeat split; vm_compute; reflexivity. Qed.

(** The joint-space conversions: each of the six roundings moves the value
    by at most half a unit in the last place of its magnitude. *)
Lemma hwi_round_trip64 (rad : Q) :
  (- (418879 # 200000) - (1 # 1000000000000000) <= rad)%Q ->
  (rad <= (418879 # 200000) + (1 # 1000000000000000))%Q ->
  (Qabs (Binary64.HWI._servo_units_to_radians
           (Binary64.HWI._radians_to_servo_units rad) - rad)
   <= (418879 # 100000000) + (1 # 100000000000000))%Q.
Proof.
  intros Hlo Hhi.
  unfold Binary64.HWI._radians_to_servo_units,
    Binary64.HWI._servo_units_to_radians.
  cbv zeta. rewrite fl_4_18879.
  set (cd := (4716158270783315 # 1125899906842624)%Q).
  set (x1 := (rad * 1000)%Q).
  pose proof (fl_near x1 12 4096 (1 # 2199023255552) ltac:(lia)
                ltac:(reflexivity) ltac:(reflexivity)) as H1.
  set (f1 := Binary64.fl x1) in *.
  assert (E2 : f1 / cd == f1 * (1125899906842624 # 4716158270783315))
    by reflexivity.
  pose proof (fl_near (f1 / cd) 9 512 (1 # 17592186044416) ltac:(lia)
                ltac:(reflexivity) ltac:(reflexivity)) as H2.
  set (f2 := Binary64.fl (f1 / cd)) in *.
  pose proof (fl_near (500 + f2) 10 1024 (1 # 8796093022208) ltac:(lia)
                ltac:(reflexivity) ltac:(reflexivity)) as H3.
  set (f3 := Binary64.fl (500 + f2)) in *.
  unfold x1 in H1.
  assert (B1 : (- (1 # 2199023255552) <= f1 - rad * 1000
                <= 1 # 2199023255552)%Q)
    by (apply H1; lra).
  assert (B2 : (- (1 # 17592186044416) <= f2 - f1 / cd
                <= 1 # 17592186044416)%Q)
    by (apply H2; rewrite E2; lra).
  rewrite E2 in B2.
  assert (B3 : (- (1 # 8796093022208) <= f3 - (500 + f2)
                <= 1 # 8796093022208)%Q)
    by (apply H3; lra).
  clear H1 H2 H3.
  set (m := py_max 0 (py_min 1000 f3)).
  assert (Hm : (0 <= m <= 1000)%Q
               /\ ((m == f3) \/ (m == 0 /\ f3 <= 0)
                   \/ (m == 1000 /\ 1000 <= f3))%Q).
  { unfold m, py_max, py_min.
    destruct (Qlt_le_dec f3 1000) as [Ha | Ha];
      [destruct (Qlt_le_dec 0 f3) as [Hb | Hb]
      | destruct (Qlt_le_dec 0 1000) as [Hb | Hb]].
    - split; [lra | left; reflexivity].
    - split; [lra | right; left; split; [reflexivity | lra]].
    - split; [lra | right; right; split; [reflexivity | lra]].
    - exfalso. lra. }
  destruct Hm as [Hm01 Hm].
  rewrite (py_int_nonneg m) by lra.
  destruct (floor_bounds m) as [HF1 HF2].
  set (u := Qfloor m) in *.
  pose proof (inject_Z_minus_500 u) as En.
  set (n := inject_Z (u - 500)) in *.
  set (F := inject_Z u) in *.
  pose proof (fl_near n 9 512 (1 # 17592186044416) ltac:(lia)
                ltac:(reflexivity) ltac:(reflexivity)) as G0.
  set (y0 := Binary64.fl n) in *.
  assert (C0 : (- (1 # 17592186044416) <= y0 - n <= 1 # 17592186044416)%Q)
    by (apply G0; lra).
  pose proof (fl_near (y0 * cd) 12 4096 (1 # 2199023255552) ltac:(lia)
                ltac:(reflexivity) ltac:(reflexivity)) as G1.
  set (g1 := Binary64.fl (y0 * cd)) in *.
  unfold cd in G1 |- *.
  assert (C1 : (- (1 # 2199023255552)
                <= g1 - y0 * (4716158270783315 # 1125899906842624)
                <= 1 # 2199023255552)%Q)
    by (apply G1; lra).
  assert (E3 : g1 / 1000 == g1 * (1 # 1000)) by reflexivity.
  pose proof (fl_near (g1 / 1000) 2 4 (1 # 2251799813685248) ltac:(lia)
                ltac:(reflexivity) ltac:(reflexivity)) as G2.
  set (B := Binary64.fl (g1 / 1000)) in *.
  assert (C2 : (- (1 # 2251799813685248) <= B - g1 / 1000
                <= 1 # 2251799813685248)%Q)
    by (apply G2; rewrite E3; lra).
  rewrite E3 in C2. clear G0 G1 G2.
  apply Qabs_Qle_condition.
  destruct Hm as [Hm | [[Hm Hf] | [Hm Hf]]]; rewrite Hm in HF1, HF2;
    split; lra.
Qed.

(** The single-servo conversions. *)
Lemma servo_round_trip64 (rad : Q) :
  (- np_pi <= rad)%Q -> (rad <= np_pi)%Q ->
  (Qabs (Binary64.HiwonderServo.units_to_rad
           (Binary64.HiwonderServo.rad_to_units rad) - rad)
   <= 2 * np_pi / 1000 + (1 # 100000000000000))%Q.
Proof.
  intros Hlo Hhi. unfold np_pi in Hlo, Hhi.
  unfold Binary64.HiwonderServo.rad_to_units,
    Binary64.HiwonderServo.units_to_rad.
  cbv zeta. rewrite fl_two_pi.
  set (tp := (884279719003555 # 140737488355328)%Q).
  assert (E1 : rad / tp == rad * (140737488355328 # 884279719003555))
    by reflexivity.
  pose proof (fl_near (rad / tp) 0 1 (1 # 9007199254740992) ltac:(lia)
                ltac:(reflexivity) ltac:(reflexivity)) as H1.
  set (f1 := Binary64.fl (rad / tp)) in *.
  assert (B1 : (- (1 # 9007199254740992) <= f1 - rad / tp
                <= 1 # 9007199254740992)%Q)
    by (apply H1; rewrite E1; lra).
  rewrite E1 in B1.
  pose proof (fl_near (f1 * 1000) 9 512 (1 # 17592186044416) ltac:(lia)
                ltac:(reflexivity) ltac:(reflexivity)) as H2.
  set (f2 := Binary64.fl (f1 * 1000)) in *.
  assert (B2 : (- (1 # 17592186044416) <= f2 - f1 * 1000
                <= 1 # 17592186044416)%Q)
    by (apply H2; lra).
  pose proof (fl_near (500 + f2) 10 1024 (1 # 8796093022208) ltac:(lia)
                ltac:(reflexivity) ltac:(reflexivity)) as H3.
  set (f3 := Binary64.fl (500 + f2)) in *.
  assert (B3 : (- (1 # 8796093022208) <= f3 - (500 + f2)
                <= 1 # 8796093022208)%Q)
    by (apply H3; lra).
  clear H1 H2 H3.
  assert (Hu : exists u : Z,
             Z.min (Z.max (py_int f3) 0) 1000 = u
             /\ ((inject_Z u <= f3 /\ f3 < inject_Z u + 1)
                 \/ (inject_Z u == 0 /\ f3 < 0))%Q).
  { destruct (Qlt_le_dec f3 0) as [Hneg | Hpos].
    - exists 0. rewrite py_int_small_negative by lra.
      split; [reflexivity | right; split; [reflexivity | exact Hneg]].
    - exists (Qfloor f3). rewrite py_int_nonneg by exact Hpos.
      destruct (floor_bounds f3) as [HF1 HF2].
      split; [| left; split; assumption].
      assert (0 <= Qfloor f3).
      { change 0 with (Qfloor 0). now apply Qfloor_resp_le. }
      assert (Qfloor f3 <= 1000).
      { assert (H1 : (Qfloor f3 < 1001)%Z); [| lia].
        rewrite Zlt_Qlt. eapply Qle_lt_trans; [exact HF1 |].
        change (inject_Z 1001) with 1001%Q. lra. }
      lia. }
  destruct Hu as (u & -> & Hu).
  pose proof (inject_Z_minus_500 u) as En.
  set (n := inject_Z (u - 500)) in *.
  set (F := inject_Z u) in *.
  pose proof (fl_near n 9 512 (1 # 17592186044416) ltac:(lia)
                ltac:(reflexivity) ltac:(reflexivity)) as G0.
  set (y0 := Binary64.fl n) in *.
  assert (C0 : (- (1 # 17592186044416) <= y0 - n <= 1 # 17592186044416)%Q)
    by (apply G0; destruct Hu as [[? ?] | [? ?]]; lra).
  assert (E2 : y0 / 1000 == y0 * (1 # 1000)) by reflexivity.
  pose proof (fl_near (y0 / 1000) 0 1 (1 # 9007199254740992) ltac:(lia)
                ltac:(reflexivity) ltac:(reflexivity)) as G1.
  set (g1 := Binary64.fl (y0 / 1000)) in *.
  assert (C1 : (- (1 # 9007199254740992) <= g1 - y0 / 1000
                <= 1 # 9007199254740992)%Q)
    by (apply G1; rewrite E2; destruct Hu as [[? ?] | [? ?]]; lra).
  rewrite E2 in C1.
  pose proof (fl_near (g1 * tp) 2 4 (1 # 2251799813685248) ltac:(lia)
                ltac:(reflexivity) ltac:(reflexivity)) as G2.
  set (B := Binary64.fl (g1 * tp)) in *.
  unfold tp in G2.
  assert (C2 : (- (1 # 2251799813685248)
                <= B - g1 * (884279719003555 # 140737488355328)
                <= 1 # 2251799813685248)%Q)
    by (apply G2; destruct Hu as [[? ?] | [? ?]]; lra).
  clear G0 G1 G2.
  apply Qabs_Qle_condition.
  assert (Es : 2 * np_pi / 1000 == 884279719003555 # 140737488355328000)
    by reflexivity.
  rewrite Es.
  destruct Hu as [[? ?] | [? ?]]; split; lra.
Qed.

(** C3, as the specification words it, fails on binary64 numbers.  The
    angle of device unit 21 of the joint-space interface, the double
    [-2.0064304100000001], lies in the range; its units come out just
    below 21 and are truncated to 20, whose angle is the double
    [-2.0106192000000003]: the round trip moves the angle by more than
    4.18879/1000. *)
Lemma round_trip_exceeds_one_step :
  let rad := Binary64.HWI._servo_units_to_radians 21 in
  rad = -282379976463151 # 140737488355328
  /\ (- (span JointHWI / 2) <= rad)%Q /\ (rad <= span JointHWI / 2)%Q
  /\ rad_to_units64 JointHWI rad = 20
  /\ units_to_rad64 JointHWI 20 = -4527511939951983 # 2251799813685248
  /\ ~ (Qabs (units_to_rad64 JointHWI (rad_to_units64 JointHWI rad) - rad)
        <= span JointHWI / 1000)%Q.
Proof.
  cbv zeta. split; [vm_compute; reflexivity |].
  split; [vm_compute; discriminate |].
  split; [vm_compute; discriminate |].
  split; [vm_compute; reflexivity |].
  split; [vm_compute; reflexivity |].
  intros H. vm_compute in H. apply H. reflexivity.
Qed.

(** C3 (amended): within one component, for every angle in its range (half
    the angular span on either side of the centre), converting to device
    units and back on binary64 numbers moves the angle by at most one
    quantization step, 1/1000 of the component's span ([2 * np.pi] for the
    single-servo client, [4.18879] for the joint-space interface), plus
    [1e-14] rad lost to the rounding of the floating-point operations. *)
Theorem round_trip_within_one_step (c : component) (rad : Q) :
  (- (span c / 2) <= rad)%Q -> (rad <= span c / 2)%Q ->
  (Qabs (units_to_rad64 c (rad_to_units64 c rad) - rad)
   <= span c / 1000 + (1 # 100000000000000))%Q.
Proof.
  destruct c; cbn [span units_to_rad64 rad_to_units64]; intros Hlo Hhi.
  - apply servo_round_trip64.
    + assert (E : - np_pi == - (2 * np_pi / 2)) by reflexivity.
      rewrite E. exact Hlo.
    + assert (E : np_pi == 2 * np_pi / 2) by reflexivity.
      rewrite E. exact Hhi.
  - assert (Hlo' : (- (418879 # 200000) <= rad)%Q) by exact Hlo.
    assert (Hhi' : (rad <= 418879 # 200000)%Q) by exact Hhi.
    assert (Es : (418879 # 100000) / 1000 == 418879 # 100000000)
      by reflexivity.
    rewrite Es. apply hwi_round_trip64; lra.
Qed.

(** At the angle of the counterexample the bound holds. *)
Lemma round_trip_within_one_step_witness :
  (Qabs (Binary64.HWI._servo_units_to_radians
           (Binary64.HWI._radians_to_servo_units
              (-282379976463151 # 140737488355328))
         - (-282379976463151 # 140737488355328))
   <= (418879 # 100000) / 1000 + (1 # 100000000000000))%Q.
Proof.
  apply (round_trip_within_one_step JointHWI
           (-282379976463151 # 140737488355328));
    vm_compute; discriminate.
Defined.

(** * Speed estimation *)

Lemma servo_wait_header_returns (polls : nat) (w : World) :
  exists w' r, HiwonderServo.wait_header polls w = (w', Ok r).
Proof.
  revert w. induction polls as [| k IH]; intros w.
  - now exists w, None.
  - cbn [HiwonderServo.wait_header]. unfold bind at 1, in_waiting at 1.
    destruct (2 <=? len (rx w)); [| apply IH].
    unfold bind at 1, serial_read at 1.
    destruct (list_eqb _ _); [| apply IH].
    eexists _, _. reflexivity.
Qed.

Lemma servo_read_response_returns (polls : nat) (n : Z) (w : World) :
  exists w' r,
    HiwonderServo._read_response polls n w = (w', Ok r)
    /\ (forall x, r = Some x -> n - 2 <= len x).
Proof.
  unfold HiwonderServo._read_response. unfold bind at 1.
  destruct (servo_wait_header_returns polls w) as (w1 & r & E). rewrite E.
  destruct r as [header |].
  - unfold bind, serial_read.
    destruct (Z.ltb_spec (len (firstn (Z.to_nat (n - 2)) (rx w1))) (n - 2))
      as [Hlt | Hge].
    + eexists _, _. split; [reflexivity | discriminate].
    + eexists _, _. split; [reflexivity |].
      intros x Hx. injection Hx as <-. rewrite len_app.
      pose proof (len_nonneg header). lia.
  - eexists _, _. split; [reflexivity | discriminate].
Qed.

Lemma servo_send_command_query (servo_id command : Z) (w : World) :
  is_byte servo_id = true -> is_byte command = true ->
  HiwonderServo._send_command servo_id command [] w =
  (mkWorld (rx w)
           (tx w ++ [[0x55; 0x55; servo_id; 3; command;
                      HiwonderServo._calculate_checksum [servo_id; 3; command]]])
           (stdout w),
   Ok tt).
Proof.
  intros Hs Hc.
  unfold HiwonderServo._send_command, bind, lift, to_bytes, serial_write.
  cbn [forallb].
  change (is_byte 85) with true. change (len (@nil Z) + 3) with 3.
  change (is_byte 3) with true.
  rewrite Hs, Hc. cbn [andb app skipn].
  unfold HiwonderServo._calculate_checksum at 1.
  rewrite is_byte_land. reflexivity.
Qed.

Lemma getitem_in_range (l : list Z) (i : Z) :
  0 <= i < len l -> exists x, getitem l i = Ok x.
Proof.
  intros H. unfold getitem.
  destruct (Z.ltb_spec i 0); [lia |].
  destruct (Z.ltb_spec i 0); [lia |].
  destruct (nth_error l (Z.to_nat i)) as [x |] eqn:E; [now exists x |].
  apply nth_error_None in E. unfold len in H. lia.
Qed.

Lemma servo_read_position_returns (polls : nat) (servo_id : Z) (w : World) :
  is_byte servo_id = true ->
  exists w' p, HiwonderServo.read_position polls servo_id w = (w', Ok p).
Proof.
  intros Hs. unfold HiwonderServo.read_position. unfold bind at 1.
  rewrite servo_send_command_query by (exact Hs || reflexivity).
  unfold bind at 1.
  match goal with
  | |- context [HiwonderServo._read_response polls 8 ?w1] =>
      destruct (servo_read_response_returns polls 8 w1) as (w2 & r & E & _)
  end.
  rewrite E. destruct r as [r |]; [| eexists _, _; reflexivity].
  destruct (Z.ltb_spec (len r) 8) as [Hlt | Hge]; [eexists _, _; reflexivity |].
  destruct (getitem_in_range r 5) as [lo Elo]; [lia |].
  destruct (getitem_in_range r 6) as [hi Ehi]; [lia |].
  unfold bind, lift. rewrite Elo, Ehi. eexists _, _. reflexivity.
Qed.

Lemma servo_read_voltage_returns (polls : nat) (servo_id : Z) (w : World) :
  is_byte servo_id = true ->
  exists w' v, HiwonderServo.read_voltage polls servo_id w = (w', Ok v).
Proof.
  intros Hs. unfold HiwonderServo.read_voltage. unfold bind at 1.
  rewrite servo_send_command_query by (exact Hs || reflexivity).
  unfold bind at 1.
  match goal with
  | |- context [HiwonderServo._read_response polls 7 ?w1] =>
      destruct (servo_read_response_returns polls 7 w1) as (w2 & r & E & _)
  end.
  rewrite E. destruct r as [r |]; [| eexists _, _; reflexivity].
  destruct (Z.ltb_spec (len r) 7) as [Hlt | Hge]; [eexists _, _; reflexivity |].
  destruct (getitem_in_range r 5) as [x Ex]; [lia |].
  unfold bind, lift. rewrite Ex. eexists _, _. reflexivity.
Qed.

Lemma servo_read_temperature_returns (polls : nat) (servo_id : Z) (w : World) :
  is_byte servo_id = true ->
  exists w' v, HiwonderServo.read_temperature polls servo_id w = (w', Ok v).
Proof.
  intros Hs. unfold HiwonderServo.read_temperature. unfold bind at 1.
  rewrite servo_send_command_query by (exact Hs || reflexivity).
  unfold bind at 1.
  match goal with
  | |- context [HiwonderServo._read_response polls 7 ?w1] =>
      destruct (servo_read_response_returns polls 7 w1) as (w2 & r & E & _)
  end.
  rewrite E. destruct r as [r |]; [| eexists _, _; reflexivity].
  destruct (Z.ltb_spec (len r) 7) as [Hlt | Hge]; [eexists _, _; reflexivity |].
  destruct (getitem_in_range r 5) as [x Ex]; [lia |].
  unfold lift. rewrite Ex. eexists _, _. reflexivity.
Qed.

(** The estimate both [read_data] methods compute from the stored sample. *)
Lemma speed_formula_estimated (h : History) (now p v : Q) (t : Z) :
  speed_estimated h now
    (mkData p
       match last_position h, last_time h with
       | Some lp, Some lt =>
           if Qlt_le_dec 0 (now - lt) then ((p - lp) / (now - lt))%Q else 0%Q
       | _, _ => 0%Q
       end
       0 v t)
    (mkHistory (Some p) (Some now)).
Proof.
  unfold speed_estimated. cbn [speed position]. split; [| split].
  - intros ->. reflexivity.
  - intros p0 t0 -> ->.
    destruct (Qlt_le_dec 0 (now - t0)) as [Hpos | Hneg]; split; intros H.
    + reflexivity.
    + exfalso. apply (Qlt_irrefl 0). eapply Qlt_le_trans; eauto.
    + exfalso. apply (Qlt_irrefl 0). eapply Qlt_le_trans; eauto.
    + reflexivity.
  - reflexivity.
Qed.

(** The board's frame reader either returns or raises [TypeError]; a frame
    it returns has the number of data bytes its length byte announces. *)
Lemma board_read_response_outcome (w : World) :
  match snd (HiwonderBoardController._read_response w) with
  | Ok None => True
  | Ok (Some r) => exists l c data, r = l :: c :: data /\ len data = l - 2
  | Raise e => e = TypeError
  end.
Proof.
  rewrite board_read_response_eq. cbv zeta.
  destruct (rx w) as [| h r1]; [exact I |].
  destruct (h =? 0x55); [| reflexivity].
  destruct r1 as [| h2 r2]; [reflexivity |].
  destruct (h2 =? 0x55); [| reflexivity].
  destruct r2 as [| l [| c r4]]; try exact I.
  destruct (Z.eqb_spec (len (firstn (Z.to_nat (l - 2)) r4)) (l - 2))
    as [E | _]; [| exact I].
  cbn [snd]. eexists _, _, _. split; [reflexivity | exact E].
Qed.

(** The triple parser guards every index: it never raises. *)
Lemma positions_loop_returns (response : list Z) (range : list nat) :
  forall (positions : list (Z * Z)) (w : World),
  exists ps,
    HiwonderBoardController.positions_loop response range positions w =
    (w, Ok ps).
Proof.
  induction range as [| i range IH]; intros positions w;
    [now exists positions |].
  cbn [HiwonderBoardController.positions_loop].
  destruct (Z.ltb_spec (3 + Z.of_nat i * 3 + 2) (len response)) as [Hlt | _];
    [| apply IH].
  destruct (getitem_in_range response (3 + Z.of_nat i * 3)) as [a Ea];
    [lia |].
  destruct (getitem_in_range response (3 + Z.of_nat i * 3 + 1)) as [b Eb];
    [lia |].
  destruct (getitem_in_range response (3 + Z.of_nat i * 3 + 2)) as [c Ec];
    [lia |].
  unfold bind, lift. rewrite Ea, Eb, Ec. apply IH.
Qed.

(** [read_position] of the board adapter returns, unless the frame reader
    raised [TypeError]. *)
Lemma board_read_position_outcome (servo_id : Z) (w : World) :
  is_byte servo_id = true ->
  returns_or_type_error (HiwonderBoardServo.read_position servo_id w).
Proof.
  intros Hs.
  assert (Hq : forallb is_byte (board_frame 0x15 (len [servo_id] :: [servo_id]))
               = true).
  { unfold board_frame. cbn [app forallb len List.length].
    change (is_byte 85) with true.
    change (is_byte (2 + Z.of_nat 2)) with true.
    change (is_byte 21) with true. change (is_byte (Z.of_nat 1)) with true.
    rewrite Hs. reflexivity. }
  unfold returns_or_type_error, HiwonderBoardServo.read_position,
    HiwonderBoardController.read_servo_positions.
  unfold bind at 1 2. rewrite board_send_command.
  change HiwonderBoardController.CMD_MULT_SERVO_POS_READ with 0x15.
  cbv zeta. cbn [app] in Hq |- *. rewrite Hq.
  unfold bind at 1.
  match goal with
  | |- context [HiwonderBoardController._read_response ?w1] =>
      pose proof (board_read_response_outcome w1) as Hr;
      destruct (HiwonderBoardController._read_response w1)
        as [w2 [[r |] | e]]
  end; cbn [snd] in Hr; [| exact I | exact Hr].
  destruct Hr as (l & c & data & -> & Hlen).
  destruct ((len (l :: c :: data) =? 0) || negb (3 <=? len (l :: c :: data)))
    eqn:Hshort; [exact I |].
  apply orb_false_iff in Hshort as [_ H3].
  apply negb_false_iff, Z.leb_le in H3.
  destruct (getitem_in_range (l :: c :: data) 2) as [count Ec]; [lia |].
  unfold bind at 1, lift at 1. rewrite Ec.
  destruct (positions_loop_returns (l :: c :: data)
              (seq 0 (Z.to_nat count)) [] w2) as [ps Eps].
  unfold bind at 1. rewrite Eps. unfold ret.
  destruct (len ps =? 0); exact I.
Qed.

(** [read_voltage] of the board adapter returns, unless the frame reader
    raised [TypeError]. *)
Lemma board_read_voltage_outcome (w : World) :
  returns_or_type_error (HiwonderBoardServo.read_voltage w).
Proof.
  unfold returns_or_type_error, HiwonderBoardServo.read_voltage,
    HiwonderBoardController.get_battery_voltage.
  unfold bind at 1 2. rewrite board_send_command.
  cbv zeta. change (forallb is_byte (board_frame _ [])) with true. cbv iota.
  unfold bind at 1.
  match goal with
  | |- context [HiwonderBoardController._read_response ?w1] =>
      pose proof (board_read_response_outcome w1) as Hr;
      destruct (HiwonderBoardController._read_response w1)
        as [w2 [[r |] | e]]
  end; cbn [snd] in Hr; [| exact I | exact Hr].
  destruct Hr as (l & c & data & -> & Hlen).
  change (len (l :: c :: data) =? 0)
    with (Z.of_nat (S (S (List.length data))) =? 0).
  destruct (Z.eqb_spec (Z.of_nat (S (S (List.length data)))) 0); [lia |].
  unfold bind at 1, lift at 1. change (getitem (l :: c :: data) 1) with (Ok c).
  cbv iota beta.
  destruct (negb (c =? HiwonderBoardController.CMD_GET_BATTERY_VOLTAGE));
    [exact I |].
  unfold bind at 1, lift at 1. change (getitem (l :: c :: data) 0) with (Ok l).
  cbv iota beta.
  destruct (Z.eqb_spec l 4) as [-> | _]; cbn [negb]; [| exact I].
  destruct data as [| lo [| hi data]];
    try (unfold len in Hlen; cbn [List.length] in Hlen; lia).
  exact I.
Qed.

(** C4: the speed-estimating [read_data] of both clients.
    The direct client (first part) returns on every state of the
    transport, given a servo id that fits a byte: the speed it reports is 0
    on the first read after initialization, [(p1 - p0) / (t1 - t0)] when a
    previous sample exists and [t1 - t0 > 0], and 0 when [t1 - t0 <= 0];
    the stored sample becomes the new position and time.
    The board client (second part) does the same whenever its position
    read and its battery read return.  The only other outcome is that one
    of the two raises [TypeError], the frame reader formatting a byte that
    is not where a header byte should be: then [read_data] raises it too,
    reports no speed and stores no sample, where the claim promises speed 0
    on a first read and the state updated after every read. *)
Theorem speed_estimating_read_data
    (polls : nat) (now : Q) (h : History) (servo_id : Z) (w : World) :
  is_byte servo_id = true ->
  (exists w' d h',
      HiwonderServoWithSpeedEstimation.read_data polls now
        (HiwonderServoWithSpeedEstimation.mkSelf servo_id h) w =
      (w', Ok (d, HiwonderServoWithSpeedEstimation.mkSelf servo_id h'))
      /\ (exists w0, HiwonderServo.read_position polls servo_id w =
                     (w0, Ok (position d)))
      /\ speed_estimated h now d h')
  /\ match HiwonderBoardServo.read_position servo_id w with
     | (w1, Ok p) =>
         match HiwonderBoardServo.read_voltage w1 with
         | (w2, Ok v) =>
             exists d h',
               HiwonderBoardServoWithSpeedEstimation.read_data now
                 (HiwonderBoardServoWithSpeedEstimation.mkSelf servo_id h) w =
               (w2, Ok (d, HiwonderBoardServoWithSpeedEstimation.mkSelf
                             servo_id h'))
               /\ position d = p /\ input_volts d = v
               /\ speed_estimated h now d h'
         | (w2, Raise e) =>
             e = TypeError
             /\ HiwonderBoardServoWithSpeedEstimation.read_data now
                  (HiwonderBoardServoWithSpeedEstimation.mkSelf servo_id h) w =
                (w2, Raise TypeError)
         end
     | (w1, Raise e) =>
         e = TypeError
         /\ HiwonderBoardServoWithSpeedEstimation.read_data now
              (HiwonderBoardServoWithSpeedEstimation.mkSelf servo_id h) w =
            (w1, Raise TypeError)
     end.
Proof.
  intros Hs. split.
  - unfold HiwonderServoWithSpeedEstimation.read_data.
    cbn [HiwonderServoWithSpeedEstimation.servo_id
         HiwonderServoWithSpeedEstimation.history].
    destruct (servo_read_position_returns polls servo_id w Hs)
      as (wa & pos & Ea).
    destruct (servo_read_voltage_returns polls servo_id wa Hs)
      as (wb & volt & Eb).
    destruct (servo_read_temperature_returns polls servo_id wb Hs)
      as (wc & tmp & Ec).
    unfold bind. rewrite Ea, Eb, Ec. unfold ret.
    eexists _, _, _. split; [reflexivity |]. split.
    + exists wa. reflexivity.
    + apply speed_formula_estimated.
  - pose proof (board_read_position_outcome servo_id w Hs) as Hp.
    unfold returns_or_type_error in Hp.
    destruct (HiwonderBoardServo.read_position servo_id w) as [w1 [p | e]]
      eqn:Ep; cbn [snd] in Hp.
    + pose proof (board_read_voltage_outcome w1) as Hv.
      unfold returns_or_type_error in Hv.
      destruct (HiwonderBoardServo.read_voltage w1) as [w2 [v | e]] eqn:Ev;
        cbn [snd] in Hv.
      * unfold HiwonderBoardServoWithSpeedEstimation.read_data.
        cbn [HiwonderBoardServoWithSpeedEstimation.servo_id
             HiwonderBoardServoWithSpeedEstimation.history].
        unfold bind at 1. rewrite Ep. unfold bind at 1. rewrite Ev.
        unfold ret. eexists _, _. split; [reflexivity |].
        split; [reflexivity |]. split; [reflexivity |].
        apply speed_formula_estimated.
      * subst e. split; [reflexivity |].
        unfold HiwonderBoardServoWithSpeedEstimation.read_data.
        cbn [HiwonderBoardServoWithSpeedEstimation.servo_id].
        unfold bind at 1. rewrite Ep. unfold bind at 1. rewrite Ev.
        reflexivity.
    + subst e. split; [reflexivity |].
      unfold HiwonderBoardServoWithSpeedEstimation.read_data.
      cbn [HiwonderBoardServoWithSpeedEstimation.servo_id].
      unfold bind at 1. rewrite Ep. reflexivity.
Qed.

(** The outcome on a fresh client when one stray byte precedes the board's
    answer: the direct client reports speed 0 and stores the sample; the
    board client raises [TypeError]. *)
Lemma speed_estimating_read_data_witness :
  (exists w' d h',
      HiwonderServoWithSpeedEstimation.read_data 2 3
        (HiwonderServoWithSpeedEstimation.mkSelf 1 (mkHistory None None))
        (mkWorld [0x00; 0x55; 0x55; 6; 0x15; 1; 1; 0xEE; 0x02] [] []) =
      (w', Ok (d, HiwonderServoWithSpeedEstimation.mkSelf 1 h'))
      /\ speed d = 0%Q
      /\ h' = mkHistory (Some (position d)) (Some 3%Q))
  /\ HiwonderBoardServoWithSpeedEstimation.read_data 3
       (HiwonderBoardServoWithSpeedEstimation.mkSelf 1 (mkHistory None None))
       (mkWorld [0x00; 0x55; 0x55; 6; 0x15; 1; 1; 0xEE; 0x02] [] []) =
     (mkWorld [0x55; 0x55; 6; 0x15; 1; 1; 0xEE; 0x02]
              [[0x55; 0x55; 4; 0x15; 1; 1]]
              [PrintTX [0x55; 0x55; 4; 0x15; 1; 1]],
      Raise TypeError).
Proof.
  destruct (speed_estimating_read_data 2 3 (mkHistory None None) 1
              (mkWorld [0x00; 0x55; 0x55; 6; 0x15; 1; 1; 0xEE; 0x02] [] [])
              eq_refl) as [Hdirect Hboard].
  split.
  - destruct Hdirect as (w' & d & h' & E & _ & Hspeed & _ & Hstored).
    exists w', d, h'. split; [exact E |]. split; [| exact Hstored].
    apply Hspeed. reflexivity.
  - assert (Hread : HiwonderBoardServo.read_position 1
                      (mkWorld [0x00; 0x55; 0x55; 6; 0x15; 1; 1; 0xEE; 0x02]
                               [] []) =
                    (mkWorld [0x55; 0x55; 6; 0x15; 1; 1; 0xEE; 0x02]
                             [[0x55; 0x55; 4; 0x15; 1; 1]]
                             [PrintTX [0x55; 0x55; 4; 0x15; 1; 1]],
                     Raise TypeError))
      by (vm_compute; reflexivity).
    rewrite Hread in Hboard. exact (proj2 Hboard).
Defined.

(** * Battery voltage *)

Lemma battery_voltage_well_formed (lo hi : Z) (rest : list Z)
                                  (t : list (list Z)) (o : list line) :
  HiwonderBoardController.get_battery_voltage
    (mkWorld ([0x55; 0x55; 4; 0x0F; lo; hi] ++ rest) t o) =
  (mkWorld rest (t ++ [[0x55; 0x55; 2; 0x0F]])
           (o ++ [PrintTX [0x55; 0x55; 2; 0x0F]]
              ++ [PrintResponse [4; 0x0F; lo; hi]]),
   Ok (Some (inject_Z (Z.lor lo (Z.shiftl hi 8)) / 1000)%Q)).
Proof.
  unfold HiwonderBoardController.get_battery_voltage.
  unfold bind at 1. rewrite board_send_command.
  cbv zeta. change (forallb is_byte (board_frame _ [])) with true.
  cbv iota. cbn [rx tx stdout]. unfold bind at 1.
  rewrite (board_read_response_framed 4 0x0F [lo; hi] rest) by reflexivity.
  cbv iota beta. rewrite <- app_assoc. reflexivity.
Qed.

(** A response that stops short, declares a length other than 4, or
    answers another command yields [None]. *)
Lemma battery_voltage_rejects (l c : Z) (r4 : list Z)
                              (t : list (list Z)) (o : list line) :
  len (firstn (Z.to_nat (l - 2)) r4) <> l - 2 \/ l <> 4 \/ c <> 0x0F ->
  snd (HiwonderBoardController.get_battery_voltage
         (mkWorld (0x55 :: 0x55 :: l :: c :: r4) t o)) = Ok None.
Proof.
  intros H.
  unfold HiwonderBoardController.get_battery_voltage.
  unfold bind at 1. rewrite board_send_command.
  cbv zeta. change (forallb is_byte (board_frame _ [])) with true.
  cbv iota. cbn [rx tx stdout]. unfold bind at 1.
  rewrite board_read_response_eq. cbn [rx tx stdout].
  change (85 =? 85) with true. cbv iota zeta.
  destruct (Z.eqb_spec (len (firstn (Z.to_nat (l - 2)) r4)) (l - 2))
    as [Hlen | Hlen]; [| reflexivity].
  change (len (l :: c :: firstn (Z.to_nat (l - 2)) r4) =? 0) with false.
  cbv iota. unfold bind at 1, lift at 1.
  change (getitem (l :: c :: firstn (Z.to_nat (l - 2)) r4) 1) with (Ok c).
  cbv iota beta.
  change HiwonderBoardController.CMD_GET_BATTERY_VOLTAGE with 0x0F.
  destruct (Z.eqb_spec c 0x0F) as [Hc | Hc]; [| reflexivity].
  cbn [negb]. cbv iota. unfold bind at 1, lift at 1.
  change (getitem (l :: c :: firstn (Z.to_nat (l - 2)) r4) 0) with (Ok l).
  cbv iota beta.
  destruct (Z.eqb_spec l 4) as [Hl | Hl]; [| reflexivity].
  exfalso. destruct H as [H | [H | H]]; contradiction.
Qed.

(** Silence, or a response cut before its command byte, yields [None]. *)
Lemma battery_voltage_timeout (l : Z) (t : list (list Z)) (o : list line) :
  snd (HiwonderBoardController.get_battery_voltage (mkWorld [] t o)) = Ok None
  /\ snd (HiwonderBoardController.get_battery_voltage
            (mkWorld [0x55; 0x55] t o)) = Ok None
  /\ snd (HiwonderBoardController.get_battery_voltage
            (mkWorld [0x55; 0x55; l] t o)) = Ok None.
Proof. repeat split. Qed.

Example battery_voltage_7096_mV :
  snd (HiwonderBoardController.get_battery_voltage
         (mkWorld [0x55; 0x55; 4; 0x0F; 0xB8; 0x1B] [] [])) =
  Ok (Some (7096 # 1000))
  /\ 7096 # 1000 == 7.096.
Proof. split; reflexivity. Qed.

(** C6: the claim is not met on a stream that does not open with the
    header.  A stray byte before an otherwise well-formed battery response
    makes [get_battery_voltage] raise [TypeError] (from formatting a
    [bytes] object with [02X] in the diagnostic of the header loop) where
    the claim requires [None]; so does a second header byte that is wrong
    or missing. *)
Theorem battery_voltage_raises_on_stray_byte :
  snd (HiwonderBoardController.get_battery_voltage
         (mkWorld [0x00; 0x55; 0x55; 4; 0x0F; 0xB8; 0x1B] [] []))
  = Raise TypeError
  /\ snd (HiwonderBoardController.get_battery_voltage
            (mkWorld [0x55; 0x00; 4; 0x0F; 0xB8; 0x1B] [] []))
     = Raise TypeError
  /\ snd (HiwonderBoardController.get_battery_voltage
            (mkWorld [0x55] [] []))
     = Raise TypeError.
Proof. repeat split. Qed.

(** * Parsing position triples *)

Lemma bind_assoc {A B C : Type} (m : M A) (k : A -> M B) (k2 : B -> M C)
                 (w : World) :
  bind (bind m k) k2 w = bind m (fun x => bind (k x) k2) w.
Proof. unfold bind. destruct (m w) as [w' [a | e]]; reflexivity. Qed.

Lemma bind_ext {A B : Type} (m : M A) (k k' : A -> M B) (w : World) :
  (forall x w', k x w' = k' x w') -> bind m k w = bind m k' w.
Proof.
  intros H. unfold bind. destruct (m w) as [w' [a | e]]; [apply H | reflexivity].
Qed.

Lemma positions_loop_app (response : list Z) (l1 l2 : list nat)
                         (positions : list (Z * Z)) (w : World) :
  HiwonderBoardController.positions_loop response (l1 ++ l2) positions w =
  (ps <- HiwonderBoardController.positions_loop response l1 positions ;;
   HiwonderBoardController.positions_loop response l2 ps) w.
Proof.
  revert positions w.
  induction l1 as [| i l1 IH]; intros positions w; [reflexivity |].
  cbn [app HiwonderBoardController.positions_loop].
  destruct (_ <? len response); [| apply IH].
  rewrite !bind_assoc.
  apply bind_ext. intros a w1. rewrite bind_assoc.
  apply bind_ext. intros b w2. rewrite bind_assoc.
  apply bind_ext. intros c w3. apply IH.
Qed.

(** Triples that are wholly inside the response are decoded in order. *)
Lemma positions_loop_hits (triples : list (Z * Z * Z)) :
  forall (pre post : list Z) (a : nat) (positions : list (Z * Z)) (w : World),
    List.length pre = (3 + 3 * a)%nat ->
    HiwonderBoardController.positions_loop
      (pre ++ flat_map triple_bytes triples ++ post)
      (seq a (List.length triples)) positions w =
    (w, Ok (positions ++ map triple_position triples)).
Proof.
  induction triples as [| [[servo_id pos_low] pos_high] triples IH];
    intros pre post a positions w Hpre.
  - cbn. now rewrite app_nil_r.
  - cbn [List.length seq HiwonderBoardController.positions_loop].
    cbn [flat_map triple_bytes app].
    set (r := pre ++ servo_id :: pos_low :: pos_high
                  :: flat_map triple_bytes triples ++ post).
    assert (Hoff : 3 + Z.of_nat a * 3 = Z.of_nat (List.length pre)) by lia.
    assert (H0 : nth_error r (List.length pre) = Some servo_id).
    { unfold r. rewrite nth_error_app2, Nat.sub_diag by lia. reflexivity. }
    assert (H1 : nth_error r (List.length pre + 1) = Some pos_low).
    { unfold r. rewrite nth_error_app2 by lia.
      replace (List.length pre + 1 - List.length pre)%nat with 1%nat by lia.
      reflexivity. }
    assert (H2 : nth_error r (List.length pre + 2) = Some pos_high).
    { unfold r. rewrite nth_error_app2 by lia.
      replace (List.length pre + 2 - List.length pre)%nat with 2%nat by lia.
      reflexivity. }
    assert (Hlen : 3 + Z.of_nat a * 3 + 2 < len r).
    { unfold r, len. rewrite length_app. cbn [List.length]. lia. }
    apply Z.ltb_lt in Hlen. rewrite Hlen.
    rewrite Hoff.
    replace (Z.of_nat (List.length pre) + 1)
      with (Z.of_nat (List.length pre + 1)) by lia.
    replace (Z.of_nat (List.length pre) + 2)
      with (Z.of_nat (List.length pre + 2)) by lia.
    unfold bind, lift.
    rewrite (getitem_nth r _ _ H0), (getitem_nth r _ _ H1),
      (getitem_nth r _ _ H2).
    unfold r.
    change (pre ++ servo_id :: pos_low :: pos_high
                :: flat_map triple_bytes triples ++ post)
      with (pre ++ [servo_id; pos_low; pos_high]
                ++ flat_map triple_bytes triples ++ post).
    rewrite app_assoc.
    rewrite IH by (rewrite length_app; cbn [List.length]; lia).
    cbn [map triple_position]. rewrite <- app_assoc. reflexivity.
Qed.

(** Indices whose triple would end beyond the response are passed over. *)
Lemma positions_loop_misses (response : list Z) (range : list nat)
                            (positions : list (Z * Z)) (w : World) :
  Forall (fun i => len response <= 3 + Z.of_nat i * 3 + 2) range ->
  HiwonderBoardController.positions_loop response range positions w =
  (w, Ok positions).
Proof.
  induction 1 as [| i range Hi _ IH]; [reflexivity |].
  cbn [HiwonderBoardController.positions_loop].
  destruct (Z.ltb_spec (3 + Z.of_nat i * 3 + 2) (len response)); [lia |].
  exact IH.
Qed.

(** C7, as the specification words it, fails: the answer for two servos
    cut on the wire inside its second triple (length byte 9, so seven bytes
    announced after the command byte, six received).  The triple of servo 1
    is whole, yet the frame reader gives up on the short read and
    [read_servo_positions] returns [None], not [[(1, 500)]]. *)
Lemma short_read_positions_none :
  HiwonderBoardController.read_servo_positions [1; 2]
    (mkWorld [0x55; 0x55; 9; 0x15; 2; 1; 0xF4; 0x01; 2; 0x58] [] []) =
  (mkWorld [] [[0x55; 0x55; 5; 0x15; 2; 1; 2]]
           [PrintTX [0x55; 0x55; 5; 0x15; 2; 1; 2];
            PrintFailedData 7 [2; 1; 0xF4; 0x01; 2; 0x58]],
   Ok None).
Proof. reflexivity. Qed.

(** C7 (amended): a payload that ends inside a triple, the count byte
    announcing more triples than are whole.  What [read_servo_positions]
    returns is decided by the length byte.  When the length byte agrees
    with the bytes that arrived, the result is exactly the triples that are
    wholly present, in order, the cut one dropped.  When the length byte
    announces more bytes than arrived (the frame was cut on the wire), the
    result is [None] and no triple is returned.  In neither case does an
    index leave the buffer (no [IndexError]). *)
Theorem truncated_positions_response
    (servo_ids : list Z) (command count : Z) (triples : list (Z * Z * Z))
    (partial rest : list Z) (t : list (list Z)) (o : list line) :
  forallb is_byte (board_frame 0x15 (len servo_ids :: servo_ids)) = true ->
  (List.length partial < 3)%nat ->
  len triples < count ->
  let query := board_frame 0x15 (len servo_ids :: servo_ids) in
  let payload := count :: flat_map triple_bytes triples ++ partial in
  (let response := 2 + len payload :: command :: payload in
   HiwonderBoardController.read_servo_positions servo_ids
     (mkWorld ([0x55; 0x55] ++ response ++ rest) t o) =
   (mkWorld rest (t ++ [query]) (o ++ [PrintTX query; PrintResponse response]),
    Ok (Some (map triple_position triples))))
  /\ (forall length : Z,
        2 + len payload < length ->
        HiwonderBoardController.read_servo_positions servo_ids
          (mkWorld ([0x55; 0x55; length; command] ++ payload) t o) =
        (mkWorld [] (t ++ [query])
           (o ++ [PrintTX query; PrintFailedData (length - 2) payload]),
         Ok None)).
Proof.
  intros Hq Hpartial Hcount. cbv zeta.
  set (payload := count :: flat_map triple_bytes triples ++ partial).
  split.
  - set (r := 2 + len payload :: command :: payload).
    unfold HiwonderBoardController.read_servo_positions.
    unfold bind at 1. rewrite board_send_command.
    change HiwonderBoardController.CMD_MULT_SERVO_POS_READ with 0x15.
    cbv zeta. cbn [app] in Hq |- *. rewrite Hq. cbn [rx tx stdout].
    unfold bind at 1.
    rewrite (board_read_response_framed (2 + len payload) command payload rest)
      by reflexivity.
    fold r.
    assert (Hlen : len r = 3 + 3 * len triples + len partial).
    { unfold r, payload, len. cbn [List.length]. rewrite length_app.
      assert (E : List.length (flat_map triple_bytes triples) =
                  (3 * List.length triples)%nat).
      { clear. induction triples as [| [[a b] c] l IH]; [reflexivity |].
        cbn [flat_map triple_bytes List.length app]. lia. }
      rewrite E. lia. }
    assert (Hnz : (len r =? 0) || negb (3 <=? len r) = false).
    { pose proof (len_nonneg triples). pose proof (len_nonneg partial).
      apply orb_false_iff. split.
      - apply Z.eqb_neq. lia.
      - apply negb_false_iff, Z.leb_le. lia. }
    rewrite Hnz. unfold bind at 1, lift at 1.
    change (getitem r 2) with (Ok count). cbv iota beta.
    set (k := List.length triples).
    assert (Hseq : seq 0 (Z.to_nat count) =
                   seq 0 k ++ seq k (Z.to_nat count - k)).
    { change (seq k (Z.to_nat count - k))
        with (seq (0 + k) (Z.to_nat count - k)).
      rewrite <- seq_app. f_equal.
      unfold len in Hcount. fold k in Hcount. lia. }
    rewrite Hseq. unfold bind at 1. rewrite positions_loop_app.
    unfold bind at 1.
    unfold r at 1, payload at 2.
    change (2 + len payload :: command
              :: count :: flat_map triple_bytes triples ++ partial)
      with ([2 + len payload; command; count]
              ++ flat_map triple_bytes triples ++ partial).
    unfold k at 1.
    rewrite positions_loop_hits by reflexivity.
    change ([2 + len payload; command; count]
              ++ flat_map triple_bytes triples ++ partial) with r.
    rewrite positions_loop_misses.
    + unfold ret. cbn [app]. rewrite <- app_assoc. reflexivity.
    + apply Forall_forall. intros i Hi. apply in_seq in Hi.
      rewrite Hlen. unfold len. fold k. lia.
  - intros length Hshort.
    unfold HiwonderBoardController.read_servo_positions.
    unfold bind at 1. rewrite board_send_command.
    change HiwonderBoardController.CMD_MULT_SERVO_POS_READ with 0x15.
    cbv zeta. cbn [app] in Hq |- *. rewrite Hq. cbn [rx tx stdout].
    unfold bind at 1. rewrite board_read_response_eq.
    cbn [rx tx stdout]. change (85 =? 85) with true. cbv iota zeta.
    assert (Hn : (List.length payload <= Z.to_nat (length - 2))%nat)
      by (unfold len in Hshort; lia).
    rewrite (firstn_all2 _ Hn), (skipn_all2 _ Hn).
    destruct (Z.eqb_spec (len payload) (length - 2)) as [E | _]; [lia |].
    rewrite <- app_assoc. reflexivity.
Qed.

Lemma truncated_positions_response_witness :
  HiwonderBoardController.read_servo_positions [1; 2]
    (mkWorld [0x55; 0x55; 8; 0x15; 2; 1; 0xF4; 0x01; 2; 0x10] [] []) =
  (mkWorld [] [[0x55; 0x55; 5; 0x15; 2; 1; 2]]
           [PrintTX [0x55; 0x55; 5; 0x15; 2; 1; 2];
            PrintResponse [8; 0x15; 2; 1; 0xF4; 0x01; 2; 0x10]],
   Ok (Some [(1, 500)]))
  /\ HiwonderBoardController.read_servo_positions [1; 2]
       (mkWorld [0x55; 0x55; 9; 0x15; 2; 1; 0xF4; 0x01; 2; 0x10] [] []) =
     (mkWorld [] [[0x55; 0x55; 5; 0x15; 2; 1; 2]]
              [PrintTX [0x55; 0x55; 5; 0x15; 2; 1; 2];
               PrintFailedData 7 [2; 1; 0xF4; 0x01; 2; 0x10]],
      Ok None).
Proof.
  destruct (truncated_positions_response [1; 2] 0x15 2 [(1, 0xF4, 0x01)]
              [2; 0x10] [] [] []) as [Hwhole Hcut].
  - reflexivity.
  - cbn. lia.
  - reflexivity.
  - split; [exact Hwhole | apply (Hcut 9); reflexivity].
Defined.

(** * Torque switch of the board adapter *)

(** C10: on the board adapter, enabling torque leaves the world as it is
    (nothing written to the transport, nothing printed); disabling torque
    is the board's unload of the one-element list [[servo_id]], whose
    frame is [55 55 04 14 01 servo_id]. *)
Theorem board_servo_set_torque_enable (servo_id : Z) (w : World) :
  HiwonderBoardServo.set_torque_enable servo_id true w = (w, Ok tt)
  /\ HiwonderBoardServo.set_torque_enable servo_id false w =
     (HiwonderBoardController.unload_servos [servo_id] ;;; ret tt) w
  /\ tx (fst (HiwonderBoardServo.set_torque_enable servo_id false w)) =
     tx w ++ (if is_byte servo_id
              then [[0x55; 0x55; 0x04; 0x14; 0x01; servo_id]]
              else []).
Proof.
  split; [reflexivity |]. split; [reflexivity |].
  unfold HiwonderBoardServo.set_torque_enable. cbn [negb].
  unfold bind. rewrite unload_servos_eq. cbv zeta.
  unfold board_frame. cbn [app forallb len List.length].
  change (is_byte 85) with true.
  change (is_byte (2 + Z.of_nat 2)) with true.
  change (is_byte 20) with true. change (is_byte (Z.of_nat 1)) with true.
  cbn [andb]. rewrite andb_true_r.
  destruct (is_byte servo_id); cbn [fst tx]; [reflexivity |].
  now rewrite app_nil_r.
Qed.

(** * Whole-body position commands *)

Lemma dict_lookup_In {V : Type} (d : list (string * V)) (k : string) (v : V) :
  dict_lookup String.eqb d k = Some v -> In k (map fst d).
Proof.
  induction d as [| [k' v'] d IH]; cbn; [discriminate |].
  destruct (String.eqb_spec k' k) as [-> | Hne]; [now left |].
  intros H. right. now apply IH.
Qed.

Lemma known_joint_lookup (name : string) :
  known_joint name = true ->
  exists servo_id,
    dict_lookup String.eqb HWI.joints name = Some servo_id
    /\ is_byte servo_id = true.
Proof.
  unfold known_joint, dict_in, HWI.joints. cbn [dict_lookup].
  repeat match goal with
         | |- context [String.eqb ?a name] =>
             destruct (String.eqb a name);
             [intros _; eexists; split; reflexivity |]
         end.
  discriminate.
Qed.

Lemma commands_loop_eq (joints_offsets : list (string * Q)) (duration : Z)
                       (items : list (string * Q)) :
  forall (servo_commands : list (Z * Z * Z)) (w : World),
    offsets_cover joints_offsets (map fst items) = true ->
    HWI.commands_loop joints_offsets items duration servo_commands w =
    (mkWorld (rx w) (tx w)
       (stdout w ++
        map (fun item => PrintUnknownJoint (fst item))
            (filter (fun item => negb (known_joint (fst item))) items)),
     Ok (servo_commands ++
         map (command_of joints_offsets duration)
             (filter (fun item => known_joint (fst item)) items))).
Proof.
  induction items as [| [joint_name position] items IH];
    intros servo_commands w Hcover.
  - cbn. rewrite !app_nil_r. now destruct w.
  - cbn [map fst offsets_cover forallb] in Hcover.
    apply andb_true_iff in Hcover as [Hhere Hcover].
    cbn [HWI.commands_loop filter fst].
    fold (known_joint joint_name).
    destruct (known_joint joint_name) eqn:Hk; cbn [negb].
    + destruct (known_joint_lookup joint_name Hk) as (servo_id & Hid & _).
      cbn [negb orb] in Hhere. unfold dict_in in Hhere.
      destruct (dict_lookup String.eqb joints_offsets joint_name)
        as [offset |] eqn:Hoff; [| discriminate].
      unfold bind at 1, lift at 1, dict_get at 1. rewrite Hid.
      unfold bind at 1, lift at 1, dict_get at 1. rewrite Hoff.
      rewrite IH by exact Hcover.
      cbn [map]. unfold command_of at 2. cbn [fst snd].
      rewrite Hid, Hoff. rewrite <- app_assoc. reflexivity.
    + unfold bind at 1, print at 1.
      rewrite IH by exact Hcover.
      cbn [rx tx stdout map fst]. rewrite <- app_assoc. reflexivity.
Qed.

Lemma NoDup_map_fst_filter {A B : Type} (f : A * B -> bool) (l : list (A * B)) :
  NoDup (map fst l) -> NoDup (map fst (filter f l)).
Proof.
  induction l as [| a l IH]; cbn [map filter]; intros H; [constructor |].
  inversion H as [| x xs Hnotin Hnodup]; subst.
  destruct (f a); [| now apply IH].
  cbn [map]. constructor; [| now apply IH].
  intros Hin. apply Hnotin.
  apply in_map_iff in Hin as (b & Hb & Hin).
  apply filter_In in Hin as [Hin _].
  apply in_map_iff. now exists b.
Qed.

(** A mapping with distinct keys names at most the fourteen joints. *)
Lemma known_items_bound (items : list (string * Q)) :
  NoDup (map fst items) ->
  (List.length (filter (fun item => known_joint (fst item)) items) <= 14)%nat.
Proof.
  intros Hnodup.
  rewrite <- (length_map fst).
  change 14%nat with (List.length (map fst HWI.joints)).
  apply NoDup_incl_length.
  - now apply NoDup_map_fst_filter.
  - intros name Hin.
    apply in_map_iff in Hin as ([n q] & <- & Hin).
    apply filter_In in Hin as [_ Hk]. cbn [fst] in *.
    destruct (known_joint_lookup n Hk) as (servo_id & Hid & _).
    now apply dict_lookup_In in Hid.
Qed.

Lemma flat_map_servo_entry_length (commands : list (Z * Z * Z)) :
  List.length (flat_map servo_entry commands) = (5 * List.length commands)%nat.
Proof.
  induction commands as [| [[a b] c] l IH]; [reflexivity |].
  cbn [flat_map servo_entry List.length app]. lia.
Qed.

Lemma move_frame_bytes (commands : list (Z * Z * Z)) :
  Forall (fun c => is_byte (fst (fst c)) = true) commands ->
  (List.length commands <= 50)%nat ->
  forallb is_byte (board_frame 0x03 (move_params commands)) = true.
Proof.
  intros Hids Hn. unfold board_frame, move_params.
  cbn [app forallb]. change (is_byte 85) with true. change (is_byte 3) with true.
  cbn [andb].
  assert (Hlen : len (len commands :: flat_map servo_entry commands) =
                 1 + 5 * len commands).
  { unfold len. cbn [List.length]. rewrite flat_map_servo_entry_length. lia. }
  rewrite Hlen.
  assert (Hb : forall z, 0 <= z < 256 -> is_byte z = true).
  { intros z Hz. unfold is_byte. apply andb_true_iff.
    split; [apply Z.leb_le | apply Z.ltb_lt]; lia. }
  rewrite (Hb (2 + (1 + 5 * len commands))) by (unfold len; lia).
  rewrite (Hb (len commands)) by (unfold len; lia).
  cbn [andb]. clear Hn Hlen Hb.
  induction Hids as [| [[servo_id position] time_ms] l Hid _ IH];
    [reflexivity |].
  cbn [flat_map servo_entry app forallb fst] in *.
  rewrite Hid, !is_byte_land. cbn [andb].
  exact IH.
Qed.

(** C8: for every positions mapping (distinct joint names, an offset on
    file for each known joint), [set_position_all] does not raise; unknown
    names are skipped with one warning each; the only command written is
    one board move whose batch has exactly one entry per known name of the
    mapping, in the mapping's order (no command when no name is known). *)
Theorem set_position_all_skips_unknown
    (joints_offsets : list (string * Q)) (items : list (string * Q))
    (move_duration_ms : option Z) (w : World) :
  NoDup (map fst items) ->
  offsets_cover joints_offsets (map fst items) = true ->
  let duration :=
    match move_duration_ms with Some d => d | None => 20 end in
  let known := filter (fun item => known_joint (fst item)) items in
  let unknown := filter (fun item => negb (known_joint (fst item))) items in
  let commands := map (command_of joints_offsets duration) known in
  let frame := board_frame 0x03 (len known :: flat_map servo_entry commands) in
  HWI.set_position_all joints_offsets items move_duration_ms w =
  (mkWorld (rx w)
     (tx w ++ match known with [] => [] | _ :: _ => [frame] end)
     (stdout w
        ++ map (fun item => PrintUnknownJoint (fst item)) unknown
        ++ match known with [] => [] | _ :: _ => [PrintTX frame] end),
   Ok tt)
  /\ List.length commands = List.length known.
Proof.
  intros Hnodup Hcover. cbv zeta.
  split; [| apply length_map].
  unfold HWI.set_position_all.
  change HWI.default_move_duration_ms with 20.
  set (duration := match move_duration_ms with Some d => d | None => 20 end).
  unfold bind at 1. rewrite commands_loop_eq by exact Hcover.
  cbn [app].
  pose proof (known_items_bound items Hnodup) as Hbound.
  remember (filter (fun item => known_joint (fst item)) items) as known
    eqn:Hknown.
  assert (Hids : Forall (fun c => is_byte (fst (fst c)) = true)
                        (map (command_of joints_offsets duration) known)).
  { apply Forall_forall. intros c Hc.
    apply in_map_iff in Hc as ([n q] & <- & Hin).
    rewrite Hknown in Hin.
    apply filter_In in Hin as [_ Hk]. cbn [fst] in Hk.
    destruct (known_joint_lookup n Hk) as (servo_id & Hid & Hbyte).
    unfold command_of. cbn [fst]. now rewrite Hid. }
  clear Hknown.
  assert (Hcount : len (map (command_of joints_offsets duration) known) =
                   len known).
  { unfold len. now rewrite length_map. }
  destruct known as [| item known'].
  - cbn [map len List.length Z.of_nat]. change (negb (0 =? 0)) with false.
    cbv iota. unfold ret. rewrite !app_nil_r. reflexivity.
  - set (known := item :: known') in *.
    assert (Hnz : negb (len (map (command_of joints_offsets duration) known)
                        =? 0) = true).
    { apply negb_true_iff, Z.eqb_neq. rewrite Hcount. unfold len, known.
      cbn [List.length]. lia. }
    rewrite Hnz. unfold bind at 1. rewrite move_servos_eq.
    cbv zeta. cbn [rx tx stdout].
    rewrite move_frame_bytes by (try exact Hids; rewrite length_map; lia).
    unfold move_params. rewrite Hcount.
    unfold ret. rewrite <- app_assoc. reflexivity.
Qed.

Lemma set_position_all_skips_unknown_witness :
  HWI.set_position_all example_offsets example_positions None empty_world =
  (mkWorld []
     [[0x55; 0x55; 23; 0x03; 4;
       103; 131; 2; 20; 0;   112; 244; 1; 20; 0;
       104; 184; 1; 20; 0;   110; 232; 1; 20; 0]]
     [PrintUnknownJoint "tail";
      PrintTX [0x55; 0x55; 23; 0x03; 4;
               103; 131; 2; 20; 0;   112; 244; 1; 20; 0;
               104; 184; 1; 20; 0;   110; 232; 1; 20; 0]],
   Ok tt)
  /\ List.length
       (map (command_of example_offsets 20)
            (filter (fun item => known_joint (fst item)) example_positions))
     = 4%nat.
Proof.
  apply (set_position_all_skips_unknown
           example_offsets example_positions None empty_world).
  - cbn [map fst example_positions].
    repeat (constructor; [cbn [In]; intuition discriminate |]).
    constructor.
  - reflexivity.
Defined.

(** * Whole-body position readout *)

(** Every row of the joint table is found under its own name. *)
Lemma joints_rows_found :
  Forall (fun joint =>
            dict_lookup String.eqb HWI.joints (fst joint) = Some (snd joint))
         HWI.joints.
Proof. repeat constructor. Qed.

Lemma ids_to_read_eq (joints_offsets : list (string * Q))
                     (ignore : list string) (js : list (string * Z)) (w : World) :
  Forall (fun joint =>
            dict_lookup String.eqb HWI.joints (fst joint) = Some (snd joint))
         js ->
  HWI.ids_to_read (map fst js) ignore w =
  (w, Ok (map snd
            (filter (fun joint => negb (HWI.list_in ignore (fst joint))) js))).
Proof.
  induction 1 as [| [name servo_id] js Hrow _ IH]; [reflexivity |].
  cbn [map fst snd filter HWI.ids_to_read] in *.
  destruct (HWI.list_in ignore name); cbn [negb]; [exact IH |].
  unfold bind at 1, lift at 1, dict_get at 1. rewrite Hrow.
  unfold bind at 1. rewrite IH. reflexivity.
Qed.

Lemma present_loop_eq (joints_offsets : list (string * Q))
                      (ignore : list string) (id_to_position : list (Z * Z))
                      (js : list (string * Z)) :
  Forall (fun joint =>
            dict_lookup String.eqb HWI.joints (fst joint) = Some (snd joint))
         js ->
  forall (present_positions : list Q) (w : World),
    telemetry_calibrated joints_offsets id_to_position
      (filter (fun joint => negb (HWI.list_in ignore (fst joint))) js)
    = true ->
    HWI.present_loop joints_offsets (map fst js) ignore id_to_position
      present_positions w =
    let kept :=
      filter (fun joint => negb (HWI.list_in ignore (fst joint))) js in
    (mkWorld (rx w) (tx w)
       (stdout w ++
        map (fun joint => PrintNoPositionData (snd joint) (fst joint))
            (filter (fun joint => negb (has_telemetry id_to_position joint))
                    kept)),
     Ok (present_positions ++
         map (present_entry joints_offsets id_to_position) kept)).
Proof.
  induction 1 as [| [name servo_id] js Hrow _ IH];
    intros present_positions w Hcover.
  - cbn. rewrite !app_nil_r. now destruct w.
  - cbn [map fst snd filter HWI.present_loop] in *. cbv zeta in *.
    destruct (HWI.list_in ignore name); cbn [negb] in *;
      [now apply IH |].
    cbn [telemetry_calibrated forallb fst] in Hcover.
    apply andb_true_iff in Hcover as [Hhere Hcover].
    unfold bind at 1, lift at 1, dict_get at 1. rewrite Hrow.
    cbn [filter map]. unfold has_telemetry at 1, dict_in at 1. cbn [snd].
    unfold has_telemetry, dict_in in Hhere. cbn [snd] in Hhere.
    destruct (dict_lookup Z.eqb id_to_position servo_id)
      as [servo_units |] eqn:Htel.
    + cbn [negb orb] in Hhere.
      unfold bind at 1, lift at 1, dict_get at 1.
      destruct (dict_lookup String.eqb joints_offsets name)
        as [offset |] eqn:Hoff; [| discriminate].
      assert (E : present_entry joints_offsets id_to_position (name, servo_id)
                  = (HWI._servo_units_to_radians servo_units - offset)%Q).
      { unfold present_entry. cbn [fst snd]. now rewrite Htel, Hoff. }
      cbn [negb]. rewrite IH by exact Hcover. cbv zeta.
      rewrite E, <- app_assoc. reflexivity.
    + assert (E : present_entry joints_offsets id_to_position (name, servo_id)
                  = 0%Q).
      { unfold present_entry. cbn [fst snd]. now rewrite Htel. }
      unfold bind at 1, print at 1. cbn [negb].
      rewrite IH by exact Hcover. cbv zeta. cbn [rx tx stdout map fst snd].
      rewrite E, <- !app_assoc. reflexivity.
Qed.

(** Without an offset for a joint whose servo answered, the loop ends in
    the [KeyError] of the offset lookup; the warnings of the joints before
    it have been printed by then. *)
Lemma present_loop_key_error (joints_offsets : list (string * Q))
                             (ignore : list string)
                             (id_to_position : list (Z * Z))
                             (js : list (string * Z)) :
  Forall (fun joint =>
            dict_lookup String.eqb HWI.joints (fst joint) = Some (snd joint))
         js ->
  forall (present_positions : list Q) (w : World),
    telemetry_calibrated joints_offsets id_to_position
      (filter (fun joint => negb (HWI.list_in ignore (fst joint))) js)
    = false ->
    exists warnings,
      HWI.present_loop joints_offsets (map fst js) ignore id_to_position
        present_positions w =
      (mkWorld (rx w) (tx w) (stdout w ++ warnings), Raise KeyError).
Proof.
  induction 1 as [| [name servo_id] js Hrow _ IH];
    intros present_positions w Hcover; [discriminate |].
  cbn [map fst snd filter HWI.present_loop] in *.
  destruct (HWI.list_in ignore name); cbn [negb] in *; [now apply IH |].
  cbn [telemetry_calibrated forallb fst] in Hcover.
  unfold has_telemetry at 1, dict_in at 1 2 in Hcover. cbn [snd] in Hcover.
  unfold bind at 1, lift at 1, dict_get at 1. rewrite Hrow.
  destruct (dict_lookup Z.eqb id_to_position servo_id)
    as [servo_units |] eqn:Htel.
  - unfold bind at 1, lift at 1, dict_get at 1.
    destruct (dict_lookup String.eqb joints_offsets name) as [offset |].
    + cbn [negb orb andb] in Hcover. apply IH. exact Hcover.
    + exists []. rewrite app_nil_r. now destruct w.
  - cbn [negb orb andb] in Hcover.
    unfold bind at 1, print at 1.
    destruct (IH (present_positions ++ [0%Q])
                 (mkWorld (rx w) (tx w)
                    (stdout w ++ [PrintNoPositionData servo_id name]))
                 Hcover) as [warnings E].
    exists (PrintNoPositionData servo_id name :: warnings).
    rewrite E. cbn [rx tx stdout]. rewrite <- app_assoc. reflexivity.
Qed.

(** [get_present_positions], by the outcome of the board read and by
    whether the calibration table covers the joints that answered. *)
Lemma get_present_positions_eq
    (joints_offsets : list (string * Q)) (ignore : list string) (w : World) :
  let kept := kept_joints ignore in
  match HiwonderBoardController.read_servo_positions (map snd kept) w with
  | (w1, Ok (Some positions_data)) =>
      let id_to_position := positions_dict positions_data in
      if telemetry_calibrated joints_offsets id_to_position kept then
        HWI.get_present_positions joints_offsets ignore w =
        (mkWorld (rx w1) (tx w1)
           (stdout w1 ++
            map (fun joint => PrintNoPositionData (snd joint) (fst joint))
                (filter (fun joint =>
                           negb (has_telemetry id_to_position joint))
                        kept)),
         Ok (Some (map around3
                       (map (present_entry joints_offsets id_to_position)
                            kept))))
      else
        exists warnings,
          HWI.get_present_positions joints_offsets ignore w =
          (mkWorld (rx w1) (tx w1)
             (stdout w1 ++ warnings ++ [PrintErrorReadingPositions KeyError]),
           Ok None)
  | (w1, Ok None) =>
      HWI.get_present_positions joints_offsets ignore w =
      (mkWorld (rx w1) (tx w1) (stdout w1 ++ [PrintFailedReadPositions]),
       Ok None)
  | (w1, Raise e) =>
      HWI.get_present_positions joints_offsets ignore w =
      (mkWorld (rx w1) (tx w1) (stdout w1 ++ [PrintErrorReadingPositions e]),
       Ok None)
  end.
Proof.
  cbv zeta.
  assert (E : HWI.get_present_positions joints_offsets ignore w =
              match HiwonderBoardController.read_servo_positions
                      (map snd (kept_joints ignore)) w with
              | (w1, Ok (Some positions_data)) =>
                  match HWI.present_loop joints_offsets (map fst HWI.joints)
                          ignore (positions_dict positions_data) [] w1 with
                  | (w2, Ok present_positions) =>
                      (w2, Ok (Some (map around3 present_positions)))
                  | (w2, Raise e) =>
                      (mkWorld (rx w2) (tx w2)
                         (stdout w2 ++ [PrintErrorReadingPositions e]),
                       Ok None)
                  end
              | (w1, Ok None) =>
                  (mkWorld (rx w1) (tx w1)
                     (stdout w1 ++ [PrintFailedReadPositions]), Ok None)
              | (w1, Raise e) =>
                  (mkWorld (rx w1) (tx w1)
                     (stdout w1 ++ [PrintErrorReadingPositions e]), Ok None)
              end).
  { unfold HWI.get_present_positions, try_except.
    unfold bind at 1.
    rewrite (ids_to_read_eq joints_offsets ignore HWI.joints w
               joints_rows_found).
    fold (kept_joints ignore).
    unfold bind at 1.
    destruct (HiwonderBoardController.read_servo_positions
                (map snd (kept_joints ignore)) w)
      as [w1 [[positions_data |] | e]]; try reflexivity.
    fold (positions_dict positions_data).
    unfold bind at 1.
    destruct (HWI.present_loop joints_offsets (map fst HWI.joints) ignore
                (positions_dict positions_data) [] w1)
      as [w2 [present_positions | e]]; reflexivity. }
  destruct (HiwonderBoardController.read_servo_positions
              (map snd (kept_joints ignore)) w)
    as [w1 [[positions_data |] | e]]; try exact E.
  destruct (telemetry_calibrated joints_offsets
              (positions_dict positions_data) (kept_joints ignore)) eqn:Hcal.
  - rewrite E.
    rewrite (present_loop_eq joints_offsets ignore
               (positions_dict positions_data) HWI.joints joints_rows_found)
      by exact Hcal.
    cbv zeta. fold (kept_joints ignore). reflexivity.
  - destruct (present_loop_key_error joints_offsets ignore
                (positions_dict positions_data) HWI.joints joints_rows_found
                [] w1 Hcal) as [warnings Eloop].
    exists warnings. rewrite E, Eloop. cbn [rx tx stdout].
    rewrite <- app_assoc. reflexivity.
Qed.

Lemma around3_zero : around3 0 == 0.
Proof. reflexivity. Qed.

(** C9, as the specification words it, fails: when the board does not
    answer, [get_present_positions] returns [None], not an array with one
    entry per joint. *)
Lemma get_present_positions_none_on_timeout :
  snd (HWI.get_present_positions uniform_offsets [] empty_world) = Ok None
  /\ List.length (kept_joints []) = 14%nat.
Proof. split; reflexivity. Qed.

(** C9 (amended): for every ignore list and every calibration table,
    [get_present_positions] never raises.  When the board read returns a
    list of positions and the table has an offset for every non-ignored
    joint whose servo is in that list, the result is an array with one
    entry per non-ignored joint, in joint declaration order: the calibrated
    angle rounded to three decimals, or 0.0 together with a warning for a
    joint whose servo is missing from the response.  When an offset is
    missing for a joint whose servo answered (the [KeyError] is caught),
    or the board read returns [None] or raises, the result is [None]. *)
Theorem get_present_positions_aligned
    (joints_offsets : list (string * Q)) (ignore : list string) (w : World) :
  let kept := kept_joints ignore in
  (exists w' result,
      HWI.get_present_positions joints_offsets ignore w = (w', Ok result))
  /\ match HiwonderBoardController.read_servo_positions (map snd kept) w with
     | (w1, Ok (Some positions_data)) =>
         let id_to_position := positions_dict positions_data in
         if telemetry_calibrated joints_offsets id_to_position kept then
           HWI.get_present_positions joints_offsets ignore w =
           (mkWorld (rx w1) (tx w1)
              (stdout w1 ++
               map (fun joint => PrintNoPositionData (snd joint) (fst joint))
                   (filter (fun joint =>
                              negb (has_telemetry id_to_position joint))
                           kept)),
            Ok (Some (map around3
                          (map (present_entry joints_offsets id_to_position)
                               kept))))
         else
           exists warnings,
             HWI.get_present_positions joints_offsets ignore w =
             (mkWorld (rx w1) (tx w1)
                (stdout w1 ++ warnings
                   ++ [PrintErrorReadingPositions KeyError]),
              Ok None)
     | (w1, Ok None) =>
         HWI.get_present_positions joints_offsets ignore w =
         (mkWorld (rx w1) (tx w1) (stdout w1 ++ [PrintFailedReadPositions]),
          Ok None)
     | (w1, Raise e) =>
         HWI.get_present_positions joints_offsets ignore w =
         (mkWorld (rx w1) (tx w1)
            (stdout w1 ++ [PrintErrorReadingPositions e]),
          Ok None)
     end
  /\ (forall id_to_position,
        List.length
          (map around3
               (map (present_entry joints_offsets id_to_position) kept)) =
        List.length kept)
  /\ (forall id_to_position joint,
        has_telemetry id_to_position joint = false ->
        around3 (present_entry joints_offsets id_to_position joint) == 0).
Proof.
  cbv zeta.
  pose proof (get_present_positions_eq joints_offsets ignore w) as Hcases.
  cbv zeta in Hcases.
  split; [| split; [exact Hcases | split]].
  - destruct (HiwonderBoardController.read_servo_positions
                (map snd (kept_joints ignore)) w)
      as [w1 [[positions_data |] | e]].
    + destruct (telemetry_calibrated joints_offsets
                  (positions_dict positions_data) (kept_joints ignore)).
      * eexists _, _. exact Hcases.
      * destruct Hcases as [warnings E]. eexists _, _. exact E.
    + eexists _, _. exact Hcases.
    + eexists _, _. exact Hcases.
  - intros id_to_position. now rewrite !length_map.
  - intros id_to_position [name servo_id] Hmiss.
    unfold has_telemetry, dict_in in Hmiss. cbn [snd] in Hmiss.
    unfold present_entry. cbn [snd].
    destruct (dict_lookup Z.eqb id_to_position servo_id); [discriminate |].
    apply around3_zero.
Qed.

Lemma get_present_positions_aligned_witness :
  snd (HWI.get_present_positions uniform_offsets
         ["left_hip_yaw"; "left_hip_roll"; "left_hip_pitch"; "left_ankle";
          "neck_pitch"; "head_pitch"; "head_roll";
          "right_hip_yaw"; "right_hip_roll"; "right_hip_pitch";
          "right_knee"]%string
         (mkWorld [0x55; 0x55; 9; 0x15; 2; 103; 0xF4; 0x01; 112; 0x58; 0x02]
                  [] [])) =
  Ok (Some (map around3 [- (1 # 10); (418879 # 1000000) - (1 # 10); 0]%Q))
  /\ snd (HWI.get_present_positions [("head_yaw", 0 # 1)]%string
            ["left_hip_yaw"; "left_hip_roll"; "left_hip_pitch"; "left_ankle";
             "neck_pitch"; "head_pitch"; "head_roll";
             "right_hip_yaw"; "right_hip_roll"; "right_hip_pitch";
             "right_knee"]%string
            (mkWorld
               [0x55; 0x55; 9; 0x15; 2; 103; 0xF4; 0x01; 112; 0x58; 0x02]
               [] [])) =
     Ok None.
Proof.
  set (ignore := ["left_hip_yaw"; "left_hip_roll"; "left_hip_pitch";
                  "left_ankle"; "neck_pitch"; "head_pitch"; "head_roll";
                  "right_hip_yaw"; "right_hip_roll"; "right_hip_pitch";
                  "right_knee"]%string).
  set (w := mkWorld [0x55; 0x55; 9; 0x15; 2; 103; 0xF4; 0x01; 112; 0x58; 0x02]
                    [] []).
  assert (Hread : HiwonderBoardController.read_servo_positions
                    (map snd (kept_joints ignore)) w =
                  (mkWorld [] [[0x55; 0x55; 6; 0x15; 3; 103; 112; 109]]
                     [PrintTX [0x55; 0x55; 6; 0x15; 3; 103; 112; 109];
                      PrintResponse
                        [9; 0x15; 2; 103; 0xF4; 0x01; 112; 0x58; 0x02]],
                   Ok (Some [(103, 500); (112, 600)])))
    by (vm_compute; reflexivity).
  split.
  - destruct (get_present_positions_aligned uniform_offsets ignore w)
      as (_ & H & _).
    cbv zeta in H. rewrite Hread in H.
    assert (Hcal : telemetry_calibrated uniform_offsets
                     (positions_dict [(103, 500); (112, 600)])
                     (kept_joints ignore) = true)
      by (vm_compute; reflexivity).
    rewrite Hcal in H. rewrite H. vm_compute. reflexivity.
  - destruct (get_present_positions_aligned [("head_yaw", 0 # 1)]%string
                ignore w) as (_ & H & _).
    cbv zeta in H. rewrite Hread in H.
    assert (Hcal : telemetry_calibrated [("head_yaw", 0 # 1)]%string
                     (positions_dict [(103, 500); (112, 600)])
                     (kept_joints ignore) = false)
      by (vm_compute; reflexivity).
    rewrite Hcal in H. destruct H as [warnings H]. rewrite H. reflexivity.
Defined.

(** * Further properties of the single-servo frame writer *)

Lemma sum_from (data : list Z) (a : Z) : fold_left Z.add data a = a + sum data.
Proof.
  unfold sum. revert a.
  induction data as [| x data IH]; intros a; cbn [fold_left]; [lia |].
  rewrite (IH (a + x)), (IH (0 + x)). lia.
Qed.

Lemma sum_app (a b : list Z) : sum (a ++ b) = sum a + sum b.
Proof. unfold sum at 1. rewrite fold_left_app. fold (sum a). apply sum_from. Qed.

Lemma checksum_value (data : list Z) :
  HiwonderServo._calculate_checksum data = (- sum data - 1) mod 256.
Proof.
  unfold HiwonderServo._calculate_checksum.
  change 0xFF with (Z.ones 8). rewrite Z.land_ones by lia.
  f_equal; pose proof (Z.add_lnot_diag (sum data)); lia.
Qed.

Lemma servo_send_command_eq (servo_id command : Z) (params : list Z)
                            (w : World) :
  HiwonderServo._send_command servo_id command params w =
  if is_byte servo_id && (is_byte (len params + 3) && is_byte command)
  then (mkWorld (rx w) (tx w ++ [servo_frame servo_id command params])
                (stdout w), Ok tt)
  else (w, Raise ValueError).
Proof.
  unfold HiwonderServo._send_command, bind, lift, to_bytes, serial_write.
  cbn [forallb]. change (is_byte 85) with true. cbn [andb].
  destruct (is_byte servo_id); cbn [andb]; [| reflexivity].
  destruct (is_byte (len params + 3)); cbn [andb]; [| reflexivity].
  destruct (is_byte command); cbn [andb]; [| reflexivity].
  cbn [app skipn].
  unfold HiwonderServo._calculate_checksum at 1. rewrite is_byte_land.
  unfold servo_frame. cbn [app]. reflexivity.
Qed.

(** X1: every frame the single-servo client writes is
    [55 55 id len cmd params... checksum] with [len = 3 + number of
    parameters], and its checksum byte closes the sum of all bytes after
    the header to [0xFF] modulo 256. *)
Theorem servo_frame_checksum_closes
    (servo_id command : Z) (params : list Z) (w : World) :
  is_byte servo_id = true -> is_byte command = true ->
  is_byte (len params + 3) = true ->
  let checksum :=
    HiwonderServo._calculate_checksum
      ([servo_id; len params + 3; command] ++ params) in
  let frame :=
    [0x55; 0x55; servo_id; len params + 3; command] ++ params ++ [checksum] in
  HiwonderServo._send_command servo_id command params w =
  (mkWorld (rx w) (tx w ++ [frame]) (stdout w), Ok tt)
  /\ 0 <= checksum < 256
  /\ sum (skipn 2 frame) mod 256 = 0xFF.
Proof.
  intros Hs Hc Hl. cbv zeta. split; [| split].
  - rewrite servo_send_command_eq, Hs, Hc, Hl. reflexivity.
  - rewrite checksum_value. apply Z.mod_pos_bound. lia.
  - cbn [app skipn].
    change (servo_id :: len params + 3 :: command :: params ++
              [HiwonderServo._calculate_checksum
                 (servo_id :: len params + 3 :: command :: params)])
      with ((servo_id :: len params + 3 :: command :: params) ++
              [HiwonderServo._calculate_checksum
                 (servo_id :: len params + 3 :: command :: params)]).
    rewrite sum_app, checksum_value.
    set (s := sum (servo_id :: len params + 3 :: command :: params)).
    change (sum [(- s - 1) mod 256]) with (0 + (- s - 1) mod 256).
    rewrite Z.add_0_l, Zplus_mod_idemp_r.
    replace (s + (- s - 1)) with (-1) by lia. reflexivity.
Qed.

Lemma servo_frame_checksum_closes_witness :
  HiwonderServo._send_command 1 28 [] empty_world =
  (mkWorld [] [[0x55; 0x55; 1; 3; 28; 0xDF]] [], Ok tt)
  /\ 0 <= 0xDF < 256
  /\ sum [1; 3; 28; 0xDF] mod 256 = 0xFF.
Proof.
  apply (servo_frame_checksum_closes 1 28 [] empty_world); reflexivity.
Defined.

Lemma forallb_is_byte_false (l : list Z) (x : Z) :
  In x l -> is_byte x = false -> forallb is_byte l = false.
Proof.
  intros Hin Hx.
  destruct (forallb is_byte l) eqn:E; [| reflexivity].
  rewrite forallb_forall in E. specialize (E x Hin). congruence.
Qed.

Lemma is_byte_false_above (z : Z) : 255 < z -> is_byte z = false.
Proof.
  intros H. unfold is_byte. apply andb_false_iff. right.
  apply Z.ltb_ge. lia.
Qed.

(** X2: a parameter list too long for the one-byte length field is
    refused by both frame writers: with 253 or more parameter bytes the
    single-servo writer raises [ValueError] and leaves the world untouched;
    with 254 or more the board writer raises [ValueError] after printing
    the frame, and writes nothing to the transport. *)
Theorem send_command_rejects_long_parameters
    (servo_id command : Z) (params : list Z) (w : World) :
  253 <= len params ->
  HiwonderServo._send_command servo_id command params w = (w, Raise ValueError)
  /\ (254 <= len params ->
      snd (HiwonderBoardController._send_command command params w)
        = Raise ValueError
      /\ tx (fst (HiwonderBoardController._send_command command params w))
         = tx w).
Proof.
  intros Hlen. split.
  - rewrite servo_send_command_eq.
    rewrite (is_byte_false_above (len params + 3)) by lia.
    cbn [andb]. now rewrite andb_false_r.
  - intros Hlen'. rewrite board_send_command. cbv zeta.
    rewrite (forallb_is_byte_false (board_frame command params)
               (2 + len params)).
    + split; reflexivity.
    + unfold board_frame. cbn [app In]. auto.
    + apply is_byte_false_above. lia.
Qed.

Lemma send_command_rejects_long_parameters_witness :
  HiwonderServo._send_command 1 1 (repeat 0 253) empty_world =
  (empty_world, Raise ValueError).
Proof.
  apply (send_command_rejects_long_parameters 1 1 (repeat 0 253) empty_world).
  vm_compute. discriminate.
Defined.

(** * Further properties of the frame readers *)

(** X3: decoding what was encoded.  A frame as the single-servo writer
    lays it out is returned whole by the single-servo reader, with the
    command at index 4 and the parameters from index 5; a board frame is
    returned by the board reader as [length, command, parameters...].  Each
    reader leaves the bytes after the frame in the buffer. *)
Theorem frame_round_trip
    (polls : nat) (servo_id command : Z) (params rest : list Z)
    (t : list (list Z)) (o : list line) :
  let frame := servo_frame servo_id command params in
  HiwonderServo._read_response (S polls) (len frame)
    (mkWorld (frame ++ rest) t o) = (mkWorld rest t o, Ok (Some frame))
  /\ getitem frame 4 = Ok command
  /\ firstn (List.length params) (skipn 5 frame) = params
  /\ HiwonderBoardController._read_response
       (mkWorld (board_frame command params ++ rest) t o) =
     (mkWorld rest t
        (o ++ [PrintResponse (2 + len params :: command :: params)]),
      Ok (Some (2 + len params :: command :: params))).
Proof.
  cbv zeta. split; [| split; [| split]].
  - unfold servo_frame. cbv zeta.
    set (body := [servo_id; len params + 3; command] ++ params).
    set (cs := HiwonderServo._calculate_checksum body).
    replace (len ([85; 85] ++ body ++ [cs])) with (2 + len (body ++ [cs]))
      by (unfold len; cbn [List.length app]; lia).
    rewrite <- app_assoc.
    rewrite <- (app_assoc body [cs] rest).
    rewrite (app_assoc body [cs] rest).
    apply (servo_read_response_framed polls (body ++ [cs]) rest t o).
  - reflexivity.
  - unfold servo_frame. cbn [app skipn].
    rewrite firstn_app, Nat.sub_diag, firstn_all. cbn [firstn].
    now rewrite app_nil_r.
  - unfold board_frame. rewrite <- app_assoc.
    now apply board_read_response_framed.
Qed.

(** X4: the board reader never returns part of a frame.  Given only the
    first [n] bytes of a complete frame ([n] other than 1, where the
    header check raises), it returns [None]. *)
Theorem board_incomplete_frame_is_none
    (command : Z) (params : list Z) (n : nat)
    (t : list (list Z)) (o : list line) :
  (n < List.length (board_frame command params))%nat -> n <> 1%nat ->
  snd (HiwonderBoardController._read_response
         (mkWorld (firstn n (board_frame command params)) t o)) = Ok None.
Proof.
  intros Hn Hn1. rewrite board_read_response_eq. cbn [rx tx stdout].
  unfold board_frame in *. cbn [app] in *.
  destruct n as [| [| [| [| n]]]]; try reflexivity; [contradiction |].
  cbn [firstn]. change (85 =? 85) with true. cbv iota zeta.
  cbn [List.length] in Hn.
  replace (2 + len params - 2) with (len params) by lia.
  assert (E : Z.to_nat (len params) = List.length params)
    by (unfold len; apply Nat2Z.id).
  rewrite E, firstn_firstn.
  replace (Nat.min (List.length params) n) with n by lia.
  assert (Hl : (len (firstn n params) =? len params) = false).
  { apply Z.eqb_neq. unfold len. rewrite length_firstn. lia. }
  rewrite Hl. reflexivity.
Qed.

Lemma board_incomplete_frame_is_none_witness :
  snd (HiwonderBoardController._read_response
         (mkWorld [0x55; 0x55; 4; 0x0F; 0xB8] [] [])) = Ok None.
Proof.
  apply (board_incomplete_frame_is_none 0x0F [0xB8; 0x1B] 5 [] []);
    cbn; lia.
Defined.

Lemma servo_wait_header_shrinks (polls : nat) (w : World) :
  exists w' r,
    HiwonderServo.wait_header polls w = (w', Ok r)
    /\ tx w' = tx w /\ stdout w' = stdout w
    /\ len (rx w') <= len (rx w)
    /\ (r <> None -> len (rx w') + 2 <= len (rx w)).
Proof.
  revert w. induction polls as [| k IH]; intros w.
  - exists w, None. repeat split; try lia. congruence.
  - cbn [HiwonderServo.wait_header]. unfold bind at 1, in_waiting at 1.
    destruct (Z.leb_spec 2 (len (rx w))) as [H2 | H2]; [| apply IH].
    unfold bind at 1, serial_read at 1.
    set (w1 := mkWorld (skipn (Z.to_nat 2) (rx w)) (tx w) (stdout w)).
    assert (Hw1 : len (rx w1) + 2 <= len (rx w)).
    { unfold w1, len in *. cbn [rx]. rewrite length_skipn. lia. }
    destruct (list_eqb _ _).
    + exists w1, (Some (firstn (Z.to_nat 2) (rx w))).
      repeat split; try reflexivity; lia.
    + destruct (IH w1) as (w' & r & E & Ht & Ho & Hle & Hsome).
      exists w', r. split; [exact E |]. repeat split; try assumption.
      * lia.
      * intros Hr. specialize (Hsome Hr). lia.
Qed.

Lemma servo_read_response_short (polls : nat) (n : Z) (w : World) :
  len (rx w) < n ->
  exists w',
    HiwonderServo._read_response polls n w = (w', Ok None)
    /\ tx w' = tx w /\ stdout w' = stdout w /\ len (rx w') <= len (rx w).
Proof.
  intros Hshort. unfold HiwonderServo._read_response. unfold bind at 1.
  destruct (servo_wait_header_shrinks polls w)
    as (w1 & r & E & Ht & Ho & Hle & Hsome).
  rewrite E. destruct r as [header |].
  - assert (H2 : len (rx w1) + 2 <= len (rx w)) by (apply Hsome; congruence).
    unfold bind, serial_read.
    assert (Hd : (len (firstn (Z.to_nat (n - 2)) (rx w1)) <? n - 2) = true).
    { apply Z.ltb_lt. unfold len in *. rewrite length_firstn. lia. }
    rewrite Hd. eexists. split; [reflexivity |]. cbn [rx tx stdout].
    repeat split; try assumption.
    unfold len in *. rewrite length_skipn. lia.
  - exists w1. repeat split; assumption.
Qed.

(** X5: the single-servo reader never returns part of a frame and never
    raises on a short buffer: whenever fewer bytes are buffered than the
    expected frame length, it returns [None], whatever the poll budget, and
    writes nothing. *)
Theorem servo_short_buffer_is_none (polls : nat) (n : Z) (w : World) :
  len (rx w) < n ->
  snd (HiwonderServo._read_response polls n w) = Ok None
  /\ tx (fst (HiwonderServo._read_response polls n w)) = tx w.
Proof.
  intros H.
  destruct (servo_read_response_short polls n w H) as (w' & E & Ht & _).
  rewrite E. split; [reflexivity | exact Ht].
Qed.

Lemma servo_short_buffer_is_none_witness :
  snd (HiwonderServo._read_response 5 8
         (mkWorld [0x55; 0x55; 1; 5; 28; 0xF4; 0x01] [] [])) = Ok None
  /\ tx (fst (HiwonderServo._read_response 5 8
                (mkWorld [0x55; 0x55; 1; 5; 28; 0xF4; 0x01] [] []))) = [].
Proof.
  apply (servo_short_buffer_is_none 5 8
           (mkWorld [0x55; 0x55; 1; 5; 28; 0xF4; 0x01] [] [])).
  reflexivity.
Defined.

Lemma list_eqb_pair (a b : Z) :
  (a, b) <> (0x55, 0x55) -> list_eqb [a; b] [0x55; 0x55] = false.
Proof.
  intros H. unfold list_eqb.
  destruct (list_eq_dec Z.eq_dec [a; b] [85; 85]) as [E | E]; [| reflexivity].
  injection E as -> ->. contradiction.
Qed.

Lemma servo_wait_header_step (k : nat) (a b : Z) (tail : list Z)
                             (t : list (list Z)) (o : list line) :
  HiwonderServo.wait_header (S k) (mkWorld (a :: b :: tail) t o) =
  if list_eqb [a; b] [0x55; 0x55]
  then (mkWorld tail t o, Ok (Some [a; b]))
  else HiwonderServo.wait_header k (mkWorld tail t o).
Proof.
  cbn [HiwonderServo.wait_header]. unfold bind at 1, in_waiting at 1.
  cbn [rx].
  replace (2 <=? len (a :: b :: tail)) with true
    by (symmetry; apply Z.leb_le; unfold len; cbn [List.length]; lia).
  unfold bind at 1.
  change (serial_read 2 (mkWorld (a :: b :: tail) t o))
    with (mkWorld tail t o, Ok [a; b]).
  cbv iota beta. destruct (list_eqb [a; b] [85; 85]); reflexivity.
Qed.

Lemma servo_wait_header_skips (junk : list (Z * Z)) :
  Forall (fun p => p <> (0x55, 0x55)) junk ->
  forall (polls : nat) (tail : list Z) (t : list (list Z)) (o : list line),
    (List.length junk < polls)%nat ->
    HiwonderServo.wait_header polls
      (mkWorld (flat_map (fun p => [fst p; snd p]) junk
                  ++ 0x55 :: 0x55 :: tail) t o) =
    (mkWorld tail t o, Ok (Some [0x55; 0x55])).
Proof.
  induction 1 as [| [a b] junk Hp _ IH]; intros polls tail t o Hpolls.
  - destruct polls as [| k]; [cbn in Hpolls; lia |].
    cbn [flat_map app]. rewrite servo_wait_header_step.
    now rewrite list_eqb_refl.
  - destruct polls as [| k]; [cbn in Hpolls; lia |].
    cbn [flat_map app fst snd]. rewrite servo_wait_header_step.
    rewrite (list_eqb_pair a b Hp).
    apply IH. cbn [List.length] in Hpolls. lia.
Qed.

Lemma servo_wait_header_exhausts (junk : list (Z * Z)) :
  Forall (fun p => p <> (0x55, 0x55)) junk ->
  forall (polls : nat) (tail : list Z) (t : list (list Z)) (o : list line),
    (polls <= List.length junk)%nat ->
    snd (HiwonderServo.wait_header polls
           (mkWorld (flat_map (fun p => [fst p; snd p]) junk ++ tail) t o))
    = Ok None.
Proof.
  induction 1 as [| [a b] junk Hp _ IH]; intros polls tail t o Hpolls.
  - destruct polls as [| k]; [reflexivity | cbn in Hpolls; lia].
  - destruct polls as [| k]; [reflexivity |].
    cbn [flat_map app fst snd]. rewrite servo_wait_header_step.
    rewrite (list_eqb_pair a b Hp).
    apply IH. cbn [List.length] in Hpolls. lia.
Qed.

(** X6: the single-servo reader resynchronizes in steps of two bytes, one
    step per poll.  Noise made of byte pairs other than [55 55] before a
    frame is skipped and the frame is returned when the poll budget exceeds
    the number of noise pairs; with a budget of at most that number the
    deadline passes first and the result is [None]. *)
Theorem servo_reader_skips_noise_pairs
    (junk : list (Z * Z)) (polls : nat) (body rest : list Z)
    (t : list (list Z)) (o : list line) :
  Forall (fun p => p <> (0x55, 0x55)) junk ->
  let noise := flat_map (fun p => [fst p; snd p]) junk in
  let w := mkWorld (noise ++ [0x55; 0x55] ++ body ++ rest) t o in
  ((List.length junk < polls)%nat ->
   HiwonderServo._read_response polls (2 + len body) w =
   (mkWorld rest t o, Ok (Some ([0x55; 0x55] ++ body))))
  /\ ((polls <= List.length junk)%nat ->
      snd (HiwonderServo._read_response polls (2 + len body) w) = Ok None).
Proof.
  intros Hjunk. cbv zeta. split; intros Hpolls.
  - unfold HiwonderServo._read_response. unfold bind at 1.
    cbn [app].
    rewrite (servo_wait_header_skips junk Hjunk polls (body ++ rest) t o Hpolls).
    unfold bind, serial_read. cbn [rx tx stdout].
    replace (2 + len body - 2) with (len body) by lia.
    assert (E : Z.to_nat (len body) = List.length body)
      by (unfold len; apply Nat2Z.id).
    rewrite E, firstn_app, skipn_app, Nat.sub_diag, firstn_all, skipn_all.
    cbn [firstn skipn app]. rewrite app_nil_r.
    rewrite Z.ltb_irrefl. reflexivity.
  - unfold HiwonderServo._read_response. unfold bind at 1.
    pose proof (servo_wait_header_exhausts junk Hjunk polls
                  ([85; 85] ++ body ++ rest) t o Hpolls) as H.
    destruct (HiwonderServo.wait_header polls _) as [w1 [[h |] | e]];
      cbn [snd] in H; try discriminate.
    reflexivity.
Qed.

Lemma servo_reader_skips_noise_pairs_witness :
  (HiwonderServo._read_response 2 8
     (mkWorld [0x00; 0x55; 0x55; 0x55; 1; 5; 28; 0xF4; 0x01; 0xE8] [] []) =
   (mkWorld [] [] [], Ok (Some [0x55; 0x55; 1; 5; 28; 0xF4; 0x01; 0xE8])))
  /\ snd (HiwonderServo._read_response 1 8
            (mkWorld [0x00; 0x55; 0x55; 0x55; 1; 5; 28; 0xF4; 0x01; 0xE8]
                     [] [])) = Ok None.
Proof.
  destruct (servo_reader_skips_noise_pairs [(0x00, 0x55)] 2
              [1; 5; 28; 0xF4; 0x01; 0xE8] [] [] [])
    as [Hfound _].
  { repeat constructor. discriminate. }
  destruct (servo_reader_skips_noise_pairs [(0x00, 0x55)] 1
              [1; 5; 28; 0xF4; 0x01; 0xE8] [] [] [])
    as [_ Hlost].
  { repeat constructor. discriminate. }
  split; [apply Hfound | apply Hlost]; cbn; lia.
Defined.

(** * Further properties of the single-servo telemetry reads *)

Lemma servo_read_position_default (polls : nat) (servo_id : Z) (w : World) :
  is_byte servo_id = true -> len (rx w) < 8 ->
  exists w',
    HiwonderServo.read_position polls servo_id w = (w', Ok 0%Q)
    /\ tx w' = tx w ++ [[0x55; 0x55; servo_id; 3; 28;
                         HiwonderServo._calculate_checksum [servo_id; 3; 28]]]
    /\ stdout w' = stdout w /\ len (rx w') <= len (rx w).
Proof.
  intros Hs Hshort. unfold HiwonderServo.read_position. unfold bind at 1.
  rewrite servo_send_command_query by (exact Hs || reflexivity).
  unfold bind at 1.
  match goal with
  | |- context [HiwonderServo._read_response polls 8 ?w1] =>
      destruct (servo_read_response_short polls 8 w1 Hshort)
        as (w2 & E & Ht & Ho & Hle)
  end.
  rewrite E. exists w2. repeat split; assumption.
Qed.

Lemma servo_read_voltage_default (polls : nat) (servo_id : Z) (w : World) :
  is_byte servo_id = true -> len (rx w) < 7 ->
  exists w',
    HiwonderServo.read_voltage polls servo_id w = (w', Ok 0%Q)
    /\ tx w' = tx w ++ [[0x55; 0x55; servo_id; 3; 27;
                         HiwonderServo._calculate_checksum [servo_id; 3; 27]]]
    /\ stdout w' = stdout w /\ len (rx w') <= len (rx w).
Proof.
  intros Hs Hshort. unfold HiwonderServo.read_voltage. unfold bind at 1.
  rewrite servo_send_command_query by (exact Hs || reflexivity).
  unfold bind at 1.
  match goal with
  | |- context [HiwonderServo._read_response polls 7 ?w1] =>
      destruct (servo_read_response_short polls 7 w1 Hshort)
        as (w2 & E & Ht & Ho & Hle)
  end.
  rewrite E. exists w2. repeat split; assumption.
Qed.

Lemma servo_read_temperature_default (polls : nat) (servo_id : Z) (w : World) :
  is_byte servo_id = true -> len (rx w) < 7 ->
  exists w',
    HiwonderServo.read_temperature polls servo_id w = (w', Ok 0)
    /\ tx w' = tx w ++ [[0x55; 0x55; servo_id; 3; 26;
                         HiwonderServo._calculate_checksum [servo_id; 3; 26]]]
    /\ stdout w' = stdout w /\ len (rx w') <= len (rx w).
Proof.
  intros Hs Hshort. unfold HiwonderServo.read_temperature. unfold bind at 1.
  rewrite servo_send_command_query by (exact Hs || reflexivity).
  unfold bind at 1.
  match goal with
  | |- context [HiwonderServo._read_response polls 7 ?w1] =>
      destruct (servo_read_response_short polls 7 w1 Hshort)
        as (w2 & E & Ht & Ho & Hle)
  end.
  rewrite E. exists w2. repeat split; assumption.
Qed.

(** X7: telemetry degrades to defaults.  When fewer than seven bytes are
    buffered (no complete response can be read), [read_data] of the
    single-servo client does not raise: it returns position 0.0, speed 0.0,
    load 0, voltage 0.0 and temperature 0, having written the position,
    voltage and temperature queries (commands 28, 27, 26) in that order. *)
Theorem servo_read_data_defaults (polls : nat) (servo_id : Z) (w : World) :
  is_byte servo_id = true -> len (rx w) < 7 ->
  exists w',
    HiwonderServo.read_data polls servo_id w = (w', Ok (mkData 0 0 0 0 0))
    /\ tx w' =
       tx w ++
       [[0x55; 0x55; servo_id; 3; 28;
         HiwonderServo._calculate_checksum [servo_id; 3; 28]];
        [0x55; 0x55; servo_id; 3; 27;
         HiwonderServo._calculate_checksum [servo_id; 3; 27]];
        [0x55; 0x55; servo_id; 3; 26;
         HiwonderServo._calculate_checksum [servo_id; 3; 26]]].
Proof.
  intros Hs Hshort. unfold HiwonderServo.read_data.
  destruct (servo_read_position_default polls servo_id w Hs)
    as (w1 & E1 & T1 & _ & L1); [lia |].
  destruct (servo_read_voltage_default polls servo_id w1 Hs)
    as (w2 & E2 & T2 & _ & L2); [lia |].
  destruct (servo_read_temperature_default polls servo_id w2 Hs)
    as (w3 & E3 & T3 & _ & L3); [lia |].
  unfold bind. rewrite E1, E2, E3. exists w3.
  split; [reflexivity |].
  rewrite T3, T2, T1, <- !app_assoc. reflexivity.
Qed.

Lemma servo_read_data_defaults_witness :
  exists w',
    HiwonderServo.read_data 3 1 empty_world = (w', Ok (mkData 0 0 0 0 0))
    /\ tx w' =
       [] ++
       [[0x55; 0x55; 1; 3; 28; HiwonderServo._calculate_checksum [1; 3; 28]];
        [0x55; 0x55; 1; 3; 27; HiwonderServo._calculate_checksum [1; 3; 27]];
        [0x55; 0x55; 1; 3; 26; HiwonderServo._calculate_checksum [1; 3; 26]]].
Proof.
  apply (servo_read_data_defaults 3 1 empty_world); reflexivity.
Defined.

(** X8: how a response is decoded.  A header followed by enough bytes is
    taken as the answer, whatever its id, length, command and checksum
    bytes: [read_position] returns the radians of the little-endian units
    at indices 5 and 6, [read_voltage] a tenth of the byte at index 5, and
    [read_temperature] the byte at index 5. *)
Theorem servo_reads_decode
    (polls : nat) (servo_id a b c x y z : Z) (rest : list Z)
    (t : list (list Z)) (o : list line) :
  is_byte servo_id = true ->
  let query cmd :=
    [0x55; 0x55; servo_id; 3; cmd;
     HiwonderServo._calculate_checksum [servo_id; 3; cmd]] in
  HiwonderServo.read_position (S polls) servo_id
    (mkWorld ([0x55; 0x55; a; b; c; x; y; z] ++ rest) t o) =
  (mkWorld rest (t ++ [query 28]) o,
   Ok (HiwonderServo.units_to_rad (Z.lor x (Z.shiftl y 8))))
  /\ HiwonderServo.read_voltage (S polls) servo_id
       (mkWorld ([0x55; 0x55; a; b; c; x; y] ++ rest) t o) =
     (mkWorld rest (t ++ [query 27]) o, Ok (inject_Z x / 10)%Q)
  /\ HiwonderServo.read_temperature (S polls) servo_id
       (mkWorld ([0x55; 0x55; a; b; c; x; y] ++ rest) t o) =
     (mkWorld rest (t ++ [query 26]) o, Ok x).
Proof.
  intros Hs. cbv zeta. split; [| split].
  - unfold HiwonderServo.read_position. unfold bind at 1.
    rewrite servo_send_command_query by (exact Hs || reflexivity).
    cbn [rx tx stdout]. unfold bind at 1.
    change 8 with (2 + len [a; b; c; x; y; z]) at 1.
    rewrite (servo_read_response_framed polls [a; b; c; x; y; z] rest).
    reflexivity.
  - unfold HiwonderServo.read_voltage. unfold bind at 1.
    rewrite servo_send_command_query by (exact Hs || reflexivity).
    cbn [rx tx stdout]. unfold bind at 1.
    change 7 with (2 + len [a; b; c; x; y]) at 1.
    rewrite (servo_read_response_framed polls [a; b; c; x; y] rest).
    reflexivity.
  - unfold HiwonderServo.read_temperature. unfold bind at 1.
    rewrite servo_send_command_query by (exact Hs || reflexivity).
    cbn [rx tx stdout]. unfold bind at 1.
    change 7 with (2 + len [a; b; c; x; y]) at 1.
    rewrite (servo_read_response_framed polls [a; b; c; x; y] rest).
    reflexivity.
Qed.

Lemma servo_reads_decode_witness :
  HiwonderServo.read_position 1 1
    (mkWorld [0x55; 0x55; 1; 5; 28; 0xEE; 0x02; 0xEE] [] []) =
  (mkWorld [] [[0x55; 0x55; 1; 3; 28; 0xDF]] [],
   Ok (HiwonderServo.units_to_rad 750)).
Proof.
  apply (servo_reads_decode 0 1 1 5 28 0xEE 0x02 0xEE [] [] []).
  reflexivity.
Defined.

(** * Further properties of the unit conversion and the move commands *)

(** The two bytes the encoders write for a 16-bit value give it back. *)
Lemma little_endian_round_trip (x : Z) :
  Z.lor (Z.land x 0xFF) (Z.shiftl (Z.land (Z.shiftr x 8) 0xFF) 8)
  = x mod 65536.
Proof.
  change 0xFF with (Z.ones 8). change 65536 with (2 ^ 16).
  apply Z.bits_inj'. intros n Hn.
  rewrite Z.lor_spec, Z.land_spec.
  destruct (Z.lt_ge_cases n 8) as [H8 | H8].
  - rewrite Z.shiftl_spec_low by lia.
    rewrite Z.ones_spec_low by lia.
    rewrite Z.mod_pow2_bits_low by lia.
    now rewrite andb_true_r, orb_false_r.
  - rewrite Z.shiftl_spec by lia.
    rewrite Z.land_spec, Z.shiftr_spec by lia.
    replace (n - 8 + 8) with n by lia.
    rewrite (Z.ones_spec_high 8 n) by lia.
    rewrite andb_false_r, orb_false_l.
    destruct (Z.lt_ge_cases n 16) as [H16 | H16].
    + rewrite Z.ones_spec_low by lia.
      rewrite Z.mod_pow2_bits_low by lia.
      now rewrite andb_true_r.
    + rewrite Z.ones_spec_high by lia.
      rewrite Z.mod_pow2_bits_high by lia.
      now rewrite andb_false_r.
Qed.

Lemma py_int_mono (x y : Q) : (x <= y)%Q -> py_int x <= py_int y.
Proof.
  intros H. unfold py_int.
  destruct (Qlt_le_dec x 0) as [Hx | Hx];
    destruct (Qlt_le_dec y 0) as [Hy | Hy].
  - now apply Qceiling_resp_le.
  - assert (Qceiling x <= 0).
    { change 0 with (Qceiling 0). apply Qceiling_resp_le. lra. }
    assert (0 <= Qfloor y).
    { change 0 with (Qfloor 0). now apply Qfloor_resp_le. }
    lia.
  - lra.
  - now apply Qfloor_resp_le.
Qed.

Lemma servo_affine_mono (x y : Q) :
  (x <= y)%Q ->
  (500 + x / (2 * np_pi) * 1000 <= 500 + y / (2 * np_pi) * 1000)%Q.
Proof.
  intros H.
  assert (E : forall r, 500 + r / (2 * np_pi) * 1000
                        == 500 + r * (281474976710656 # 1768559438007110) * 1000)
    by (intros r; reflexivity).
  rewrite (E x), (E y). lra.
Qed.

Lemma hwi_affine_mono (x y : Q) :
  (x <= y)%Q ->
  (500 + x * 1000 / (418879 # 100000) <= 500 + y * 1000 / (418879 # 100000))%Q.
Proof.
  intros H.
  assert (E : forall r, 500 + r * 1000 / (418879 # 100000)
                        == 500 + r * 1000 * (100000 # 418879))
    by (intros r; reflexivity).
  rewrite (E x), (E y). lra.
Qed.

Lemma py_clamp_mono (x y : Q) :
  (x <= y)%Q ->
  (py_max 0 (py_min 1000 x) <= py_max 0 (py_min 1000 y))%Q.
Proof.
  intros H. unfold py_min.
  destruct (Qlt_le_dec x 1000), (Qlt_le_dec y 1000); unfold py_max;
    repeat match goal with
           | |- context [Qlt_le_dec ?a ?b] => destruct (Qlt_le_dec a b)
           end; lra.
Qed.

(** X9: device units grow with the angle: in both components a larger
    angle never maps to a smaller device unit. *)
Theorem rad_to_units_monotone (c : component) (r1 r2 : Q) :
  (r1 <= r2)%Q -> rad_to_units c r1 <= rad_to_units c r2.
Proof.
  intros H. destruct c; cbn [rad_to_units].
  - unfold HiwonderServo.rad_to_units. cbv zeta.
    pose proof (py_int_mono _ _ (servo_affine_mono r1 r2 H)). lia.
  - unfold HWI._radians_to_servo_units. cbv zeta.
    apply py_int_mono, py_clamp_mono, hwi_affine_mono, H.
Qed.

Lemma rad_to_units_monotone_witness :
  rad_to_units JointHWI (1 # 2) <= rad_to_units JointHWI 1.
Proof.
  apply (rad_to_units_monotone JointHWI (1 # 2) 1).
  vm_compute. discriminate.
Defined.



Lemma servo_frame_written (servo_id command : Z) (params : list Z) (w : World) :
  is_byte servo_id = true -> is_byte command = true ->
  is_byte (len params + 3) = true ->
  HiwonderServo._send_command servo_id command params w =
  (mkWorld (rx w) (tx w ++ [servo_frame servo_id command params]) (stdout w),
   Ok tt).
Proof.
  intros Hs Hc Hl. now rewrite servo_send_command_eq, Hs, Hc, Hl.
Qed.






(** * Further properties of the board position read-out *)

Lemma flat_map_position_triples (entries : list (Z * Z * Z)) :
  flat_map (fun '(servo_id, position, _) =>
              [servo_id; Z.land position 0xFF;
               Z.land (Z.shiftr position 8) 0xFF]) entries =
  flat_map triple_bytes
    (map (fun '(servo_id, position, _) =>
            (servo_id, Z.land position 0xFF,
             Z.land (Z.shiftr position 8) 0xFF)) entries).
Proof.
  induction entries as [| [[servo_id position] time_ms] l IH];
    [reflexivity |].
  cbn [flat_map map triple_bytes app]. now rewrite IH.
Qed.

(** X13: positions survive the wire.  When the board answers a position
    query with the id and the two position bytes of every entry of a batch,
    as [move_servos] encodes them, and announces their number,
    [read_servo_positions] returns every id with its position, in order,
    for positions in [0, 65535]. *)
Theorem positions_echo_round_trip
    (servo_ids : list Z) (command : Z) (entries : list (Z * Z * Z))
    (rest : list Z) (t : list (list Z)) (o : list line) :
  forallb is_byte (board_frame 0x15 (len servo_ids :: servo_ids)) = true ->
  Forall (fun e => 0 <= snd (fst e) < 65536) entries ->
  let payload :=
    len entries ::
    flat_map (fun '(servo_id, position, _) =>
                [servo_id; Z.land position 0xFF;
                 Z.land (Z.shiftr position 8) 0xFF]) entries in
  snd (HiwonderBoardController.read_servo_positions servo_ids
         (mkWorld ([0x55; 0x55; 2 + len payload; command] ++ payload ++ rest)
                  t o)) =
  Ok (Some (map (fun e => (fst (fst e), snd (fst e))) entries)).
Proof.
  intros Hq Hpos. cbv zeta.
  rewrite flat_map_position_triples.
  set (triples := map (fun '(servo_id, position, _) =>
                         (servo_id, Z.land position 0xFF,
                          Z.land (Z.shiftr position 8) 0xFF)) entries).
  assert (Hk : List.length triples = List.length entries)
    by (unfold triples; apply length_map).
  set (payload := len entries :: flat_map triple_bytes triples).
  unfold HiwonderBoardController.read_servo_positions.
  unfold bind at 1. rewrite board_send_command.
  change HiwonderBoardController.CMD_MULT_SERVO_POS_READ with 0x15.
  cbv zeta. cbn [app] in Hq |- *. rewrite Hq. cbn [rx tx stdout].
  unfold bind at 1.
  rewrite (board_read_response_framed (2 + len payload) command payload rest)
    by reflexivity.
  set (r := 2 + len payload :: command :: payload).
  assert (Hnz : (len r =? 0) || negb (3 <=? len r) = false).
  { unfold r, payload, len. cbn [List.length].
    apply orb_false_iff. split.
    - apply Z.eqb_neq. lia.
    - apply negb_false_iff, Z.leb_le. lia. }
  rewrite Hnz. unfold bind at 1, lift at 1.
  change (getitem r 2) with (Ok (len entries)). cbv iota beta.
  replace (Z.to_nat (len entries)) with (List.length triples)
    by (rewrite Hk; unfold len; now rewrite Nat2Z.id).
  unfold bind at 1.
  unfold r at 1, payload at 2.
  replace (2 + len payload :: command
             :: len entries :: flat_map triple_bytes triples)
    with ([2 + len payload; command; len entries]
            ++ flat_map triple_bytes triples ++ [])
    by (cbn [app]; now rewrite app_nil_r).
  rewrite positions_loop_hits by reflexivity.
  cbn [snd app]. unfold ret. cbn [snd]. do 2 f_equal.
  unfold triples. rewrite map_map.
  apply map_ext_in. intros [[servo_id position] time_ms] Hin.
  cbn [triple_position fst snd]. f_equal.
  rewrite little_endian_round_trip. apply Z.mod_small.
  rewrite Forall_forall in Hpos. exact (Hpos _ Hin).
Qed.

Lemma positions_echo_round_trip_witness :
  snd (HiwonderBoardController.read_servo_positions [1; 2]
         (mkWorld [0x55; 0x55; 9; 0x15; 2; 1; 0xF4; 0x01; 2; 0x58; 0x02]
                  [] [])) =
  Ok (Some [(1, 500); (2, 600)]).
Proof.
  apply (positions_echo_round_trip [1; 2] 0x15
           [(1, 500, 1000); (2, 600, 1000)] [] [] []).
  - reflexivity.
  - repeat constructor; cbn; lia.
Defined.

(** A response that carries as many triples as it announces is decoded in
    full. *)
Lemma read_servo_positions_complete
    (servo_ids : list Z) (command : Z) (triples : list (Z * Z * Z))
    (rest : list Z) (t : list (list Z)) (o : list line) :
  forallb is_byte (board_frame 0x15 (len servo_ids :: servo_ids)) = true ->
  let query := board_frame 0x15 (len servo_ids :: servo_ids) in
  let payload := len triples :: flat_map triple_bytes triples in
  let response := 2 + len payload :: command :: payload in
  HiwonderBoardController.read_servo_positions servo_ids
    (mkWorld ([0x55; 0x55] ++ response ++ rest) t o) =
  (mkWorld rest (t ++ [query]) (o ++ [PrintTX query; PrintResponse response]),
   Ok (Some (map triple_position triples))).
Proof.
  intros Hq. cbv zeta.
  set (payload := len triples :: flat_map triple_bytes triples).
  unfold HiwonderBoardController.read_servo_positions.
  unfold bind at 1. rewrite board_send_command.
  change HiwonderBoardController.CMD_MULT_SERVO_POS_READ with 0x15.
  cbv zeta. cbn [app] in Hq |- *. rewrite Hq. cbn [rx tx stdout].
  unfold bind at 1.
  rewrite (board_read_response_framed (2 + len payload) command payload rest)
    by reflexivity.
  set (r := 2 + len payload :: command :: payload).
  assert (Hnz : (len r =? 0) || negb (3 <=? len r) = false).
  { unfold r, payload, len. cbn [List.length].
    apply orb_false_iff. split.
    - apply Z.eqb_neq. lia.
    - apply negb_false_iff, Z.leb_le. lia. }
  rewrite Hnz. unfold bind at 1, lift at 1.
  change (getitem r 2) with (Ok (len triples)). cbv iota beta.
  replace (Z.to_nat (len triples)) with (List.length triples)
    by (unfold len; now rewrite Nat2Z.id).
  unfold bind at 1.
  unfold r at 1, payload at 2.
  replace (2 + len payload :: command
             :: len triples :: flat_map triple_bytes triples)
    with ([2 + len payload; command; len triples]
            ++ flat_map triple_bytes triples ++ [])
    by (cbn [app]; now rewrite app_nil_r).
  rewrite positions_loop_hits by reflexivity.
  unfold ret. cbn [app]. rewrite <- app_assoc. reflexivity.
Qed.

Lemma first_position_skips (servo_id : Z) (before after : list (Z * Z)) :
  Forall (fun p => fst p <> servo_id) before ->
  HiwonderBoardServo.first_position servo_id (before ++ after) =
  HiwonderBoardServo.first_position servo_id after.
Proof.
  induction 1 as [| [i u] before Hne _ IH]; [reflexivity |].
  cbn [app HiwonderBoardServo.first_position]. cbn [fst] in Hne.
  destruct (Z.eqb_spec i servo_id); [contradiction | exact IH].
Qed.

(** X14: [read_position] of the board adapter reports the first triple of
    its own servo and nothing else: in a complete response, triples of
    other servos before it are passed over and the position is the radians
    of that triple's little-endian units; when no triple carries the
    servo's id, the result is the default 0.0. *)
Theorem board_servo_read_position_first_match
    (servo_id command lo hi : Z) (before after : list (Z * Z * Z))
    (rest : list Z) (t : list (list Z)) (o : list line) :
  is_byte servo_id = true ->
  Forall (fun tr => fst (fst tr) <> servo_id) before ->
  let frame_of triples :=
    let payload := len triples :: flat_map triple_bytes triples in
    [0x55; 0x55; 2 + len payload; command] ++ payload in
  snd (HiwonderBoardServo.read_position servo_id
         (mkWorld (frame_of (before ++ (servo_id, lo, hi) :: after) ++ rest)
                  t o)) =
  Ok (HiwonderBoardServo.units_to_rad (Z.lor lo (Z.shiftl hi 8)))
  /\ snd (HiwonderBoardServo.read_position servo_id
            (mkWorld (frame_of before ++ rest) t o)) = Ok 0%Q.
Proof.
  intros Hs Hbefore. cbv zeta.
  assert (Hq : forallb is_byte (board_frame 0x15 (len [servo_id] :: [servo_id]))
               = true).
  { unfold board_frame. cbn [app forallb len List.length].
    change (is_byte 85) with true.
    change (is_byte (2 + Z.of_nat 2)) with true.
    change (is_byte 21) with true. change (is_byte (Z.of_nat 1)) with true.
    rewrite Hs. reflexivity. }
  assert (Hb : Forall (fun p => fst p <> servo_id)
                      (map triple_position before)).
  { apply Forall_forall. intros p Hp.
    apply in_map_iff in Hp as ([[i l] h] & <- & Hin).
    rewrite Forall_forall in Hbefore. exact (Hbefore _ Hin). }
  split.
  - unfold HiwonderBoardServo.read_position. unfold bind at 1.
    rewrite <- app_assoc.
    pose proof (read_servo_positions_complete [servo_id] command
                  (before ++ (servo_id, lo, hi) :: after) rest t o Hq) as E.
    cbv zeta in E. cbn [app] in E |- *. rewrite E. clear E.
    rewrite map_app. cbn [map triple_position].
    assert (Hne : (len (map triple_position before
                          ++ (servo_id, Z.lor lo (Z.shiftl hi 8))
                             :: map triple_position after) =? 0) = false).
    { apply Z.eqb_neq. unfold len. rewrite length_app. cbn [List.length]. lia. }
    rewrite Hne. unfold ret. cbn [snd].
    rewrite first_position_skips by exact Hb.
    cbn [HiwonderBoardServo.first_position]. now rewrite Z.eqb_refl.
  - unfold HiwonderBoardServo.read_position. unfold bind at 1.
    rewrite <- app_assoc.
    pose proof (read_servo_positions_complete [servo_id] command
                  before rest t o Hq) as E.
    cbv zeta in E. cbn [app] in E |- *. rewrite E. clear E.
    destruct (len (map triple_position before) =? 0); [reflexivity |].
    unfold ret. cbn [snd].
    rewrite <- (app_nil_r (map triple_position before)).
    now rewrite first_position_skips by exact Hb.
Qed.

Lemma board_servo_read_position_first_match_witness :
  snd (HiwonderBoardServo.read_position 2
         (mkWorld [0x55; 0x55; 9; 0x15; 2; 1; 0xF4; 0x01; 2; 0xEE; 0x02]
                  [] [])) =
  Ok (HiwonderBoardServo.units_to_rad 750)
  /\ snd (HiwonderBoardServo.read_position 2
            (mkWorld [0x55; 0x55; 6; 0x15; 1; 1; 0xF4; 0x01] [] [])) = Ok 0%Q.
Proof.
  apply (board_servo_read_position_first_match 2 0x15 0xEE 0x02
           [(1, 0xF4, 0x01)] [] [] [] []).
  - reflexivity.
  - repeat constructor. cbn. lia.
Defined.

Lemma read_servo_positions_silent (servo_ids : list Z)
                                  (t : list (list Z)) (o : list line) :
  forallb is_byte (board_frame 0x15 (len servo_ids :: servo_ids)) = true ->
  let query := board_frame 0x15 (len servo_ids :: servo_ids) in
  HiwonderBoardController.read_servo_positions servo_ids (mkWorld [] t o) =
  (mkWorld [] (t ++ [query]) (o ++ [PrintTX query; PrintTimeoutHeader]),
   Ok None).
Proof.
  intros Hq. cbv zeta.
  unfold HiwonderBoardController.read_servo_positions.
  unfold bind at 1. rewrite board_send_command.
  change HiwonderBoardController.CMD_MULT_SERVO_POS_READ with 0x15.
  cbv zeta. cbn [app] in Hq |- *. rewrite Hq. cbn [rx tx stdout].
  unfold bind at 1. rewrite board_read_response_eq. cbn [rx tx stdout].
  cbv zeta. unfold ret. rewrite <- app_assoc. reflexivity.
Qed.

Lemma get_battery_voltage_silent (t : list (list Z)) (o : list line) :
  HiwonderBoardController.get_battery_voltage (mkWorld [] t o) =
  (mkWorld [] (t ++ [[0x55; 0x55; 2; 0x0F]])
           (o ++ [PrintTX [0x55; 0x55; 2; 0x0F]; PrintTimeoutHeader]),
   Ok None).
Proof.
  unfold HiwonderBoardController.get_battery_voltage.
  unfold bind at 1. rewrite board_send_command.
  cbv zeta. change (forallb is_byte (board_frame _ [])) with true.
  cbv iota. cbn [rx tx stdout]. unfold bind at 1.
  rewrite board_read_response_eq. cbn [rx tx stdout].
  cbv zeta. unfold ret. rewrite <- app_assoc. reflexivity.
Qed.

(** X15: on a silent board the adapter's [read_data] does not raise: it
    writes the position query for its servo and the battery query, and
    returns zeros for position, speed, load, voltage and temperature. *)
Theorem board_servo_read_data_silent
    (servo_id : Z) (t : list (list Z)) (o : list line) :
  is_byte servo_id = true ->
  HiwonderBoardServo.read_data servo_id (mkWorld [] t o) =
  (mkWorld []
     (t ++ [[0x55; 0x55; 4; 0x15; 1; servo_id]; [0x55; 0x55; 2; 0x0F]])
     (o ++ [PrintTX [0x55; 0x55; 4; 0x15; 1; servo_id]; PrintTimeoutHeader;
            PrintTX [0x55; 0x55; 2; 0x0F]; PrintTimeoutHeader]),
   Ok (mkData 0 0 0 0 0)).
Proof.
  intros Hs.
  assert (Hq : forallb is_byte (board_frame 0x15 (len [servo_id] :: [servo_id]))
               = true).
  { unfold board_frame. cbn [app forallb len List.length].
    change (is_byte 85) with true.
    change (is_byte (2 + Z.of_nat 2)) with true.
    change (is_byte 21) with true. change (is_byte (Z.of_nat 1)) with true.
    rewrite Hs. reflexivity. }
  unfold HiwonderBoardServo.read_data, HiwonderBoardServo.read_position,
    HiwonderBoardServo.read_voltage.
  unfold bind at 1. unfold bind at 1.
  rewrite (read_servo_positions_silent [servo_id] t o Hq). cbv zeta.
  unfold ret at 1. cbv iota beta.
  unfold bind at 1. unfold bind at 1.
  rewrite get_battery_voltage_silent.
  unfold ret. cbv iota beta.
  unfold board_frame. cbn [app len List.length].
  rewrite <- !app_assoc. reflexivity.
Qed.

Lemma board_servo_read_data_silent_witness :
  HiwonderBoardServo.read_data 1 (mkWorld [] [] []) =
  (mkWorld []
     ([] ++ [[0x55; 0x55; 4; 0x15; 1; 1]; [0x55; 0x55; 2; 0x0F]])
     ([] ++ [PrintTX [0x55; 0x55; 4; 0x15; 1; 1]; PrintTimeoutHeader;
             PrintTX [0x55; 0x55; 2; 0x0F]; PrintTimeoutHeader]),
   Ok (mkData 0 0 0 0 0)).
Proof.
  apply (board_servo_read_data_silent 1 [] []). reflexivity.
Defined.

(** * Further properties of the speed estimate *)

Lemma servo_speed_read_data_eq
    (polls : nat) (now : Q) (h : History) (servo_id : Z) (w : World) :
  is_byte servo_id = true ->
  exists w' d,
    HiwonderServoWithSpeedEstimation.read_data polls now
      (HiwonderServoWithSpeedEstimation.mkSelf servo_id h) w =
    (w', Ok (d, HiwonderServoWithSpeedEstimation.mkSelf servo_id
                  (mkHistory (Some (position d)) (Some now))))
    /\ speed_estimated h now d (mkHistory (Some (position d)) (Some now)).
Proof.
  intros Hs. unfold HiwonderServoWithSpeedEstimation.read_data.
  cbn [HiwonderServoWithSpeedEstimation.servo_id
       HiwonderServoWithSpeedEstimation.history].
  destruct (servo_read_position_returns polls servo_id w Hs)
    as (wa & pos & Ea).
  destruct (servo_read_voltage_returns polls servo_id wa Hs)
    as (wb & volt & Eb).
  destruct (servo_read_temperature_returns polls servo_id wb Hs)
    as (wc & tmp & Ec).
  unfold bind. rewrite Ea, Eb, Ec. unfold ret.
  eexists wc, (mkData pos _ 0 volt tmp). split; [reflexivity |].
  apply speed_formula_estimated.
Qed.

(** X16: two reads in a row.  Whatever was stored before, after one
    [read_data] of the direct speed-estimating client at time [t0] a second
    one at time [t1] reports the difference quotient of the two positions
    read when [t0 < t1], and 0 when the clock did not advance. *)
Theorem successive_reads_estimate_speed
    (polls : nat) (t0 t1 : Q) (h : History) (servo_id : Z) (w : World) :
  is_byte servo_id = true ->
  exists w1 d0 self1 w2 d1 self2,
    HiwonderServoWithSpeedEstimation.read_data polls t0
      (HiwonderServoWithSpeedEstimation.mkSelf servo_id h) w =
    (w1, Ok (d0, self1))
    /\ HiwonderServoWithSpeedEstimation.read_data polls t1 self1 w1 =
       (w2, Ok (d1, self2))
    /\ ((t0 < t1)%Q ->
        speed d1 = ((position d1 - position d0) / (t1 - t0))%Q)
    /\ ((t1 <= t0)%Q -> speed d1 = 0%Q)
    /\ HiwonderServoWithSpeedEstimation.history self2 =
       mkHistory (Some (position d1)) (Some t1).
Proof.
  intros Hs.
  destruct (servo_speed_read_data_eq polls t0 h servo_id w Hs)
    as (w1 & d0 & E0 & _).
  destruct (servo_speed_read_data_eq polls t1
              (mkHistory (Some (position d0)) (Some t0)) servo_id w1 Hs)
    as (w2 & d1 & E1 & _ & Hspeed & _).
  destruct (Hspeed (position d0) t0 eq_refl eq_refl) as [Hpos Hneg].
  eexists w1, d0, _, w2, d1, _.
  split; [exact E0 |]. split; [exact E1 |].
  split; [| split].
  - intros Hlt. apply Hpos. lra.
  - intros Hle. apply Hneg. lra.
  - reflexivity.
Qed.

Lemma successive_reads_estimate_speed_witness :
  exists w1 d0 self1 w2 d1 self2,
    HiwonderServoWithSpeedEstimation.read_data 1 1
      (HiwonderServoWithSpeedEstimation.mkSelf 1 (mkHistory None None))
      empty_world = (w1, Ok (d0, self1))
    /\ HiwonderServoWithSpeedEstimation.read_data 1 2 self1 w1 =
       (w2, Ok (d1, self2))
    /\ ((1 < 2)%Q -> speed d1 = ((position d1 - position d0) / (2 - 1))%Q)
    /\ ((2 <= 1)%Q -> speed d1 = 0%Q)
    /\ HiwonderServoWithSpeedEstimation.history self2 =
       mkHistory (Some (position d1)) (Some 2%Q).
Proof.
  apply (successive_reads_estimate_speed 1 1 2 (mkHistory None None) 1
           empty_world).
  reflexivity.
Defined.

(** * Further properties of the joint-space interface *)

(** X17: [set_position] on one joint.  An unknown joint name raises
    [ValueError] and a known joint without a calibration offset raises
    [KeyError]; in both cases nothing is written or printed.  For a known
    joint with an offset, one single-entry move frame is written for the
    joint's servo, with the device units of the angle plus the offset and
    the default duration of 20 ms. *)
Theorem set_position_single_joint
    (joints_offsets : list (string * Q)) (joint_name : string) (pos : Q)
    (w : World) :
  (known_joint joint_name = false ->
   HWI.set_position joints_offsets joint_name pos w = (w, Raise ValueError))
  /\ (known_joint joint_name = true ->
      dict_lookup String.eqb joints_offsets joint_name = None ->
      HWI.set_position joints_offsets joint_name pos w = (w, Raise KeyError))
  /\ (forall servo_id offset,
        dict_lookup String.eqb HWI.joints joint_name = Some servo_id ->
        dict_lookup String.eqb joints_offsets joint_name = Some offset ->
        let units := HWI._radians_to_servo_units (pos + offset) in
        let frame :=
          [0x55; 0x55; 8; 0x03; 1; servo_id;
           Z.land units 0xFF; Z.land (Z.shiftr units 8) 0xFF; 20; 0] in
        HWI.set_position joints_offsets joint_name pos w =
        (mkWorld (rx w) (tx w ++ [frame]) (stdout w ++ [PrintTX frame]),
         Ok tt)).
Proof.
  split; [| split].
  - intros Hk. unfold HWI.set_position.
    fold (known_joint joint_name). rewrite Hk. reflexivity.
  - intros Hk Hoff. unfold HWI.set_position.
    fold (known_joint joint_name). rewrite Hk. cbn [negb].
    destruct (known_joint_lookup joint_name Hk) as (servo_id & Hid & _).
    unfold bind, lift, dict_get. rewrite Hid, Hoff. reflexivity.
  - intros servo_id offset Hid Hoff. cbv zeta.
    assert (Hk : known_joint joint_name = true)
      by (unfold known_joint, dict_in; now rewrite Hid).
    destruct (known_joint_lookup joint_name Hk) as (servo_id' & Hid' & Hbyte).
    rewrite Hid in Hid'. injection Hid' as <-.
    unfold HWI.set_position.
    fold (known_joint joint_name). rewrite Hk. cbn [negb].
    unfold bind at 1, lift at 1, dict_get at 1. rewrite Hid.
    unfold bind at 1, lift at 1, dict_get at 1. rewrite Hoff.
    unfold bind at 1. rewrite move_servos_eq. cbv zeta.
    unfold move_params, board_frame.
    cbn [flat_map servo_entry app len List.length forallb].
    change (is_byte 85) with true.
    change (is_byte (2 + Z.of_nat 6)) with true.
    change (is_byte 3) with true. change (is_byte (Z.of_nat 1)) with true.
    rewrite Hbyte, !is_byte_land. cbn [andb]. reflexivity.
Qed.

Lemma set_position_single_joint_witness :
  HWI.set_position example_offsets "tail" 1 empty_world =
  (empty_world, Raise ValueError)
  /\ HWI.set_position example_offsets "head_pitch" 1 empty_world =
     (empty_world, Raise KeyError)
  /\ HWI.set_position example_offsets "head_yaw" 0 empty_world =
     (mkWorld [] [[0x55; 0x55; 8; 0x03; 1; 112; 0xF4; 0x01; 20; 0]]
              [PrintTX [0x55; 0x55; 8; 0x03; 1; 112; 0xF4; 0x01; 20; 0]],
      Ok tt).
Proof.
  destruct (set_position_single_joint example_offsets "tail" 1 empty_world)
    as (H1 & _ & _).
  destruct (set_position_single_joint example_offsets "head_pitch" 1
              empty_world) as (_ & H2 & _).
  destruct (set_position_single_joint example_offsets "head_yaw" 0
              empty_world) as (_ & _ & H3).
  split; [apply H1; reflexivity |].
  split; [apply H2; reflexivity |].
  apply (H3 112 0%Q); reflexivity.
Defined.

(** * The way back to zero after a recording *)

Lemma Qabs_cases (x : Q) :
  ((0 <= x)%Q /\ Qabs x == x) \/ ((x <= 0)%Q /\ Qabs x == - x).
Proof.
  destruct (Qlt_le_dec x 0) as [H | H].
  - right. split; [lra |]. apply Qabs_neg. lra.
  - left. split; [exact H |]. now apply Qabs_pos.
Qed.

(** One step brings the goal a hundredth of a radian closer to zero and
    keeps it on its side of zero. *)
Lemma next_goal_closer (g : Q) :
  (1 # 100 < Qabs g)%Q ->
  Qabs (Record.next_goal g) == Qabs g - (1 # 100)
  /\ ((0 <= g)%Q -> (0 <= Record.next_goal g)%Q)
  /\ ((g <= 0)%Q -> (Record.next_goal g <= 0)%Q).
Proof.
  intros Hfar.
  assert (Hmv : Record.max_variation == 1 # 100) by reflexivity.
  unfold Record.next_goal.
  destruct (Qabs_cases g) as [[Hg Ha] | [Hg Ha]]; rewrite Ha in Hfar |- *.
  - destruct (Qlt_le_dec 0 g) as [Hpos | Hneg]; [| lra].
    unfold py_max.
    destruct (Qlt_le_dec 0 (g - Record.max_variation)) as [H | H];
      [| rewrite Hmv in H; lra].
    rewrite Hmv in H. split; [| split].
    + rewrite Qabs_pos by (rewrite Hmv; lra). rewrite Hmv. reflexivity.
    + intros _. rewrite Hmv. lra.
    + intros Hle. lra.
  - destruct (Qlt_le_dec 0 g) as [Hpos | Hneg]; [lra |].
    unfold py_min.
    destruct (Qlt_le_dec (g + Record.max_variation) 0) as [H | H];
      [| rewrite Hmv in H; lra].
    rewrite Hmv in H. split; [| split].
    + rewrite Qabs_neg by (rewrite Hmv; lra). rewrite Hmv. lra.
    + intros Hge. lra.
    + intros _. rewrite Hmv. lra.
Qed.

Lemma servo_set_goal_position_returns
    (servo_id : Z) (position : Q) (duration : Z) (w : World) :
  is_byte servo_id = true ->
  exists w',
    HiwonderServo.set_goal_position servo_id position duration w = (w', Ok tt)
    /\ rx w' = rx w
    /\ List.length (tx w') = S (List.length (tx w)).
Proof.
  intros Hs. unfold HiwonderServo.set_goal_position.
  unfold bind at 1, lift at 1, to_bytes at 1. cbn [forallb].
  rewrite !is_byte_land. cbn [andb].
  rewrite servo_frame_written by (exact Hs || reflexivity).
  eexists. split; [reflexivity |]. cbn [rx tx]. split; [reflexivity |].
  rewrite length_app. cbn [List.length]. lia.
Qed.

Lemma board_servo_set_goal_position_returns
    (servo_id : Z) (position : Q) (duration : Z) (w : World) :
  is_byte servo_id = true ->
  exists w',
    HiwonderBoardServo.set_goal_position servo_id position duration w =
    (w', Ok tt)
    /\ rx w' = rx w
    /\ List.length (tx w') = S (List.length (tx w)).
Proof.
  intros Hs. unfold HiwonderBoardServo.set_goal_position.
  unfold bind at 1. rewrite move_servos_eq. cbv zeta.
  unfold move_params, board_frame.
  cbn [flat_map servo_entry app len List.length forallb].
  change (is_byte 85) with true.
  change (is_byte (2 + Z.of_nat 6)) with true.
  change (is_byte 3) with true. change (is_byte (Z.of_nat 1)) with true.
  rewrite Hs, !is_byte_land. cbn [andb].
  eexists. split; [reflexivity |]. cbn [rx tx]. split; [reflexivity |].
  rewrite length_app. cbn [List.length]. lia.
Qed.

Lemma inject_Z_succ (k : nat) :
  inject_Z (Z.of_nat (S k)) == inject_Z (Z.of_nat k) + 1.
Proof. rewrite Nat2Z.inj_succ. unfold Z.succ. now rewrite inject_Z_plus. Qed.

(** X18: the return loop of the recording scripts ends.  From any goal
    position, within [ceil(100 * |goal|)] turns the loop of [record.py]
    stops with a goal no further than 0.01 rad from zero, no further from
    zero than it started and on the same side of zero; every turn commands
    one position and nothing is read.  The loop of [record_board.py]
    behaves the same through the board adapter. *)
Theorem return_to_zero_terminates
    (fuel : nat) (servo_id : Z) (goal : Q) (w : World) :
  is_byte servo_id = true ->
  (100 * Qabs goal <= inject_Z (Z.of_nat fuel))%Q ->
  (exists w' final,
      Record.return_to_zero fuel servo_id goal w = (w', Ok (Some final))
      /\ (Qabs final <= 1 # 100)%Q /\ (Qabs final <= Qabs goal)%Q
      /\ ((0 <= goal)%Q -> (0 <= final)%Q)
      /\ ((goal <= 0)%Q -> (final <= 0)%Q)
      /\ rx w' = rx w
      /\ (List.length (tx w') <= List.length (tx w) + fuel)%nat)
  /\ (exists w' final,
         RecordBoard.return_to_zero fuel servo_id goal w =
         (w', Ok (Some final))
         /\ (Qabs final <= 1 # 100)%Q /\ (Qabs final <= Qabs goal)%Q
         /\ ((0 <= goal)%Q -> (0 <= final)%Q)
         /\ ((goal <= 0)%Q -> (final <= 0)%Q)
         /\ rx w' = rx w
         /\ (List.length (tx w') <= List.length (tx w) + fuel)%nat).
Proof.
  intros Hs. revert goal w.
  induction fuel as [| k IH]; intros goal w Hfuel.
  - assert (Hnear : (Qabs goal <= 1 # 100)%Q)
      by (change (inject_Z (Z.of_nat 0)) with 0%Q in Hfuel; lra).
    split; cbn [Record.return_to_zero RecordBoard.return_to_zero];
      (destruct (Qlt_le_dec (1 # 100) (Qabs goal)) as [Hfar | _]; [lra |]);
      exists w, goal; repeat split; auto; try lra; lia.
  - destruct (Qlt_le_dec (1 # 100) (Qabs goal)) as [Hfar | Hnear] eqn:Htest.
    + destruct (next_goal_closer goal Hfar) as (Habs & Hpos & Hneg).
      rewrite inject_Z_succ in Hfuel.
      assert (Hfuel' : (100 * Qabs (Record.next_goal goal)
                        <= inject_Z (Z.of_nat k))%Q)
        by (rewrite Habs; lra).
      split.
      * destruct (servo_set_goal_position_returns servo_id
                    (Record.next_goal goal) 0 w Hs) as (w1 & E & Hrx & Htx).
        destruct (IH (Record.next_goal goal) w1 Hfuel')
          as [(w' & final & E' & H1 & H2 & H3 & H4 & H5 & H6) _].
        exists w', final. split.
        { cbn [Record.return_to_zero]. rewrite Htest. cbv zeta.
          unfold bind. rewrite E. exact E'. }
        split; [exact H1 |].
        split; [rewrite Habs in H2; lra |].
        split; [intros Hg; apply H3, Hpos, Hg |].
        split; [intros Hg; apply H4, Hneg, Hg |].
        split; [congruence | lia].
      * destruct (board_servo_set_goal_position_returns servo_id
                    (Record.next_goal goal) 50 w Hs) as (w1 & E & Hrx & Htx).
        destruct (IH (Record.next_goal goal) w1 Hfuel')
          as [_ (w' & final & E' & H1 & H2 & H3 & H4 & H5 & H6)].
        exists w', final. split.
        { cbn [RecordBoard.return_to_zero]. rewrite Htest. cbv zeta.
          unfold bind. rewrite E. exact E'. }
        split; [exact H1 |].
        split; [rewrite Habs in H2; lra |].
        split; [intros Hg; apply H3, Hpos, Hg |].
        split; [intros Hg; apply H4, Hneg, Hg |].
        split; [congruence | lia].
    + split; cbn [Record.return_to_zero RecordBoard.return_to_zero];
        rewrite Htest; exists w, goal; repeat split; auto; try lra; lia.
Qed.

Lemma return_to_zero_terminates_witness :
  exists w' final,
    Record.return_to_zero 4 1 (35 # 1000) empty_world = (w', Ok (Some final))
    /\ (Qabs final <= 1 # 100)%Q /\ (Qabs final <= Qabs (35 # 1000))%Q
    /\ ((0 <= 35 # 1000)%Q -> (0 <= final)%Q)
    /\ ((35 # 1000 <= 0)%Q -> (final <= 0)%Q)
    /\ rx w' = rx empty_world
    /\ (List.length (tx w') <= List.length (tx empty_world) + 4)%nat.
Proof.
  apply (return_to_zero_terminates 4 1 (35 # 1000) empty_world).
  - reflexivity.
  - vm_compute. discriminate.
Defined.

(** * Velocities and positions of the joint-space interface *)

Lemma filter_map_fst {A B : Type} (f : A -> bool) (l : list (A * B)) :
  filter f (map fst l) = map fst (filter (fun p => f (fst p)) l).
Proof.
  induction l as [| [a b] l IH]; [reflexivity |].
  cbn [map filter fst]. destruct (f a); cbn [map fst]; now rewrite IH.
Qed.

(** X19: the velocity stub stays aligned with the positions.  For every
    ignore list [get_present_velocities] returns only zeros, at most
    fourteen of them, and whenever [get_present_positions] returns an array
    for the same ignore list, whatever the calibration table and the state
    of the transport, the two have the same length. *)
Theorem velocities_align_with_positions
    (ignore : list string) (rad_s : bool) :
  Forall (fun v => v = 0%Q) (HWI.get_present_velocities rad_s ignore)
  /\ (List.length (HWI.get_present_velocities rad_s ignore) <= 14)%nat
  /\ (forall (joints_offsets : list (string * Q)) (w w' : World)
             (positions : list Q),
        HWI.get_present_positions joints_offsets ignore w =
          (w', Ok (Some positions)) ->
        List.length (HWI.get_present_velocities rad_s ignore) =
          List.length positions).
Proof.
  assert (Hlen : List.length (HWI.get_present_velocities rad_s ignore) =
                 List.length (kept_joints ignore)).
  { unfold HWI.get_present_velocities. cbv zeta.
    rewrite repeat_length, filter_map_fst, length_map. reflexivity. }
  split; [| split].
  - unfold HWI.get_present_velocities. cbv zeta.
    apply Forall_forall. intros v Hv. now apply repeat_spec in Hv.
  - rewrite Hlen. unfold kept_joints.
    etransitivity; [apply filter_length_le |]. reflexivity.
  - intros joints_offsets w w' positions Hpos. rewrite Hlen.
    pose proof (get_present_positions_eq joints_offsets ignore w) as Hcases.
    cbv zeta in Hcases.
    destruct (HiwonderBoardController.read_servo_positions
                (map snd (kept_joints ignore)) w)
      as [w1 [[positions_data |] | e]].
    + destruct (telemetry_calibrated joints_offsets
                  (positions_dict positions_data) (kept_joints ignore)).
      * rewrite Hcases in Hpos. injection Hpos as _ <-.
        now rewrite !length_map.
      * destruct Hcases as [warnings E]. rewrite E in Hpos. discriminate.
    + rewrite Hcases in Hpos. discriminate.
    + rewrite Hcases in Hpos. discriminate.
Qed.

Lemma velocities_align_with_positions_witness :
  List.length
    (HWI.get_present_velocities true
       ["left_hip_yaw"; "left_hip_roll"; "left_hip_pitch"; "left_ankle";
        "neck_pitch"; "head_pitch"; "head_roll";
        "right_hip_yaw"; "right_hip_roll"; "right_hip_pitch";
        "right_knee"]%string) =
  List.length (map around3 [0; (418879 # 1000000) - (1 # 10); 0]%Q).
Proof.
  refine (proj2 (proj2 (velocities_align_with_positions
           ["left_hip_yaw"; "left_hip_roll"; "left_hip_pitch"; "left_ankle";
            "neck_pitch"; "head_pitch"; "head_roll";
            "right_hip_yaw"; "right_hip_roll"; "right_hip_pitch";
            "right_knee"]%string true))
           [("head_yaw", 1 # 10)]%string
           (mkWorld [0x55; 0x55; 6; 0x15; 1; 112; 0x58; 0x02] [] [])
           (mkWorld [] [[0x55; 0x55; 6; 0x15; 3; 103; 112; 109]]
              [PrintTX [0x55; 0x55; 6; 0x15; 3; 103; 112; 109];
               PrintResponse [6; 0x15; 1; 112; 0x58; 0x02];
               PrintNoPositionData 103 "left_knee";
               PrintNoPositionData 109 "right_ankle"])
           (map around3 [0; (418879 # 1000000) - (1 # 10); 0]%Q)
           _).
  vm_compute. reflexivity.
Defined.

(** * Further properties of the battery read-out *)

Lemma lor_low_high (lo hi : Z) :
  0 <= lo < 256 -> 0 <= hi < 256 ->
  Z.lor lo (Z.shiftl hi 8) = lo + 256 * hi.
Proof.
  intros Hlo Hhi.
  pose proof (little_endian_round_trip (lo + 256 * hi)) as H.
  change 0xFF with (Z.ones 8) in H.
  rewrite !Z.land_ones, Z.shiftr_div_pow2 in H by lia.
  change (2 ^ 8) with 256 in H.
  assert (Hm : (lo + 256 * hi) mod 256 = lo).
  { replace (lo + 256 * hi) with (lo + hi * 256) by lia.
    rewrite Z.mod_add by lia. apply Z.mod_small. lia. }
  assert (Hd : (lo + 256 * hi) / 256 = hi).
  { replace (lo + 256 * hi) with (lo + hi * 256) by lia.
    rewrite Z.div_add by lia. rewrite Z.div_small by lia. lia. }
  rewrite Hm, Hd in H.
  rewrite (Z.mod_small hi) in H by lia.
  rewrite H. apply Z.mod_small. lia.
Qed.

(** X20: what [get_battery_voltage] makes of a response that opens with
    the header.  A four-byte-long answer to command [0x0F] yields the
    little-endian millivolts divided by 1000, a value between 0 and 65.535
    volts; an answer that stops short of its declared length, declares
    another length, or answers another command yields [None], as do silence
    and an answer cut after the header. *)
Theorem battery_voltage_outcomes
    (lo hi l c : Z) (rest r4 : list Z) (t : list (list Z)) (o : list line) :
  (0 <= lo < 256 -> 0 <= hi < 256 ->
   snd (HiwonderBoardController.get_battery_voltage
          (mkWorld ([0x55; 0x55; 4; 0x0F; lo; hi] ++ rest) t o)) =
   Ok (Some (inject_Z (lo + 256 * hi) / 1000)%Q)
   /\ (0 <= inject_Z (lo + 256 * hi) / 1000 <= 65535 # 1000)%Q)
  /\ (len (firstn (Z.to_nat (l - 2)) r4) <> l - 2 \/ l <> 4 \/ c <> 0x0F ->
      snd (HiwonderBoardController.get_battery_voltage
             (mkWorld (0x55 :: 0x55 :: l :: c :: r4) t o)) = Ok None)
  /\ snd (HiwonderBoardController.get_battery_voltage (mkWorld [] t o))
     = Ok None
  /\ snd (HiwonderBoardController.get_battery_voltage
            (mkWorld [0x55; 0x55] t o)) = Ok None.
Proof.
  split; [| split; [| split]].
  - intros Hlo Hhi. split.
    + rewrite battery_voltage_well_formed. cbn [snd].
      now rewrite lor_low_high.
    + assert (H0 : (0 <= inject_Z (lo + 256 * hi))%Q).
      { change 0%Q with (inject_Z 0). rewrite <- Zle_Qle. lia. }
      assert (H1 : (inject_Z (lo + 256 * hi) <= 65535)%Q).
      { change 65535%Q with (inject_Z 65535). rewrite <- Zle_Qle. lia. }
      unfold Qdiv. change (/ 1000)%Q with (1 # 1000)%Q. lra.
  - apply battery_voltage_rejects.
  - reflexivity.
  - reflexivity.
Qed.

Lemma battery_voltage_outcomes_witness :
  (snd (HiwonderBoardController.get_battery_voltage
          (mkWorld ([0x55; 0x55; 4; 0x0F; 0xB8; 0x1B] ++ []) [] [])) =
   Ok (Some (inject_Z (0xB8 + 256 * 0x1B) / 1000)%Q)
   /\ (0 <= inject_Z (0xB8 + 256 * 0x1B) / 1000 <= 65535 # 1000)%Q)
  /\ snd (HiwonderBoardController.get_battery_voltage
            (mkWorld [0x55; 0x55; 5; 0x0F; 0xB8; 0x1B; 0x00] [] [])) = Ok None.
Proof.
  destruct (battery_voltage_outcomes 0xB8 0x1B 5 0x0F [] [0xB8; 0x1B; 0x00]
              [] []) as (Hgood & Hbad & _).
  split.
  - apply Hgood; lia.
  - apply Hbad. right. left. lia.
Defined.

(** * Calibrated write and read *)

(** X21: what is written to a joint is read back up to quantization, in
    binary64.  For a calibration offset of magnitude at most 4 rad and an
    angle that, with the offset added, lies within half the span of the
    centre: adding the offset and converting as [set_position] does, then
    converting the same device units back, removing the offset and rounding
    to three decimals as [get_present_positions] does, gives a value that
    differs from the angle by at most one device-unit step, 4.18879/1000
    rad, plus half a thousandth, plus [2e-14] rad lost to rounding. *)
Theorem calibrated_round_trip (pos offset : Q) :
  (-4 <= offset)%Q -> (offset <= 4)%Q ->
  (- ((418879 # 100000) / 2) <= pos + offset)%Q ->
  (pos + offset <= (418879 # 100000) / 2)%Q ->
  (Qabs (Binary64.around3
           (Binary64.fl
              (Binary64.HWI._servo_units_to_radians
                 (Binary64.HWI._radians_to_servo_units
                    (Binary64.fl (pos + offset)))
               - offset))
         - pos)
   <= (418879 # 100000) / 1000 + (1 # 2000) + (2 # 100000000000000))%Q.
Proof.
  intros Ho1 Ho2 Hlo Hhi.
  assert (Hlo' : (- (418879 # 200000) <= pos + offset)%Q) by exact Hlo.
  assert (Hhi' : (pos + offset <= 418879 # 200000)%Q) by exact Hhi.
  clear Hlo Hhi.
  pose proof (fl_near (pos + offset) 2 4 (1 # 2251799813685248) ltac:(lia)
                ltac:(reflexivity) ltac:(reflexivity)) as H0.
  set (s := Binary64.fl (pos + offset)) in *.
  assert (B0 : (- (1 # 2251799813685248) <= s - (pos + offset)
                <= 1 # 2251799813685248)%Q) by (apply H0; lra).
  clear H0.
  pose proof (hwi_round_trip64 s ltac:(lra) ltac:(lra)) as Hr.
  apply Qabs_Qle_condition in Hr.
  set (r := Binary64.HWI._servo_units_to_radians
              (Binary64.HWI._radians_to_servo_units s)) in *.
  pose proof (fl_near (r - offset) 3 8 (1 # 1125899906842624) ltac:(lia)
                ltac:(reflexivity) ltac:(reflexivity)) as H1.
  set (t := Binary64.fl (r - offset)) in *.
  assert (B1 : (- (1 # 1125899906842624) <= t - (r - offset)
                <= 1 # 1125899906842624)%Q) by (apply H1; lra).
  clear H1.
  unfold Binary64.around3.
  pose proof (fl_near (t * 1000) 13 8192 (1 # 1099511627776) ltac:(lia)
                ltac:(reflexivity) ltac:(reflexivity)) as H2.
  set (a1 := Binary64.fl (t * 1000)) in *.
  assert (B2 : (- (1 # 1099511627776) <= a1 - t * 1000
                <= 1 # 1099511627776)%Q) by (apply H2; lra).
  clear H2.
  pose proof (rint_within_half a1) as Hz.
  set (z := inject_Z (rint a1)) in *.
  assert (E : z / 1000 == z * (1 # 1000)) by reflexivity.
  pose proof (fl_near (z / 1000) 3 8 (1 # 1125899906842624) ltac:(lia)
                ltac:(reflexivity) ltac:(reflexivity)) as H3.
  set (res := Binary64.fl (z / 1000)) in *.
  assert (B3 : (- (1 # 1125899906842624) <= res - z / 1000
                <= 1 # 1125899906842624)%Q)
    by (apply H3; rewrite E; lra).
  rewrite E in B3. clear H3.
  apply Qabs_Qle_condition.
  assert (Es : (418879 # 100000) / 1000 == 418879 # 100000000) by reflexivity.
  rewrite Es. split; lra.
Qed.

(** The doubles [0.0046887900000001093] and [-2.0111192]: the angle reads
    back as 0.0, further away than the step and half a thousandth, within
    the bound. *)
Lemma calibrated_round_trip_witness :
  let pos := 21116432896819 # 4503599627370496 in
  let offset := -4528637839858825 # 2251799813685248 in
  Binary64.around3
    (Binary64.fl
       (Binary64.HWI._servo_units_to_radians
          (Binary64.HWI._radians_to_servo_units (Binary64.fl (pos + offset)))
        - offset)) = 0%Q
  /\ (Qabs (Binary64.around3
              (Binary64.fl
                 (Binary64.HWI._servo_units_to_radians
                    (Binary64.HWI._radians_to_servo_units
                       (Binary64.fl (pos + offset)))
                  - offset))
            - pos)
      <= (418879 # 100000) / 1000 + (1 # 2000) + (2 # 100000000000000))%Q.
Proof.
  cbv zeta. split; [vm_compute; reflexivity |].
  apply (calibrated_round_trip (21116432896819 # 4503599627370496)
           (-4528637839858825 # 2251799813685248));
    vm_compute; discriminate.
Defined.

(** * Further compositions *)

(** X22: two answers in a row.  With the board's answer to the position
    query followed by its answer to the battery query in the buffer,
    [read_data] of the board adapter returns the servo's position and the
    battery voltage together, each query consuming exactly its own answer;
    speed, load and temperature are reported as 0. *)
Theorem board_servo_read_data_decodes
    (servo_id command lo hi vlo vhi : Z) (rest : list Z)
    (t : list (list Z)) (o : list line) :
  is_byte servo_id = true ->
  0 <= vlo < 256 -> 0 <= vhi < 256 ->
  exists o',
    HiwonderBoardServo.read_data servo_id
      (mkWorld ([0x55; 0x55; 6; command; 1; servo_id; lo; hi]
                  ++ [0x55; 0x55; 4; 0x0F; vlo; vhi] ++ rest) t o) =
    (mkWorld rest
       (t ++ [[0x55; 0x55; 4; 0x15; 1; servo_id]; [0x55; 0x55; 2; 0x0F]]) o',
     Ok (mkData (HiwonderBoardServo.units_to_rad (Z.lor lo (Z.shiftl hi 8)))
                0 0 (inject_Z (vlo + 256 * vhi) / 1000)%Q 0)).
Proof.
  intros Hs Hvlo Hvhi.
  assert (Hq : forallb is_byte (board_frame 0x15 (len [servo_id] :: [servo_id]))
               = true).
  { unfold board_frame. cbn [app forallb len List.length].
    change (is_byte 85) with true.
    change (is_byte (2 + Z.of_nat 2)) with true.
    change (is_byte 21) with true. change (is_byte (Z.of_nat 1)) with true.
    rewrite Hs. reflexivity. }
  pose proof (read_servo_positions_complete [servo_id] command
                [(servo_id, lo, hi)]
                ([0x55; 0x55; 4; 0x0F; vlo; vhi] ++ rest) t o Hq) as E.
  assert (E' :
    HiwonderBoardController.read_servo_positions [servo_id]
      (mkWorld (0x55 :: 0x55 :: 6 :: command :: 1 :: servo_id :: lo :: hi
                  :: 0x55 :: 0x55 :: 4 :: 0x0F :: vlo :: vhi :: rest) t o) =
    (mkWorld (0x55 :: 0x55 :: 4 :: 0x0F :: vlo :: vhi :: rest)
       (t ++ [[0x55; 0x55; 4; 0x15; 1; servo_id]])
       (o ++ [PrintTX [0x55; 0x55; 4; 0x15; 1; servo_id];
              PrintResponse [6; command; 1; servo_id; lo; hi]]),
     Ok (Some [(servo_id, Z.lor lo (Z.shiftl hi 8))]))) by exact E.
  clear E.
  unfold HiwonderBoardServo.read_data, HiwonderBoardServo.read_position,
    HiwonderBoardServo.read_voltage.
  unfold bind at 1. unfold bind at 1. cbn [app]. rewrite E'.
  change (len [(servo_id, Z.lor lo (Z.shiftl hi 8))] =? 0) with false.
  cbv iota. unfold ret at 1. cbv iota beta.
  cbn [HiwonderBoardServo.first_position]. rewrite Z.eqb_refl.
  unfold bind at 1. unfold bind at 1.
  pose proof (battery_voltage_well_formed vlo vhi rest) as V.
  cbn [app] in V. rewrite V.
  unfold ret. cbv iota beta.
  rewrite (lor_low_high vlo vhi) by assumption.
  eexists. rewrite <- !app_assoc. reflexivity.
Qed.

Lemma board_servo_read_data_decodes_witness :
  exists o',
    HiwonderBoardServo.read_data 1
      (mkWorld ([0x55; 0x55; 6; 0x15; 1; 1; 0xEE; 0x02]
                  ++ [0x55; 0x55; 4; 0x0F; 0xB8; 0x1B] ++ []) [] []) =
    (mkWorld []
       ([] ++ [[0x55; 0x55; 4; 0x15; 1; 1]; [0x55; 0x55; 2; 0x0F]]) o',
     Ok (mkData (HiwonderBoardServo.units_to_rad (Z.lor 0xEE (Z.shiftl 0x02 8)))
                0 0 (inject_Z (0xB8 + 256 * 0x1B) / 1000)%Q 0)).
Proof.
  apply (board_servo_read_data_decodes 1 0x15 0xEE 0x02 0xB8 0x1B [] [] []).
  - reflexivity.
  - lia.
  - lia.
Defined.

Lemma commands_loop_missing_offset
    (joints_offsets : list (string * Q)) (duration : Z)
    (items : list (string * Q)) :
  forall (servo_commands : list (Z * Z * Z)) (w : World),
    tx (fst (HWI.commands_loop joints_offsets items duration servo_commands w))
      = tx w
    /\ (offsets_cover joints_offsets (map fst items) = false ->
        snd (HWI.commands_loop joints_offsets items duration servo_commands w)
          = Raise KeyError).
Proof.
  induction items as [| [joint_name position] items IH];
    intros servo_commands w.
  - split; [reflexivity | discriminate].
  - cbn [HWI.commands_loop map fst offsets_cover forallb].
    fold (known_joint joint_name).
    destruct (known_joint joint_name) eqn:Hk; cbn [negb orb].
    + destruct (known_joint_lookup joint_name Hk) as (servo_id & Hid & _).
      unfold bind at 1 3, lift at 1 3, dict_get at 1 3. rewrite Hid.
      unfold dict_in.
      unfold bind at 1 2, lift at 1 2, dict_get at 1 2.
      destruct (dict_lookup String.eqb joints_offsets joint_name)
        as [offset |].
      * cbn [andb]. apply IH.
      * split; reflexivity.
    + unfold bind, print. cbn [andb].
      destruct (IH servo_commands
                  (mkWorld (rx w) (tx w)
                           (stdout w ++ [PrintUnknownJoint joint_name])))
        as [Ht Hr].
      exact (conj Ht Hr).
Qed.

(** X23: a batch is sent whole or not at all.  When the mapping names a
    known joint for which the configuration has no calibration offset,
    [set_position_all] raises [KeyError] and no move command is written,
    not even for the joints that precede it. *)
Theorem set_position_all_missing_offset
    (joints_offsets : list (string * Q)) (items : list (string * Q))
    (move_duration_ms : option Z) (w : World) :
  offsets_cover joints_offsets (map fst items) = false ->
  snd (HWI.set_position_all joints_offsets items move_duration_ms w)
    = Raise KeyError
  /\ tx (fst (HWI.set_position_all joints_offsets items move_duration_ms w))
     = tx w.
Proof.
  intros Hcover. unfold HWI.set_position_all.
  set (d := match move_duration_ms with
            | Some d => d
            | None => HWI.default_move_duration_ms
            end).
  destruct (commands_loop_missing_offset joints_offsets d items [] w)
    as [Ht Hr].
  specialize (Hr Hcover). unfold bind at 1 3.
  destruct (HWI.commands_loop joints_offsets items d [] w)
    as [w1 [cmds | e]]; cbn [fst snd] in *; [discriminate |].
  injection Hr as ->. split; [reflexivity | exact Ht].
Qed.

Lemma set_position_all_missing_offset_witness :
  snd (HWI.set_position_all example_offsets
         [("left_knee", 1 # 2); ("head_pitch", 0 # 1)]%string None
         empty_world) = Raise KeyError
  /\ tx (fst (HWI.set_position_all example_offsets
                [("left_knee", 1 # 2); ("head_pitch", 0 # 1)]%string None
                empty_world)) = tx empty_world.
Proof.
  apply (set_position_all_missing_offset example_offsets
           [("left_knee", 1 # 2); ("head_pitch", 0 # 1)]%string None
           empty_world).
  reflexivity.
Defined.

(** X24: the count byte governs.  When a response carries more triples
    than its count byte announces, [read_servo_positions] returns exactly
    the announced number of leading triples and ignores the others. *)
Theorem positions_count_limits
    (servo_ids : list Z) (command : Z) (first more : list (Z * Z * Z))
    (rest : list Z) (t : list (list Z)) (o : list line) :
  forallb is_byte (board_frame 0x15 (len servo_ids :: servo_ids)) = true ->
  let payload := len first :: flat_map triple_bytes (first ++ more) in
  snd (HiwonderBoardController.read_servo_positions servo_ids
         (mkWorld ([0x55; 0x55; 2 + len payload; command] ++ payload ++ rest)
                  t o)) =
  Ok (Some (map triple_position first)).
Proof.
  intros Hq. cbv zeta.
  set (payload := len first :: flat_map triple_bytes (first ++ more)).
  unfold HiwonderBoardController.read_servo_positions.
  unfold bind at 1. rewrite board_send_command.
  change HiwonderBoardController.CMD_MULT_SERVO_POS_READ with 0x15.
  cbv zeta. cbn [app] in Hq |- *. rewrite Hq. cbn [rx tx stdout].
  unfold bind at 1.
  rewrite (board_read_response_framed (2 + len payload) command payload rest)
    by reflexivity.
  set (r := 2 + len payload :: command :: payload).
  assert (Hnz : (len r =? 0) || negb (3 <=? len r) = false).
  { unfold r, payload, len. cbn [List.length].
    apply orb_false_iff. split.
    - apply Z.eqb_neq. lia.
    - apply negb_false_iff, Z.leb_le. lia. }
  rewrite Hnz. unfold bind at 1, lift at 1.
  change (getitem r 2) with (Ok (len first)). cbv iota beta.
  replace (Z.to_nat (len first)) with (List.length first)
    by (unfold len; now rewrite Nat2Z.id).
  unfold bind at 1.
  unfold r at 1, payload at 2. rewrite flat_map_app.
  change (2 + len payload :: command
            :: len first
               :: flat_map triple_bytes first ++ flat_map triple_bytes more)
    with ([2 + len payload; command; len first]
            ++ flat_map triple_bytes first ++ flat_map triple_bytes more).
  rewrite positions_loop_hits by reflexivity.
  reflexivity.
Qed.

Lemma positions_count_limits_witness :
  snd (HiwonderBoardController.read_servo_positions [1; 2]
         (mkWorld [0x55; 0x55; 9; 0x15; 1; 1; 0xF4; 0x01; 2; 0x58; 0x02]
                  [] [])) =
  Ok (Some [(1, 500)]).
Proof.
  apply (positions_count_limits [1; 2] 0x15 [(1, 0xF4, 0x01)]
           [(2, 0x58, 0x02)] [] [] []).
  reflexivity.
Defined.

(** * The dictionary of positions *)

Lemma dict_lookup_set (d : list (Z * Z)) (k v k' : Z) :
  dict_lookup Z.eqb (dict_set Z.eqb d k v) k' =
  if k =? k' then Some v else dict_lookup Z.eqb d k'.
Proof.
  induction d as [| [k0 v0] d IH]; cbn [dict_set dict_lookup].
  - reflexivity.
  - destruct (Z.eqb_spec k0 k) as [-> | Hne]; cbn [dict_lookup].
    + destruct (k =? k'); reflexivity.
    + destruct (Z.eqb_spec k0 k') as [-> | Hne'].
      * destruct (Z.eqb_spec k k'); [congruence | reflexivity].
      * exact IH.
Qed.

Lemma positions_dict_snoc (positions_data : list (Z * Z)) (k v : Z) :
  positions_dict (positions_data ++ [(k, v)]) =
  dict_set Z.eqb (positions_dict positions_data) k v.
Proof. unfold positions_dict. now rewrite fold_left_app. Qed.

(** X25: a servo listed twice.  The dictionary [get_present_positions]
    builds from the board's answer holds, for every servo id, the position
    of the last pair with that id (and nothing for an id that does not
    occur), whereas the adapter's [read_position] reports the first pair
    of its servo. *)
Theorem positions_dict_last_wins (positions_data : list (Z * Z)) (servo_id : Z) :
  dict_lookup Z.eqb (positions_dict positions_data) servo_id =
  option_map snd (find (fun p => fst p =? servo_id) (rev positions_data))
  /\ HiwonderBoardServo.first_position servo_id positions_data =
     match find (fun p => fst p =? servo_id) positions_data with
     | Some p => HiwonderBoardServo.units_to_rad (snd p)
     | None => 0%Q
     end.
Proof.
  split.
  - induction positions_data as [| [k v] l IH] using rev_ind;
      [reflexivity |].
    rewrite positions_dict_snoc, dict_lookup_set, rev_app_distr.
    cbn [rev app find fst]. destruct (k =? servo_id); [reflexivity | exact IH].
  - induction positions_data as [| [k v] l IH]; [reflexivity |].
    cbn [HiwonderBoardServo.first_position find fst].
    destruct (k =? servo_id); [reflexivity | exact IH].
Qed.

Example positions_dict_duplicate :
  dict_lookup Z.eqb (positions_dict [(1, 500); (2, 600); (1, 700)]) 1
    = Some 700
  /\ HiwonderBoardServo.first_position 1 [(1, 500); (2, 600); (1, 700)]
     = HiwonderBoardServo.units_to_rad 500.
Proof. split; reflexivity. Qed.
